(** * The Village Vault: the events manager (src/events-manager.js)

    A shallow embedding of the [EventsManager] class: the window
    calculators for monthly and weekly repeating events, the countdown,
    the three batch queries and the one-second cache of
    [getActiveEvents], together with the properties of the calculator
    that the specification states.

    Instants are JavaScript time values: integer milliseconds since
    1970-01-01T00:00:00Z, modelled as [Z].  The time-value range limit of
    [Date] (TimeClip, +-8.64e15 ms) is not modelled. *)

From Stdlib Require Import ZArith List String Ascii Bool Lia Permutation Sorted.
From Stdlib Require DecimalString.
Import ListNotations.

Local Open Scope string_scope.
Local Open Scope list_scope.
Local Open Scope Z_scope.

(** ** ECMAScript time arithmetic (ECMA-262, "Date objects")

    The [Date] methods the events manager calls, written from the
    abstract operations of the language specification. *)

Module JSTime.

Definition msPerSecond : Z := 1000.
Definition msPerMinute : Z := 60000.
Definition msPerHour : Z := 3600000.
Definition msPerDay : Z := 86400000.

Definition Day (t : Z) : Z := t / msPerDay.
Definition TimeWithinDay (t : Z) : Z := t mod msPerDay.

Definition isLeapYear (y : Z) : bool :=
  ((y mod 4 =? 0) && negb (y mod 100 =? 0)) || (y mod 400 =? 0).

Definition DaysInYear (y : Z) : Z := if isLeapYear y then 366 else 365.

Definition DayFromYear (y : Z) : Z :=
  365 * (y - 1970) + (y - 1969) / 4 - (y - 1901) / 100 + (y - 1601) / 400.

(** The year whose first day is the last one not after day number [d]:
    an estimate from the mean year length, corrected by one. *)
Definition YearFromDay (d : Z) : Z :=
  let y := 1970 + (400 * d) / 146097 in
  if d <? DayFromYear y then y - 1
  else if DayFromYear (y + 1) <=? d then y + 1
  else y.

Definition YearFromTime (t : Z) : Z := YearFromDay (Day t).

Definition InLeapYear (t : Z) : Z :=
  if isLeapYear (YearFromTime t) then 1 else 0.

Definition DayWithinYear (t : Z) : Z := Day t - DayFromYear (YearFromTime t).

(** Day number within the year of the first day of month [m] (0-11);
    [leap] is 0 or 1.  The value at 12 is the length of the year. *)
Definition monthStartDay (m leap : Z) : Z :=
  if m =? 0 then 0
  else if m =? 1 then 31
  else if m =? 2 then 59 + leap
  else if m =? 3 then 90 + leap
  else if m =? 4 then 120 + leap
  else if m =? 5 then 151 + leap
  else if m =? 6 then 181 + leap
  else if m =? 7 then 212 + leap
  else if m =? 8 then 243 + leap
  else if m =? 9 then 273 + leap
  else if m =? 10 then 304 + leap
  else if m =? 11 then 334 + leap
  else 365 + leap.

Definition monthOfYearDay (d leap : Z) : Z :=
  if d <? 31 then 0
  else if d <? 59 + leap then 1
  else if d <? 90 + leap then 2
  else if d <? 120 + leap then 3
  else if d <? 151 + leap then 4
  else if d <? 181 + leap then 5
  else if d <? 212 + leap then 6
  else if d <? 243 + leap then 7
  else if d <? 273 + leap then 8
  else if d <? 304 + leap then 9
  else if d <? 334 + leap then 10
  else 11.

Definition MonthFromTime (t : Z) : Z :=
  monthOfYearDay (DayWithinYear t) (InLeapYear t).

Definition DateFromTime (t : Z) : Z :=
  DayWithinYear t + 1 - monthStartDay (MonthFromTime t) (InLeapYear t).

Definition WeekDay (t : Z) : Z := (Day t + 4) mod 7.

Definition MakeTime (hour min sec ms : Z) : Z :=
  hour * msPerHour + min * msPerMinute + sec * msPerSecond + ms.

Definition MakeDay (year month date : Z) : Z :=
  let ym := year + month / 12 in
  let mn := month mod 12 in
  DayFromYear ym + monthStartDay mn (if isLeapYear ym then 1 else 0) + date - 1.

Definition MakeDate (day time : Z) : Z := day * msPerDay + time.

(** [Date.UTC(year, month, date, hours, minutes, seconds, ms)]; a year
    from 0 to 99 stands for 1900 + year. *)
Definition DateUTC (year month date hours minutes seconds ms : Z) : Z :=
  let yr := if (0 <=? year) && (year <=? 99) then 1900 + year else year in
  MakeDate (MakeDay yr month date) (MakeTime hours minutes seconds ms).

Definition getUTCFullYear (t : Z) : Z := YearFromTime t.
Definition getUTCMonth (t : Z) : Z := MonthFromTime t.
Definition getUTCDate (t : Z) : Z := DateFromTime t.
Definition getUTCDay (t : Z) : Z := WeekDay t.

(** [d.setUTCDate(dt)]: the day of the month is replaced, the time within
    the day is kept. *)
Definition setUTCDate (t dt : Z) : Z :=
  MakeDate (MakeDay (YearFromTime t) (MonthFromTime t) dt) (TimeWithinDay t).

(** [d.setUTCHours(h, m, s, ms)]: the day is kept. *)
Definition setUTCHours (t hour min sec ms : Z) : Z :=
  MakeDate (Day t) (MakeTime hour min sec ms).

(** The time zone of the host, as ECMA-262 has it in [LocalTZA(t, isUTC)]:
    the offset of local time from UTC in milliseconds (positive east of
    Greenwich) that is in force at [t], where [t] is a UTC time value
    when [isUTC] is true and a local time value otherwise. With
    daylight saving the offset changes with [t]. *)
Definition TimeZone : Type := Z -> bool -> Z.

(** A host whose offset never changes. *)
Definition fixedOffset (tza : Z) : TimeZone := fun _ _ => tza.

Definition LocalTime (tz : TimeZone) (t : Z) : Z := t + tz t true.
Definition UTC (tz : TimeZone) (t : Z) : Z := t - tz t false.

(** [d.getDate()]: the day of the month in local time. *)
Definition getDate (tz : TimeZone) (t : Z) : Z := DateFromTime (LocalTime tz t).

(** [d.setDate(dt)]: the day of the month of the local time is replaced,
    the local time within the day is kept, and the result is read back
    as a UTC time value with the offset in force at the new local time. *)
Definition setDate (tz : TimeZone) (t dt : Z) : Z :=
  let lt := LocalTime tz t in
  UTC tz
    (MakeDate (MakeDay (YearFromTime lt) (MonthFromTime lt) dt) (TimeWithinDay lt)).

End JSTime.

(** ** Data model *)

(** A [Date] object: [Some t] holds the time value [t], [None] is the
    Invalid Date (time value NaN).  Every comparison with the Invalid
    Date is false. *)
Definition JSDate : Type := option Z.

Definition date_lt (a b : JSDate) : bool :=
  match a, b with Some x, Some y => x <? y | _, _ => false end.
Definition date_le (a b : JSDate) : bool :=
  match a, b with Some x, Some y => x <=? y | _, _ => false end.
Definition date_gt (a b : JSDate) : bool := date_lt b a.
Definition date_ge (a b : JSDate) : bool := date_le b a.

(** A number that may be NaN ([None]): [undefined] in arithmetic, or the
    result of a failed [parseInt]. *)
Definition JSNumber : Type := option Z.

Definition num_lt (a b : JSNumber) : bool :=
  match a, b with Some x, Some y => x <? y | _, _ => false end.
Definition num_le (a b : JSNumber) : bool :=
  match a, b with Some x, Some y => x <=? y | _, _ => false end.

(** An entry of [repeating_events], [one_time_events] or
    [non_repeating_events]: a JSON object, every field of which may be
    missing.  [start] and [end_] are date strings, held as the [Date]
    that [new Date] makes of them ([Some None]: a string that is not a
    date); [durationDays] is a JSON number. *)
Module Event.
Record t : Type := mk {
  title : string;
  icon : string;
  image : option string;
  description : option string;
  type : option string;
  ignoreDate : bool;
  baseDate : option string;
  modifier : option string;
  durationDays : option Z;
  start : option JSDate;
  end_ : option JSDate;
  active : option bool
}.
End Event.

(** The loaded configuration; each array may be missing. *)
Module Config.
Record t : Type := mk {
  repeating_events : option (list Event.t);
  one_time_events : option (list Event.t);
  non_repeating_events : option (list Event.t)
}.
End Config.

Module Window.
Record t : Type := mk { start : JSDate; end_ : JSDate }.
End Window.

Module Countdown.
Record t : Type := mk {
  days : Z; hours : Z; minutes : Z; seconds : Z; totalMs : Z
}.
End Countdown.

Module ActiveEvent.
Record t : Type := mk {
  title : string;
  icon : string;
  image : option string;
  description : string;
  type : string;
  modifier : option string;
  start : Z;
  end_ : Z;
  countdown : Countdown.t;
  countdownText : string
}.
End ActiveEvent.

Module UpcomingEvent.
Record t : Type := mk {
  title : string;
  icon : string;
  image : option string;
  description : string;
  type : string;
  modifier : option string;
  start : JSDate;
  end_ : JSDate;
  isActive : bool
}.
End UpcomingEvent.

Module CalendarEntry.
Record t : Type := mk {
  date : Z;
  fullDate : Z;
  title : string;
  icon : string;
  type : string;
  isStart : bool;
  isEnd : bool
}.
End CalendarEntry.

(** The outcome of a call that may throw an [Error] with a message. *)
Inductive Result (A : Type) : Type :=
| Ok (a : A)
| Throw (message : string).
Arguments Ok {A} a.
Arguments Throw {A} message.

(** ** Helpers standing for JavaScript built-ins *)

Definition isWhiteSpace (c : ascii) : bool :=
  let n := nat_of_ascii c in
  (Nat.eqb n 32 || Nat.eqb n 9 || Nat.eqb n 10 || Nat.eqb n 11 ||
   Nat.eqb n 12 || Nat.eqb n 13)%bool.

Fixpoint skipWhiteSpace (s : string) : string :=
  match s with
  | String c r => if isWhiteSpace c then skipWhiteSpace r else s
  | EmptyString => s
  end.

Definition digitValue (c : ascii) : option Z :=
  let n := nat_of_ascii c in
  if (Nat.leb 48 n && Nat.leb n 57)%bool then Some (Z.of_nat (n - 48)) else None.

(** The value of the longest prefix of decimal digits, [acc] being the
    value read so far ([None]: no digit yet). *)
Fixpoint parseDigits (s : string) (acc : option Z) : option Z :=
  match s with
  | String c r =>
      match digitValue c with
      | Some v =>
          parseDigits r (Some (10 * match acc with Some a => a | None => 0 end + v))
      | None => acc
      end
  | EmptyString => acc
  end.

(** [parseInt(s, 10)]; [None] is NaN. *)
Definition parseInt10 (s : option string) : JSNumber :=
  match s with
  | None => None
  | Some s =>
      match skipWhiteSpace s with
      | String "-" r => option_map Z.opp (parseDigits r None)
      | String "+" r => parseDigits r None
      | r => parseDigits r None
      end
  end.

(** [array.indexOf(x)] on an array of strings; -1 when absent. *)
Fixpoint indexOfFrom (i : Z) (l : list string) (x : string) : Z :=
  match l with
  | [] => -1
  | y :: r => if String.eqb y x then i else indexOfFrom (i + 1) r x
  end.

Definition indexOf (l : list string) (x : option string) : Z :=
  match x with
  | Some s => indexOfFrom 0 l s
  | None => -1
  end.

(** A template literal's rendering of a value that may be [undefined]. *)
Definition showString (s : option string) : string :=
  match s with Some s => s | None => "undefined" end.

(** [x || fallback] on a string field: the empty string is falsy. *)
Definition truthyString (s : option string) : bool :=
  match s with
  | Some s => negb (String.eqb s "")
  | None => false
  end.

Definition orString (s : option string) (fallback : string) : string :=
  if truthyString s then showString s else fallback.

Definition orNull (s : option string) : option string :=
  if truthyString s then s else None.

(** [new Date(event.start)]: a missing field gives the Invalid Date. *)
Definition newDate (field : option JSDate) : JSDate :=
  match field with Some d => d | None => None end.

(** [new Date(Date.UTC(y, m, d, 8, 0, 0, 0))] with a day that may be NaN. *)
Definition dateUTCAt8 (year month : Z) (day : JSNumber) : JSDate :=
  option_map (fun d => JSTime.DateUTC year month d 8 0 0 0) day.

(** [x.setUTCDate(x.getUTCDate() + n)] on a copy of [x]. *)
Definition addUTCDays (x : JSDate) (n : JSNumber) : JSDate :=
  match x, n with
  | Some t, Some k => Some (JSTime.setUTCDate t (JSTime.getUTCDate t + k))
  | _, _ => None
  end.

(** ** The calculators *)

Definition calculateMonthlyEvent (baseDate : option string)
    (durationDays : JSNumber) (referenceDate : Z) : Window.t :=
  let dayOfMonth := parseInt10 baseDate in
  let currentDate := referenceDate in
  let currentYear := JSTime.getUTCFullYear currentDate in
  let currentMonth := JSTime.getUTCMonth currentDate in
  let currentDay := JSTime.getUTCDate currentDate in
  let startDate :=
    if num_lt (Some currentDay) dayOfMonth then
      dateUTCAt8 currentYear currentMonth dayOfMonth
    else
      let potentialStart := dateUTCAt8 currentYear currentMonth dayOfMonth in
      let potentialEnd := addUTCDays potentialStart durationDays in
      if date_ge (Some currentDate) potentialStart
         && date_lt (Some currentDate) potentialEnd
      then potentialStart
      else dateUTCAt8 currentYear (currentMonth + 1) dayOfMonth in
  let endDate := addUTCDays startDate durationDays in
  Window.mk startDate endDate.

Definition daysOfWeek : list string :=
  ["Sunday"; "Monday"; "Tuesday"; "Wednesday"; "Thursday"; "Friday"; "Saturday"].

(** The previous week's occurrence, as the code computes it under its
    guard. *)
Definition lastWeekWindow (daysSinceTarget : Z) (durationDays : JSNumber)
    (currentDate : Z) : Window.t :=
  let lastWeekStart :=
    JSTime.setUTCHours
      (JSTime.setUTCDate currentDate (JSTime.getUTCDate currentDate - daysSinceTarget))
      8 0 0 0 in
  Window.mk (Some lastWeekStart) (addUTCDays (Some lastWeekStart) durationDays).

(** The next occurrence, projected forward. *)
Definition nextWeekWindow (targetDay currentDay : Z) (durationDays : JSNumber)
    (currentDate : Z) : Window.t :=
  let daysUntilTarget := targetDay - currentDay in
  let daysUntilTarget :=
    if daysUntilTarget <=? 0 then daysUntilTarget + 7 else daysUntilTarget in
  let startDate :=
    JSTime.setUTCHours
      (JSTime.setUTCDate currentDate (JSTime.getUTCDate currentDate + daysUntilTarget))
      8 0 0 0 in
  Window.mk (Some startDate) (addUTCDays (Some startDate) durationDays).

Definition calculateWeeklyEvent (baseDate : option string)
    (durationDays : JSNumber) (referenceDate : Z) : Result Window.t :=
  let targetDay := indexOf daysOfWeek baseDate in
  if targetDay =? -1 then
    Throw ("Invalid day of week: " ++ showString baseDate)%string
  else
    let currentDate := referenceDate in
    let currentDay := JSTime.getUTCDay currentDate in
    let daysSinceTarget := Z.rem (currentDay - targetDay + 7) 7 in
    let last := lastWeekWindow daysSinceTarget durationDays currentDate in
    if (0 <? daysSinceTarget) && num_le (Some daysSinceTarget) durationDays
       && date_ge (Some currentDate) (Window.start last)
       && date_lt (Some currentDate) (Window.end_ last)
    then Ok last
    else Ok (nextWeekWindow targetDay currentDay durationDays currentDate).

Definition calculateRepeatingEventDates (event : Event.t) (referenceDate : Z)
  : Result Window.t :=
  let baseDate := Event.baseDate event in
  let modifier := Event.modifier event in
  let durationDays := Event.durationDays event in
  match modifier with
  | Some m =>
      if String.eqb m "monthly" then
        Ok (calculateMonthlyEvent baseDate durationDays referenceDate)
      else if String.eqb m "weekly" then
        calculateWeeklyEvent baseDate durationDays referenceDate
      else Throw ("Unknown modifier: " ++ showString modifier)%string
  | None => Throw ("Unknown modifier: " ++ showString modifier)%string
  end.

Definition calculateCountdown (endDate currentDate : Z) : Countdown.t :=
  let timeRemaining := endDate - currentDate in
  if timeRemaining <=? 0 then Countdown.mk 0 0 0 0 0
  else
    let days := timeRemaining / (1000 * 60 * 60 * 24) in
    let hours := Z.rem timeRemaining (1000 * 60 * 60 * 24) / (1000 * 60 * 60) in
    let minutes := Z.rem timeRemaining (1000 * 60 * 60) / (1000 * 60) in
    let seconds := Z.rem timeRemaining (1000 * 60) / 1000 in
    Countdown.mk days hours minutes seconds timeRemaining.

(** [String(n)] for an integer. *)
Definition showNumber (n : Z) : string :=
  DecimalString.NilZero.string_of_int (Z.to_int n).

Definition formatCountdown (countdown : Countdown.t) : string :=
  if 0 <? Countdown.days countdown then
    (showNumber (Countdown.days countdown) ++ "d "
       ++ showNumber (Countdown.hours countdown) ++ "h")%string
  else if 0 <? Countdown.hours countdown then
    (showNumber (Countdown.hours countdown) ++ "h "
       ++ showNumber (Countdown.minutes countdown) ++ "m")%string
  else if 0 <? Countdown.minutes countdown then
    (showNumber (Countdown.minutes countdown) ++ "m "
       ++ showNumber (Countdown.seconds countdown) ++ "s")%string
  else (showNumber (Countdown.seconds countdown) ++ "s")%string.

(** ** Arrays: [forEach] with [push], and the stable [sort] *)

(** [array.forEach(x => { ... acc.push(...) ... })]: the body is given by
    the elements it pushes. *)
Definition forEachPush {A B : Type} (body : A -> list B) (array : list A)
    (acc : list B) : list B :=
  fold_left (fun acc x => acc ++ body x) array acc.

(** [if (array) array.forEach(...)] on an array that may be missing. *)
Definition forEachPushIfPresent {A B : Type} (body : A -> list B)
    (array : option (list A)) (acc : list B) : list B :=
  match array with
  | Some l => forEachPush body l acc
  | None => acc
  end.

Fixpoint insertBy {A : Type} (key : A -> Z) (x : A) (l : list A) : list A :=
  match l with
  | [] => [x]
  | y :: r => if key x <=? key y then x :: l else y :: insertBy key x r
  end.

(** [array.sort((a, b) => key(a) - key(b))]: ascending and stable. *)
Definition sortBy {A : Type} (key : A -> Z) (l : list A) : list A :=
  fold_right (insertBy key) [] l.

(** [event.active === false] *)
Definition isSoftDeleted (event : Event.t) : bool :=
  match Event.active event with
  | Some false => true
  | _ => false
  end.

(** ** The manager and its queries *)

(** Arrays of active events live in a store, so that two results can be
    compared by identity; a reference is an index into it. *)
Definition ArrayRef : Type := nat.
Definition Heap : Type := list (list ActiveEvent.t).

Definition alloc (heap : Heap) (array : list ActiveEvent.t) : ArrayRef * Heap :=
  (List.length heap, heap ++ [array]).

Definition deref (heap : Heap) (r : ArrayRef) : option (list ActiveEvent.t) :=
  nth_error heap r.

Module EventsManager.
Record t : Type := mk {
  eventsConfig : option Config.t;
  cachedActiveEvents : option ArrayRef;
  lastUpdateTime : option Z
}.
End EventsManager.

(** [new EventsManager()] *)
Definition constructor : EventsManager.t :=
  EventsManager.mk None None None.

(** The index of the first element that [invalid] rejects, from [i] on:
    where a [forEach] that throws on such an element stops. *)
Fixpoint firstInvalidFrom {A : Type} (invalid : A -> bool) (i : Z)
    (array : list A) : option Z :=
  match array with
  | [] => None
  | x :: r => if invalid x then Some i else firstInvalidFrom invalid (i + 1) r
  end.

Definition firstInvalid {A : Type} (invalid : A -> bool)
    (array : option (list A)) : option Z :=
  match array with
  | Some l => firstInvalidFrom invalid 0 l
  | None => None
  end.

Definition isDefined {A : Type} (x : option A) : bool :=
  match x with Some _ => true | None => false end.

(** [validateConfig]: the message of the error thrown, [None] when the
    configuration is accepted. *)
Definition validateConfig (this : EventsManager.t) : option string :=
  match EventsManager.eventsConfig this with
  | None => Some "Events configuration is empty"
  | Some cfg =>
      if negb (isDefined (Config.repeating_events cfg))
         && negb (isDefined (Config.one_time_events cfg))
      then Some "Configuration must have repeating_events or one_time_events"
      else
        match firstInvalid
                (fun event =>
                   String.eqb (Event.title event) ""
                   || negb (truthyString (Event.modifier event))
                   || negb (truthyString (Event.baseDate event))
                   || negb (isDefined (Event.durationDays event)))
                (Config.repeating_events cfg) with
        | Some index =>
            Some ("Invalid repeating event at index " ++ showNumber index)%string
        | None =>
            match firstInvalid
                    (fun event =>
                       String.eqb (Event.title event) ""
                       || negb (isDefined (Event.start event))
                       || negb (isDefined (Event.end_ event)))
                    (Config.one_time_events cfg) with
            | Some index =>
                Some ("Invalid one-time event at index " ++ showNumber index)%string
            | None => None
            end
        end
  end.

(** [loadEvents(source)] with a configuration object: the configuration
    is stored, then validated; the error, if any, is thrown again. *)
Definition loadEvents (this : EventsManager.t) (source : Config.t)
  : EventsManager.t * option string :=
  let this' :=
    EventsManager.mk (Some source) (EventsManager.cachedActiveEvents this)
      (EventsManager.lastUpdateTime this) in
  (this', validateConfig this').

Definition activeRepeatingView (event : Event.t) (start end_ currentDate : Z)
  : ActiveEvent.t :=
  let countdown := calculateCountdown end_ currentDate in
  ActiveEvent.mk (Event.title event) (Event.icon event)
    (orNull (Event.image event)) (orString (Event.description event) "")
    "repeating" (Event.modifier event) start end_ countdown
    (formatCountdown countdown).

Definition activeOneTimeView (event : Event.t) (start end_ currentDate : Z)
  : ActiveEvent.t :=
  let countdown := calculateCountdown end_ currentDate in
  ActiveEvent.mk (Event.title event) (Event.icon event)
    (orNull (Event.image event)) (orString (Event.description event) "")
    "one-time" None start end_ countdown (formatCountdown countdown).

(** [currentDate >= start && currentDate < end] *)
Definition isWithin (currentDate : Z) (start end_ : JSDate) : bool :=
  date_ge (Some currentDate) start && date_lt (Some currentDate) end_.

(** The body of the loop over [repeating_events] in [getActiveEvents]:
    what one definition pushes.  An error thrown by the calculator is
    caught (and logged), nothing is pushed. *)
Definition activeRepeating (currentDate : Z) (event : Event.t)
  : list ActiveEvent.t :=
  if isSoftDeleted event then []
  else
    match calculateRepeatingEventDates event currentDate with
    | Throw _ => []
    | Ok w =>
        if isWithin currentDate (Window.start w) (Window.end_ w) then
          match Window.start w, Window.end_ w with
          | Some start, Some end_ =>
              [activeRepeatingView event start end_ currentDate]
          | _, _ => []
          end
        else []
    end.

(** The body of the loop over [one_time_events]. *)
Definition activeOneTime (currentDate : Z) (event : Event.t)
  : list ActiveEvent.t :=
  if isSoftDeleted event then []
  else
    let start := newDate (Event.start event) in
    let end_ := newDate (Event.end_ event) in
    if isWithin currentDate start end_ then
      match start, end_ with
      | Some start, Some end_ =>
          [activeOneTimeView event start end_ currentDate]
      | _, _ => []
      end
    else [].

(** The recomputation in [getActiveEvents], below the cache check. *)
Definition computeActiveEvents (cfg : Config.t) (currentDate : Z)
  : list ActiveEvent.t :=
  let activeEvents := [] in
  let activeEvents :=
    forEachPushIfPresent (activeRepeating currentDate)
      (Config.repeating_events cfg) activeEvents in
  let activeEvents :=
    forEachPushIfPresent (activeOneTime currentDate)
      (Config.one_time_events cfg) activeEvents in
  sortBy (fun a => Countdown.totalMs (ActiveEvent.countdown a)) activeEvents.

(** [this.lastUpdateTime] as a condition: a number is truthy unless 0. *)
Definition truthyNumber (n : option Z) : bool :=
  match n with
  | Some t => negb (t =? 0)
  | None => false
  end.

Definition getActiveEvents (this : EventsManager.t) (heap : Heap)
    (currentDate : Z) (forceRefresh : bool)
  : ArrayRef * EventsManager.t * Heap :=
  match EventsManager.eventsConfig this with
  | None => let (r, heap') := alloc heap [] in (r, this, heap')
  | Some cfg =>
      let recompute :=
        let (r, heap') := alloc heap (computeActiveEvents cfg currentDate) in
        (r, EventsManager.mk (Some cfg) (Some r) (Some currentDate), heap') in
      if negb forceRefresh
         && isDefined (EventsManager.cachedActiveEvents this)
         && truthyNumber (EventsManager.lastUpdateTime this)
      then
        match EventsManager.cachedActiveEvents this,
              EventsManager.lastUpdateTime this with
        | Some cached, Some lastUpdateTime =>
            let timeSinceUpdate := currentDate - lastUpdateTime in
            if timeSinceUpdate <? 1000 then (cached, this, heap)
            else recompute
        | _, _ => recompute
        end
      else recompute
  end.

(** [isEventActive(eventTitle, currentDate)] *)
Definition isEventActive (this : EventsManager.t) (heap : Heap)
    (eventTitle : string) (currentDate : Z)
  : bool * EventsManager.t * Heap :=
  let '(r, this', heap') := getActiveEvents this heap currentDate false in
  let activeEvents := match deref heap' r with Some l => l | None => [] end in
  (existsb (fun event => String.eqb (ActiveEvent.title event) eventTitle)
     activeEvents,
   this', heap').

Definition upcomingView (event : Event.t) (type : string)
    (modifier : option string) (start end_ : JSDate) (currentDate : Z)
  : UpcomingEvent.t :=
  UpcomingEvent.mk (Event.title event) (Event.icon event)
    (orNull (Event.image event)) (orString (Event.description event) "")
    type modifier start end_ (isWithin currentDate start end_).

(** The body of the loop over [repeating_events] in [getUpcomingEvents]. *)
Definition upcomingRepeating (currentDate endDate : Z) (event : Event.t)
  : list UpcomingEvent.t :=
  if isSoftDeleted event then []
  else
    match calculateRepeatingEventDates event currentDate with
    | Throw _ => []
    | Ok w =>
        if date_lt (Window.start w) (Some endDate) then
          [upcomingView event "repeating" (Event.modifier event)
             (Window.start w) (Window.end_ w) currentDate]
        else []
    end.

(** The body of the loop over [one_time_events]. *)
Definition upcomingOneTime (currentDate endDate : Z) (event : Event.t)
  : list UpcomingEvent.t :=
  if isSoftDeleted event then []
  else
    let start := newDate (Event.start event) in
    let end_ := newDate (Event.end_ event) in
    if date_lt start (Some endDate) && date_gt end_ (Some currentDate)
    then [upcomingView event "one-time" None start end_ currentDate]
    else [].

(** [a.start.getTime()] as a sort key; every pushed [start] is valid. *)
Definition startTime (a : UpcomingEvent.t) : Z :=
  match UpcomingEvent.start a with Some t => t | None => 0 end.

(** [tz] is the time zone of the host: [endDate] is moved with the
    local-time [setDate]. *)
Definition getUpcomingEvents (tz : JSTime.TimeZone) (this : EventsManager.t)
    (currentDate daysAhead : Z) : list UpcomingEvent.t :=
  match EventsManager.eventsConfig this with
  | None => []
  | Some cfg =>
      let upcomingEvents := [] in
      let endDate :=
        JSTime.setDate tz currentDate (JSTime.getDate tz currentDate + daysAhead) in
      let upcomingEvents :=
        forEachPushIfPresent (upcomingRepeating currentDate endDate)
          (Config.repeating_events cfg) upcomingEvents in
      let upcomingEvents :=
        forEachPushIfPresent (upcomingOneTime currentDate endDate)
          (Config.one_time_events cfg) upcomingEvents in
      sortBy startTime upcomingEvents
  end.

Definition calendarEntry (event : Event.t) (type : string) (d : Z)
    (isStart isEnd : bool) : CalendarEntry.t :=
  CalendarEntry.mk (JSTime.getUTCDate d) d (Event.title event)
    (Event.icon event) type isStart isEnd.

(** The markers of one window in the monthly branch of
    [getCalendarForMonth]. *)
Definition monthlyMarkers (event : Event.t) (monthStart monthEnd : Z)
    (w : Window.t) : list CalendarEntry.t :=
  if date_gt (Window.end_ w) (Some monthStart)
     && date_le (Window.start w) (Some monthEnd)
  then
    match Window.start w, Window.end_ w with
    | Some start, Some end_ =>
        (if start >=? monthStart
         then [calendarEntry event "repeating" start true false] else [])
        ++ (if end_ <=? monthEnd
            then [calendarEntry event "repeating" end_ false true] else [])
    | _, _ => []
    end
  else [].

(** The markers of one window in the weekly loop and in the loop over
    [one_time_events]; [type] is the entry's type. *)
Definition boundedMarkers (event : Event.t) (type : string)
    (monthStart monthEnd : Z) (start end_ : JSDate) : list CalendarEntry.t :=
  if date_gt end_ (Some monthStart) && date_le start (Some monthEnd) then
    match start, end_ with
    | Some start, Some end_ =>
        (if (start >=? monthStart) && (start <=? monthEnd)
         then [calendarEntry event type start true false] else [])
        ++ (if (end_ >=? monthStart) && (end_ <=? monthEnd)
            then [calendarEntry event type end_ false true] else [])
    | _, _ => []
    end
  else [].

(** How a loop or a [try] block ended. [OutOfFuel] is the model's: the
    iteration bound given to the [while] loop was not enough. *)
Inductive Completion : Type :=
| Normal
| Thrown (message : string)
| OutOfFuel.

(** [while (searchDate <= monthEnd) { ...; searchDate += 7 days }]: the
    entries pushed from [searchDate] on; an error keeps those pushed
    before it. *)
Fixpoint weeklySearch (fuel : nat) (event : Event.t)
    (monthStart monthEnd searchDate : Z) : list CalendarEntry.t * Completion :=
  if searchDate <=? monthEnd then
    match fuel with
    | O => ([], OutOfFuel)
    | S fuel' =>
        match calculateRepeatingEventDates event searchDate with
        | Throw message => ([], Thrown message)
        | Ok w =>
            let here :=
              boundedMarkers event "repeating" monthStart monthEnd
                (Window.start w) (Window.end_ w) in
            let searchDate' :=
              JSTime.setUTCDate searchDate (JSTime.getUTCDate searchDate + 7) in
            let (rest, completion) :=
              weeklySearch fuel' event monthStart monthEnd searchDate' in
            (here ++ rest, completion)
        end
    end
  else ([], Normal).

(** Iterations that the weekly search can need between the two bounds. *)
Definition weeklySearchBound (monthStart monthEnd : Z) : nat :=
  Z.to_nat ((monthEnd - monthStart) / (7 * JSTime.msPerDay) + 1).

Definition hasModifier (event : Event.t) (m : string) : bool :=
  match Event.modifier event with
  | Some m' => String.eqb m' m
  | None => false
  end.

(** The body of the loop over [repeating_events] in
    [getCalendarForMonth], with the way its [try] block ended. *)
Definition calendarRepeating (monthStart monthEnd : Z) (event : Event.t)
  : list CalendarEntry.t * Completion :=
  if isSoftDeleted event then ([], Normal)
  else if hasModifier event "monthly" then
    match calculateRepeatingEventDates event monthStart with
    | Throw message => ([], Thrown message)
    | Ok w => (monthlyMarkers event monthStart monthEnd w, Normal)
    end
  else if hasModifier event "weekly" then
    weeklySearch (weeklySearchBound monthStart monthEnd) event
      monthStart monthEnd monthStart
  else ([], Normal).

(** The body of the loop over [one_time_events]. *)
Definition calendarOneTime (monthStart monthEnd : Z) (event : Event.t)
  : list CalendarEntry.t :=
  if isSoftDeleted event then []
  else boundedMarkers event "one-time" monthStart monthEnd
         (newDate (Event.start event)) (newDate (Event.end_ event)).

Definition getCalendarForMonth (this : EventsManager.t) (year month : Z)
  : list CalendarEntry.t :=
  match EventsManager.eventsConfig this with
  | None => []
  | Some cfg =>
      let calendarEntries := [] in
      let monthStart := JSTime.DateUTC year month 1 0 0 0 0 in
      let monthEnd := JSTime.DateUTC year (month + 1) 0 23 59 59 0 in
      let calendarEntries :=
        forEachPushIfPresent
          (fun event => fst (calendarRepeating monthStart monthEnd event))
          (Config.repeating_events cfg) calendarEntries in
      let calendarEntries :=
        forEachPushIfPresent (calendarOneTime monthStart monthEnd)
          (Config.one_time_events cfg) calendarEntries in
      calendarEntries
  end.

(** ** The unified revision of [getUpcomingEvents]

    The second copy of the class in src/events-manager.js reads
    [repeating_events] and [non_repeating_events] through one helper,
    [processEventArray], and chooses the calculator by the fields of the
    definition. *)

Module Unified.

Definition eventType (event : Event.t) : string :=
  if truthyString (Event.type event) then showString (Event.type event)
  else if truthyString (Event.modifier event) then "repeating"
  else "one-time".

(** The dates of a definition: by the calculator when the definition is
    marked [ignoreDate] and has the fields of a recurrence, else its
    explicit [start] and [end]; [None] when it has neither (a warning is
    logged) or the calculator throws (the error is caught and logged). *)
Definition eventDates (currentDate : Z) (event : Event.t)
  : option (JSDate * JSDate) :=
  if Event.ignoreDate event && truthyString (Event.baseDate event)
     && isDefined (Event.modifier event)
     && isDefined (Event.durationDays event)
  then
    match calculateRepeatingEventDates event currentDate with
    | Ok w => Some (Window.start w, Window.end_ w)
    | Throw _ => None
    end
  else if isDefined (Event.start event) && isDefined (Event.end_ event)
  then Some (newDate (Event.start event), newDate (Event.end_ event))
  else None.

(** The body of [processEventArray]'s loop. *)
Definition processEvent (currentDate endDate : Z) (event : Event.t)
  : list UpcomingEvent.t :=
  if isSoftDeleted event then []
  else
    match eventDates currentDate event with
    | Some (start, end_) =>
        if date_lt start (Some endDate) && date_gt end_ (Some currentDate)
        then [upcomingView event (eventType event) (Event.modifier event)
                start end_ currentDate]
        else []
    | None => []
    end.

Definition processEventArray (currentDate endDate : Z)
    (eventArray : option (list Event.t)) (upcomingEvents : list UpcomingEvent.t)
  : list UpcomingEvent.t :=
  forEachPushIfPresent (processEvent currentDate endDate) eventArray
    upcomingEvents.

Definition getUpcomingEvents (tz : JSTime.TimeZone) (this : EventsManager.t)
    (currentDate daysAhead : Z) : list UpcomingEvent.t :=
  match EventsManager.eventsConfig this with
  | None => []
  | Some cfg =>
      let upcomingEvents := [] in
      let endDate :=
        JSTime.setDate tz currentDate (JSTime.getDate tz currentDate + daysAhead) in
      let upcomingEvents :=
        processEventArray currentDate endDate (Config.repeating_events cfg)
          upcomingEvents in
      let upcomingEvents :=
        processEventArray currentDate endDate (Config.non_repeating_events cfg)
          upcomingEvents in
      sortBy startTime upcomingEvents
  end.

(** *** The unified revision of [getCalendarForMonth] *)

(** The body of [processList]'s loop: the markers that one definition
    contributes. An error of the calculator is caught, nothing is
    pushed. The dates of a definition are computed first, by the
    calculator at the start of the month or from its explicit [start]
    and [end]; a weekly definition marked [ignoreDate] is then searched
    week by week instead. *)
Definition calendarEvent (monthStart monthEnd : Z) (event : Event.t)
  : list CalendarEntry.t :=
  if isSoftDeleted event then []
  else
    let dates :=
      if Event.ignoreDate event
         && (truthyString (Event.baseDate event)
             && (truthyString (Event.modifier event)
                 || isDefined (Event.durationDays event)))
      then
        match calculateRepeatingEventDates event monthStart with
        | Ok w => Ok (Some (Window.start w, Window.end_ w))
        | Throw message => Throw message
        end
      else if isDefined (Event.start event) && isDefined (Event.end_ event)
      then Ok (Some (newDate (Event.start event), newDate (Event.end_ event)))
      else if truthyString (Event.baseDate event) then
        match calculateRepeatingEventDates event monthStart with
        | Ok w => Ok (Some (Window.start w, Window.end_ w))
        | Throw message => Throw message
        end
      else Ok None in
    match dates with
    | Throw _ => []
    | Ok None => []
    | Ok (Some (start, end_)) =>
        if hasModifier event "weekly" && Event.ignoreDate event then
          fst (weeklySearch (weeklySearchBound monthStart monthEnd) event
                 monthStart monthEnd monthStart)
        else
          boundedMarkers event (orString (Event.type event) "repeating")
            monthStart monthEnd start end_
    end.

Definition getCalendarForMonth (this : EventsManager.t) (year month : Z)
  : list CalendarEntry.t :=
  match EventsManager.eventsConfig this with
  | None => []
  | Some cfg =>
      let calendarEntries := [] in
      let monthStart := JSTime.DateUTC year month 1 0 0 0 0 in
      let monthEnd := JSTime.DateUTC year (month + 1) 0 23 59 59 0 in
      let calendarEntries :=
        forEachPushIfPresent (calendarEvent monthStart monthEnd)
          (Config.repeating_events cfg) calendarEntries in
      let calendarEntries :=
        forEachPushIfPresent (calendarEvent monthStart monthEnd)
          (Config.non_repeating_events cfg) calendarEntries in
      calendarEntries
  end.

End Unified.

(** ** Vocabulary of the statements *)

(** The elements that a loop over an array that may be missing pushes. *)
Definition pushed {A B : Type} (body : A -> list B) (array : option (list A))
  : list B :=
  match array with
  | Some l => flat_map body l
  | None => []
  end.

Definition filterArray {A : Type} (keep : A -> bool) (array : option (list A))
  : option (list A) :=
  option_map (filter keep) array.

(** The array that a call of [getActiveEvents] returned. *)
Definition returnedArray (out : ArrayRef * EventsManager.t * Heap)
  : list ActiveEvent.t :=
  let '(r, _, heap) := out in
  match deref heap r with Some l => l | None => [] end.

(** The manager after [new EventsManager()] and [loadEvents(cfg)]. *)
Definition loaded (cfg : Config.t) : EventsManager.t :=
  fst (loadEvents constructor cfg).

(** The active events that a freshly loaded manager reports at
    [currentDate]. *)
Definition activeEventsAt (cfg : Config.t) (currentDate : Z)
  : list ActiveEvent.t :=
  returnedArray (getActiveEvents (loaded cfg) [] currentDate false).

Definition activeBounds (a : ActiveEvent.t) : string * Z * Z :=
  (ActiveEvent.title a, ActiveEvent.start a, ActiveEvent.end_ a).

(** The monthly definition of the documentation: day "01", 31 days. *)
Definition goldPass : Event.t :=
  Event.mk "Gold Pass" "star" None (Some "Season challenges and rewards")
    None false (Some "01") (Some "monthly") (Some 31) None None (Some true).

Definition goldPassConfig : Config.t :=
  Config.mk (Some [goldPass]) None None.

(** The Gold Pass scenario in the words of the specification: inactive
    at 2026-01-01T07:00Z, active at 09:00Z with the window from January
    1st 08:00Z to February 1st 08:00Z, inactive at 2026-02-01T09:00Z. *)
Definition goldPassScenarioAsStated : Prop :=
  activeEventsAt goldPassConfig (JSTime.DateUTC 2026 0 1 7 0 0 0) = []
  /\ map activeBounds
       (activeEventsAt goldPassConfig (JSTime.DateUTC 2026 0 1 9 0 0 0))
     = [("Gold Pass", JSTime.DateUTC 2026 0 1 8 0 0 0,
         JSTime.DateUTC 2026 1 1 8 0 0 0)]
  /\ activeEventsAt goldPassConfig (JSTime.DateUTC 2026 1 1 9 0 0 0) = [].

(** The weekly definition of the documentation: Friday, 3 days. *)
Definition raidWeekend : Event.t :=
  Event.mk "Raid Weekend" "trophy" None (Some "Capital Raid Weekend")
    None false (Some "Friday") (Some "weekly") (Some 3) None None (Some true).

Definition raidWeekendConfig : Config.t :=
  Config.mk (Some [raidWeekend]) None None.

(** Two calls in a row on a freshly loaded manager, the second one at an
    earlier instant than the first. *)
Definition queryThenEarlierQuery (cfg : Config.t) (first second : Z)
  : (ArrayRef * EventsManager.t * Heap) * (ArrayRef * EventsManager.t * Heap) :=
  let out1 := getActiveEvents (loaded cfg) [] first false in
  let '(_, this1, heap1) := out1 in
  (out1, getActiveEvents this1 heap1 second false).

Definition calendarMarks (entries : list CalendarEntry.t) : list (Z * bool) :=
  map (fun e => (CalendarEntry.date e, CalendarEntry.isStart e)) entries.

(** [reference] lies in the window, as [getActiveEvents] tests it. *)
Definition containsInstant (w : Window.t) (reference : Z) : bool :=
  isWithin reference (Window.start w) (Window.end_ w).

(** Boundary continuity of the weekly calculator in the words of the
    specification: exactly one of the previous-week window and the next
    window contains the reference, and that one is returned. *)
Definition weeklyContinuityAsStated (baseDate : option string)
    (durationDays reference : Z) : Prop :=
  let targetDay := indexOf daysOfWeek baseDate in
  let currentDay := JSTime.getUTCDay reference in
  let daysSinceTarget := Z.rem (currentDay - targetDay + 7) 7 in
  let last := lastWeekWindow daysSinceTarget (Some durationDays) reference in
  let next := nextWeekWindow targetDay currentDay (Some durationDays) reference in
  xorb (containsInstant last reference) (containsInstant next reference) = true
  /\ exists w,
       calculateWeeklyEvent baseDate (Some durationDays) reference = Ok w
       /\ containsInstant w reference = true.

(** The two arrays of definitions that the class reads. *)
Inductive Kind : Type :=
| Repeating
| OneTime.

Definition definitionsOf (kind : Kind) (cfg : Config.t) : option (list Event.t) :=
  match kind with
  | Repeating => Config.repeating_events cfg
  | OneTime => Config.one_time_events cfg
  end.

Definition member {A : Type} (x : A) (array : option (list A)) : Prop :=
  match array with
  | Some l => In x l
  | None => False
  end.

(** [event] is a definition of the configuration, of the given kind. *)
Definition isDefinition (kind : Kind) (event : Event.t) (cfg : Config.t) : Prop :=
  member event (definitionsOf kind cfg).

(** The window of a definition at a reference instant: computed by the
    calculator for a repeating definition, read off the definition for a
    one-time one. *)
Definition windowOf (kind : Kind) (event : Event.t) (reference : Z)
  : Result Window.t :=
  match kind with
  | Repeating => calculateRepeatingEventDates event reference
  | OneTime =>
      Ok (Window.mk (newDate (Event.start event)) (newDate (Event.end_ event)))
  end.

Definition activeViewOf (kind : Kind) (event : Event.t)
    (start end_ reference : Z) : ActiveEvent.t :=
  match kind with
  | Repeating => activeRepeatingView event start end_ reference
  | OneTime => activeOneTimeView event start end_ reference
  end.

(** The definitions on which [calculateRepeatingEventDates] throws: the
    modifier is neither "monthly" nor "weekly", or it is "weekly" and the
    day is not in [daysOfWeek]. *)
Definition throwsOnWindow (event : Event.t) : bool :=
  negb (hasModifier event "monthly")
  && (negb (hasModifier event "weekly")
      || (indexOf daysOfWeek (Event.baseDate event) =? -1)).

(** The configuration with only the repeating definitions that [keep]
    accepts. *)
Definition keepRepeating (keep : Event.t -> bool) (cfg : Config.t) : Config.t :=
  Config.mk (filterArray keep (Config.repeating_events cfg))
    (Config.one_time_events cfg) (Config.non_repeating_events cfg).

(** The configuration without its soft-deleted definitions. *)
Definition withoutSoftDeleted (cfg : Config.t) : Config.t :=
  let keep := fun event => negb (isSoftDeleted event) in
  Config.mk (filterArray keep (Config.repeating_events cfg))
    (filterArray keep (Config.one_time_events cfg))
    (filterArray keep (Config.non_repeating_events cfg)).

(** The same manager holding another configuration. *)
Definition withConfig (this : EventsManager.t) (cfg : Config.t)
  : EventsManager.t :=
  EventsManager.mk (Some cfg) (EventsManager.cachedActiveEvents this)
    (EventsManager.lastUpdateTime this).

(** The states of a manager that was created, loaded once with [cfg] and
    then queried; [getUpcomingEvents] and [getCalendarForMonth] do not
    change the state. *)
Inductive reachable (cfg : Config.t) : EventsManager.t -> Heap -> Prop :=
| reachable_loaded (heap : Heap) : reachable cfg (loaded cfg) heap
| reachable_getActiveEvents (this : EventsManager.t) (heap : Heap)
    (currentDate : Z) (forceRefresh : bool) :
    reachable cfg this heap ->
    reachable cfg
      (snd (fst (getActiveEvents this heap currentDate forceRefresh)))
      (snd (getActiveEvents this heap currentDate forceRefresh))
| reachable_isEventActive (this : EventsManager.t) (heap : Heap)
    (eventTitle : string) (currentDate : Z) :
    reachable cfg this heap ->
    reachable cfg
      (snd (fst (isEventActive this heap eventTitle currentDate)))
      (snd (isEventActive this heap eventTitle currentDate)).

(** A configuration with two malformed repeating definitions between
    the two of the documentation. *)
Definition unknownModifierEvent : Event.t :=
  Event.mk "Clan Games" "gamepad" None None None false (Some "22")
    (Some "yearly") (Some 6) None None None.

Definition unknownWeekdayEvent : Event.t :=
  Event.mk "League Day" "shield" None None None false (Some "Friyay")
    (Some "weekly") (Some 2) None None None.

Definition mixedConfig : Config.t :=
  Config.mk
    (Some [goldPass; unknownModifierEvent; unknownWeekdayEvent; raidWeekend])
    None None.

(** A soft-deleted copy of a definition. *)
Definition softDelete (event : Event.t) : Event.t :=
  Event.mk (Event.title event) (Event.icon event) (Event.image event)
    (Event.description event) (Event.type event) (Event.ignoreDate event)
    (Event.baseDate event) (Event.modifier event) (Event.durationDays event)
    (Event.start event) (Event.end_ event) (Some false).

(** What is cached was computed from the loaded configuration. *)
Definition cacheFrom (cfg : Config.t) (this : EventsManager.t) (heap : Heap)
  : Prop :=
  EventsManager.eventsConfig this = Some cfg
  /\ forall cached,
       EventsManager.cachedActiveEvents this = Some cached ->
       exists instant, deref heap cached = Some (computeActiveEvents cfg instant).



(** The window overlaps [reference, reference + daysAhead days):
    [start < reference + daysAhead days] and [end > reference]. *)
Definition overlapsHorizon (start end_ : JSDate) (reference daysAhead : Z)
  : bool :=
  date_lt start (Some (reference + daysAhead * JSTime.msPerDay))
  && date_gt end_ (Some reference).

Definition upcomingViewOf (kind : Kind) (event : Event.t) (w : Window.t)
    (reference : Z) : UpcomingEvent.t :=
  match kind with
  | Repeating =>
      upcomingView event "repeating" (Event.modifier event)
        (Window.start w) (Window.end_ w) reference
  | OneTime =>
      upcomingView event "one-time" None (Window.start w) (Window.end_ w)
        reference
  end.

(** The upcoming events in the words of the specification: a definition
    contributes its view when it is not soft-deleted and its computed
    window overlaps the horizon. *)
Definition overlappingDefinition (kind : Kind) (reference daysAhead : Z)
    (event : Event.t) : list UpcomingEvent.t :=
  if isSoftDeleted event then []
  else
    match windowOf kind event reference with
    | Ok w =>
        if overlapsHorizon (Window.start w) (Window.end_ w) reference daysAhead
        then [upcomingViewOf kind event w reference]
        else []
    | Throw _ => []
    end.







(** How far the offset of the host at [reference] exceeds the offset
    that it applies to the same local time [daysAhead] days later: zero
    unless the clocks change in between. *)
Definition offsetChange (tz : JSTime.TimeZone) (reference daysAhead : Z) : Z :=
  tz reference true
  - tz (JSTime.LocalTime tz reference + daysAhead * JSTime.msPerDay) false.

(** Any two offsets of the host differ by less than a day. *)
Definition offsetsWithinADay (tz : JSTime.TimeZone) : Prop :=
  forall a b : Z, Z.abs (tz a true - tz b false) < JSTime.msPerDay.

(** A host on the Eastern time of North America in 2026: five hours
    behind UTC, and four from 2026-03-08 at 07:00 UTC (02:00 local) to
    2026-11-01 at 06:00 UTC (02:00 local). A local time that the change
    skips or repeats is read with the offset before the change. *)
Definition easternTime : JSTime.TimeZone :=
  fun t isUTC =>
    let springForward := JSTime.DateUTC 2026 2 8 7 0 0 0 in
    let fallBack := JSTime.DateUTC 2026 10 1 6 0 0 0 in
    let shift := if isUTC then 0 else - 4 * JSTime.msPerHour in
    if (springForward + shift <=? t) && (t <? fallBack + shift)
    then - 4 * JSTime.msPerHour
    else - 5 * JSTime.msPerHour.



(** A monthly definition with a negative number of days, which
    [loadEvents] accepts: its window ends five days before it starts. *)
Definition endedOffer : Event.t :=
  Event.mk "Ended Offer" "tag" None None None false (Some "20")
    (Some "monthly") (Some (-5)) None None None.

Definition endedOfferConfig : Config.t :=
  Config.mk (Some [endedOffer]) None None.

(** Definitions in the shape that the unified revision reads: a
    recurrence marked [ignoreDate], and a definition with explicit
    bounds. *)
Definition seasonPass : Event.t :=
  Event.mk "Season Pass" "star" None None None true (Some "01")
    (Some "monthly") (Some 31) None None None.

Definition weekendSale : Event.t :=
  Event.mk "Weekend Sale" "tag" None None (Some "sale") false None None None
    (Some (Some (JSTime.DateUTC 2026 0 23 8 0 0 0)))
    (Some (Some (JSTime.DateUTC 2026 0 26 8 0 0 0))) None.

Definition unifiedConfig : Config.t :=
  Config.mk (Some [seasonPass]) None (Some [weekendSale]).

(** A one-time definition of the documentation. *)
Definition gemBoosts : Event.t :=
  Event.mk "1 Gem Boosts" "gem" None (Some "All boosts cost just 1 gem") None
    false None None None
    (Some (Some (JSTime.DateUTC 2026 0 15 8 0 0 0)))
    (Some (Some (JSTime.DateUTC 2026 0 20 8 0 0 0))) (Some true).

Definition documentedConfig : Config.t :=
  Config.mk (Some [goldPass; raidWeekend]) (Some [gemBoosts]) None.

(** A one-time definition that ends when the Raid Weekend of
    2026-01-16 does. *)
Definition starBonus : Event.t :=
  Event.mk "Star Bonus" "star" None None None false None None None
    (Some (Some (JSTime.DateUTC 2026 0 10 8 0 0 0)))
    (Some (Some (JSTime.DateUTC 2026 0 19 8 0 0 0))) None.

Definition tiedConfig : Config.t :=
  Config.mk (Some [raidWeekend]) (Some [gemBoosts; starBonus]) None.

(** What every calendar marker satisfies: it lies between the bounds of
    the month, [date] is the day of the month of [fullDate], and it
    marks a start or an end, not both. *)
Definition markerWithin (monthStart monthEnd : Z) (c : CalendarEntry.t) : Prop :=
  monthStart <= CalendarEntry.fullDate c <= monthEnd
  /\ CalendarEntry.date c = JSTime.getUTCDate (CalendarEntry.fullDate c)
  /\ CalendarEntry.isStart c = negb (CalendarEntry.isEnd c).

(** The year that [Date.UTC] reads in its first argument. *)
Definition fullYear (year : Z) : Z :=
  if (0 <=? year) && (year <=? 99) then 1900 + year else year.

(** A monthly definition on the given day of the month. *)
Definition isMonthlyOn (day : Z) (event : Event.t) : bool :=
  hasModifier event "monthly"
  && match parseInt10 (Event.baseDate event) with
     | Some d => d =? day
     | None => false
     end.

(** The window moved by [delta] milliseconds, and the outcome of a call
    with its window so moved. *)
Definition shiftWindow (delta : Z) (w : Window.t) : Window.t :=
  Window.mk (option_map (fun t => t + delta) (Window.start w))
    (option_map (fun t => t + delta) (Window.end_ w)).

Definition shiftResult (delta : Z) (r : Result Window.t) : Result Window.t :=
  match r with
  | Ok w => Ok (shiftWindow delta w)
  | Throw message => Throw message
  end.

(** The start of the occurrence that a marker of a definition lasting
    [n] days belongs to. *)
Definition occurrenceStart (n : Z) (c : CalendarEntry.t) : Z :=
  if CalendarEntry.isStart c then CalendarEntry.fullDate c
  else CalendarEntry.fullDate c - n * JSTime.msPerDay.

(** * Properties *)

(** ** The time arithmetic *)

Module JSTimeFacts.
Import JSTime.

Lemma monthOfYearDay_range (d leap : Z) : 0 <= monthOfYearDay d leap <= 11.
Proof.
  unfold monthOfYearDay.
  repeat match goal with |- context [if ?c then _ else _] => destruct c end; lia.
Qed.

Lemma MonthFromTime_range (t : Z) : 0 <= MonthFromTime t <= 11.
Proof. apply monthOfYearDay_range. Qed.

Lemma MakeDay_of_time (t k : Z) :
  MakeDay (YearFromTime t) (MonthFromTime t) (DateFromTime t + k) = Day t + k.
Proof.
  pose proof (MonthFromTime_range t) as Hm.
  unfold MakeDay, DateFromTime, DayWithinYear, InLeapYear.
  rewrite (Z.div_small (MonthFromTime t) 12) by lia.
  rewrite (Z.mod_small (MonthFromTime t) 12) by lia.
  rewrite Z.add_0_r. lia.
Qed.

Lemma Day_TimeWithinDay (t : Z) : t = Day t * msPerDay + TimeWithinDay t.
Proof.
  unfold Day, TimeWithinDay, msPerDay.
  pose proof (Z.div_mod t 86400000). lia.
Qed.

(** Moving the day of the month by [k] moves the instant by [k] days. *)
Lemma setUTCDate_shift (t k : Z) :
  setUTCDate t (getUTCDate t + k) = t + k * msPerDay.
Proof.
  unfold setUTCDate, getUTCDate, MakeDate.
  rewrite MakeDay_of_time.
  pose proof (Day_TimeWithinDay t). lia.
Qed.

(** In local time too: the local time moves by [k] days of 24 hours and
    is read back with the offset in force there. *)
Lemma setDate_shift (tz : TimeZone) (t k : Z) :
  setDate tz t (getDate tz t + k) = UTC tz (LocalTime tz t + k * msPerDay).
Proof.
  unfold setDate, getDate, MakeDate. cbv zeta.
  rewrite MakeDay_of_time. f_equal.
  pose proof (Day_TimeWithinDay (LocalTime tz t)). lia.
Qed.

Lemma setDate_fixedOffset (tza t k : Z) :
  setDate (fixedOffset tza) t (getDate (fixedOffset tza) t + k)
  = t + k * msPerDay.
Proof. rewrite setDate_shift. unfold UTC, LocalTime, fixedOffset. lia. Qed.

Lemma Day_shift (t k : Z) : Day (t + k * msPerDay) = Day t + k.
Proof. unfold Day, msPerDay. rewrite Z.div_add by lia. reflexivity. Qed.

Lemma TimeWithinDay_range (t : Z) : 0 <= TimeWithinDay t < msPerDay.
Proof. unfold TimeWithinDay, msPerDay. apply Z.mod_pos_bound. lia. Qed.

Lemma WeekDay_range (t : Z) : 0 <= WeekDay t < 7.
Proof. unfold WeekDay. apply Z.mod_pos_bound. lia. Qed.

Lemma DayFromYear_succ (y : Z) :
  DayFromYear (y + 1) = DayFromYear y + DaysInYear y.
Proof.
  unfold DayFromYear, DaysInYear, isLeapYear.
  destruct (y mod 4 =? 0) eqn:E4; destruct (y mod 100 =? 0) eqn:E100;
    destruct (y mod 400 =? 0) eqn:E400; cbn [andb orb negb];
    rewrite ?Z.eqb_eq, ?Z.eqb_neq in *;
    Z.div_mod_to_equations; lia.
Qed.

Lemma YearFromDay_spec (d : Z) :
  DayFromYear (YearFromDay d) <= d < DayFromYear (YearFromDay d + 1).
Proof.
  unfold YearFromDay.
  set (y := 1970 + (400 * d) / 146097).
  assert (Hlo : DayFromYear (y - 1) <= d).
  { subst y. unfold DayFromYear. Z.div_mod_to_equations. lia. }
  assert (Hhi : d < DayFromYear (y + 2)).
  { subst y. unfold DayFromYear. Z.div_mod_to_equations. lia. }
  destruct (d <? DayFromYear y) eqn:E1.
  - apply Z.ltb_lt in E1. replace (y - 1 + 1) with y by lia. lia.
  - apply Z.ltb_ge in E1.
    destruct (DayFromYear (y + 1) <=? d) eqn:E2.
    + apply Z.leb_le in E2. replace (y + 1 + 1) with (y + 2) by lia. lia.
    + apply Z.leb_gt in E2. lia.
Qed.

End JSTimeFacts.

(** ** Arrays *)

Lemma forEachPush_flat_map {A B : Type} (body : A -> list B) (array : list A)
    (acc : list B) :
  forEachPush body array acc = acc ++ flat_map body array.
Proof.
  unfold forEachPush. revert acc.
  induction array as [|x array IH]; intros acc; cbn [fold_left flat_map].
  - now rewrite app_nil_r.
  - rewrite IH. now rewrite <- app_assoc.
Qed.

Lemma forEachPushIfPresent_pushed {A B : Type} (body : A -> list B)
    (array : option (list A)) (acc : list B) :
  forEachPushIfPresent body array acc = acc ++ pushed body array.
Proof.
  destruct array as [l|]; cbn.
  - apply forEachPush_flat_map.
  - now rewrite app_nil_r.
Qed.

Lemma insertBy_perm {A : Type} (key : A -> Z) (x : A) (l : list A) :
  Permutation (x :: l) (insertBy key x l).
Proof.
  induction l as [|y l IH]; cbn.
  - reflexivity.
  - destruct (key x <=? key y).
    + reflexivity.
    + rewrite perm_swap. now apply perm_skip.
Qed.

Lemma sortBy_perm {A : Type} (key : A -> Z) (l : list A) :
  Permutation l (sortBy key l).
Proof.
  induction l as [|x l IH]; cbn.
  - constructor.
  - rewrite <- insertBy_perm. now apply perm_skip.
Qed.

Lemma sortBy_In {A : Type} (key : A -> Z) (l : list A) (x : A) :
  In x (sortBy key l) <-> In x l.
Proof.
  split; apply Permutation_in;
    [apply Permutation_sym|]; apply sortBy_perm.
Qed.

(** Definitions on which the loop body pushes nothing can be dropped from
    the array. *)
Lemma flat_map_filter_nil {A B : Type} (body : A -> list B)
    (keep : A -> bool) (l : list A) :
  (forall x, keep x = false -> body x = []) ->
  flat_map body (filter keep l) = flat_map body l.
Proof.
  intros Hdrop. induction l as [|x l IH]; cbn.
  - reflexivity.
  - destruct (keep x) eqn:E; cbn.
    + now rewrite IH.
    + now rewrite (Hdrop x E), IH.
Qed.

Lemma pushed_filter_nil {A B : Type} (body : A -> list B) (keep : A -> bool)
    (array : option (list A)) :
  (forall x, keep x = false -> body x = []) ->
  pushed body (filterArray keep array) = pushed body array.
Proof.
  intros Hdrop. destruct array as [l|]; cbn.
  - now apply flat_map_filter_nil.
  - reflexivity.
Qed.

(** ** The queries as the arrays they build *)

Lemma computeActiveEvents_eq (cfg : Config.t) (currentDate : Z) :
  computeActiveEvents cfg currentDate =
  sortBy (fun a => Countdown.totalMs (ActiveEvent.countdown a))
    (pushed (activeRepeating currentDate) (Config.repeating_events cfg)
     ++ pushed (activeOneTime currentDate) (Config.one_time_events cfg)).
Proof.
  unfold computeActiveEvents.
  now rewrite !forEachPushIfPresent_pushed.
Qed.

Lemma deref_alloc (heap : Heap) (array : list ActiveEvent.t) :
  deref (snd (alloc heap array)) (fst (alloc heap array)) = Some array.
Proof.
  unfold deref, alloc; cbn.
  rewrite nth_error_app2 by lia.
  now rewrite Nat.sub_diag.
Qed.

(** With [forceRefresh] the result is recomputed and cached. *)
Lemma getActiveEvents_forced (this : EventsManager.t) (heap : Heap)
    (cfg : Config.t) (currentDate : Z) :
  EventsManager.eventsConfig this = Some cfg ->
  getActiveEvents this heap currentDate true =
  (List.length heap,
   EventsManager.mk (Some cfg) (Some (List.length heap)) (Some currentDate),
   heap ++ [computeActiveEvents cfg currentDate]).
Proof.
  intros Hcfg. unfold getActiveEvents. rewrite Hcfg. reflexivity.
Qed.

(** So is it when nothing is cached yet. *)
Lemma getActiveEvents_no_cache (this : EventsManager.t) (heap : Heap)
    (cfg : Config.t) (currentDate : Z) (forceRefresh : bool) :
  EventsManager.eventsConfig this = Some cfg ->
  EventsManager.cachedActiveEvents this = None ->
  getActiveEvents this heap currentDate forceRefresh =
  (List.length heap,
   EventsManager.mk (Some cfg) (Some (List.length heap)) (Some currentDate),
   heap ++ [computeActiveEvents cfg currentDate]).
Proof.
  intros Hcfg Hcache. unfold getActiveEvents. rewrite Hcfg, Hcache.
  cbn. rewrite andb_false_r. reflexivity.
Qed.

Lemma returnedArray_alloc (this : EventsManager.t) (heap : Heap)
    (array : list ActiveEvent.t) :
  returnedArray (List.length heap, this, heap ++ [array]) = array.
Proof.
  unfold returnedArray.
  change (deref (heap ++ [array]) (List.length heap))
    with (deref (snd (alloc heap array)) (fst (alloc heap array))).
  now rewrite deref_alloc.
Qed.

(** ** The countdown *)

(** C7. [calculateCountdown(end, reference)] has every field zero,
    [totalMs] included, when [end <= reference]; otherwise [totalMs] is
    [end - reference] and the fields are its floor decomposition: days
    are the whole days, hours, minutes and seconds stay below 24, 60 and
    60, and days*86400000 + hours*3600000 + minutes*60000 + seconds*1000
    is at most [totalMs] and more than [totalMs - 1000]. *)
Theorem calculateCountdown_decomposition (endDate currentDate : Z) :
  let c := calculateCountdown endDate currentDate in
  let sum :=
    Countdown.days c * 86400000 + Countdown.hours c * 3600000
    + Countdown.minutes c * 60000 + Countdown.seconds c * 1000 in
  (endDate <= currentDate -> c = Countdown.mk 0 0 0 0 0)
  /\ (currentDate < endDate ->
      Countdown.totalMs c = endDate - currentDate
      /\ Countdown.days c = (endDate - currentDate) / 86400000
      /\ 0 <= Countdown.hours c < 24
      /\ 0 <= Countdown.minutes c < 60
      /\ 0 <= Countdown.seconds c < 60
      /\ sum <= Countdown.totalMs c < sum + 1000).
Proof.
  cbv zeta. unfold calculateCountdown.
  destruct (endDate - currentDate <=? 0) eqn:E.
  - apply Z.leb_le in E. split; [reflexivity | lia].
  - apply Z.leb_gt in E. split; [lia | intros _].
    cbn [Countdown.days Countdown.hours Countdown.minutes Countdown.seconds
         Countdown.totalMs].
    set (r := endDate - currentDate) in *.
    change (1000 * 60 * 60 * 24) with 86400000.
    change (1000 * 60 * 60) with 3600000.
    change (1000 * 60) with 60000.
    rewrite !Z.rem_mod_nonneg by lia.
    repeat split; try reflexivity; Z.div_mod_to_equations; lia.
Qed.

Lemma calculateCountdown_decomposition_witness :
  calculateCountdown 5 7 = Countdown.mk 0 0 0 0 0
  /\ Countdown.totalMs (calculateCountdown 1000000000 1) = 1000000000 - 1.
Proof.
  split.
  - apply (proj1 (calculateCountdown_decomposition 5 7)). lia.
  - apply (proj2 (calculateCountdown_decomposition 1000000000 1)). lia.
Defined.

(** ** No configuration *)

(** C10. While no configuration is loaded, [getActiveEvents],
    [getUpcomingEvents] and [getCalendarForMonth] each return an empty
    array, and the manager, its cache fields included, is left as it
    was. *)
Theorem queries_without_configuration (this : EventsManager.t) (heap : Heap)
    (tz : JSTime.TimeZone) (currentDate daysAhead year month : Z)
    (forceRefresh : bool)
    (Hnull : EventsManager.eventsConfig this = None) :
  returnedArray (getActiveEvents this heap currentDate forceRefresh) = []
  /\ snd (fst (getActiveEvents this heap currentDate forceRefresh)) = this
  /\ getUpcomingEvents tz this currentDate daysAhead = []
  /\ Unified.getUpcomingEvents tz this currentDate daysAhead = []
  /\ getCalendarForMonth this year month = [].
Proof.
  unfold getActiveEvents, getUpcomingEvents, Unified.getUpcomingEvents,
    getCalendarForMonth.
  rewrite Hnull.
  repeat split.
  change (alloc heap []) with (List.length heap, heap ++ [@nil ActiveEvent.t]).
  apply returnedArray_alloc.
Qed.

Lemma queries_without_configuration_witness :
  returnedArray (getActiveEvents constructor [] 0 false) = []
  /\ snd (fst (getActiveEvents constructor [] 0 false)) = constructor
  /\ getUpcomingEvents easternTime constructor 0 30 = []
  /\ Unified.getUpcomingEvents easternTime constructor 0 30 = []
  /\ getCalendarForMonth constructor 2026 0 = [].
Proof.
  apply (queries_without_configuration constructor [] easternTime 0 30 2026 0
           false).
  reflexivity.
Defined.

(** ** The Gold Pass scenario *)

(** C1, as the specification states it, fails: on February 1st at 09:00
    UTC the February occurrence has started. *)
Lemma goldPassScenarioAsStated_fails : ~ goldPassScenarioAsStated.
Proof.
  unfold goldPassScenarioAsStated. intros (_ & _ & H).
  vm_compute in H. discriminate H.
Qed.

(** C1, amended. For the monthly definition with baseDate "01" and
    durationDays 31: at 2026-01-01T07:00Z the event is not active; at
    2026-01-01T09:00Z it is active with the window from 2026-01-01T08:00Z
    to 2026-02-01T08:00Z; at 2026-02-01T09:00Z it is active again, with
    the window from 2026-02-01T08:00Z to 2026-03-04T08:00Z. *)
Theorem goldPass_scenario :
  activeEventsAt goldPassConfig (JSTime.DateUTC 2026 0 1 7 0 0 0) = []
  /\ map activeBounds
       (activeEventsAt goldPassConfig (JSTime.DateUTC 2026 0 1 9 0 0 0))
     = [("Gold Pass", JSTime.DateUTC 2026 0 1 8 0 0 0,
         JSTime.DateUTC 2026 1 1 8 0 0 0)]
  /\ map activeBounds
       (activeEventsAt goldPassConfig (JSTime.DateUTC 2026 1 1 9 0 0 0))
     = [("Gold Pass", JSTime.DateUTC 2026 1 1 8 0 0 0,
         JSTime.DateUTC 2026 2 4 8 0 0 0)].
Proof. repeat split; vm_compute; reflexivity. Qed.

(** ** The cache of [getActiveEvents] *)

(** A cached result is handed out again, the very same array, while the
    requested instant is less than 1000 ms after the cached one. *)
Lemma getActiveEvents_cache_hit (this : EventsManager.t) (heap : Heap)
    (cfg : Config.t) (cached : ArrayRef) (lastUpdateTime currentDate : Z) :
  EventsManager.eventsConfig this = Some cfg ->
  EventsManager.cachedActiveEvents this = Some cached ->
  EventsManager.lastUpdateTime this = Some lastUpdateTime ->
  lastUpdateTime <> 0 ->
  currentDate - lastUpdateTime < 1000 ->
  getActiveEvents this heap currentDate false = (cached, this, heap).
Proof.
  intros Hcfg Hc Hl Hnz Hlt. unfold getActiveEvents.
  rewrite Hcfg, Hc, Hl. cbn.
  destruct (Z.eqb_spec lastUpdateTime 0) as [|_]; [contradiction|]. cbn.
  destruct (Z.ltb_spec (currentDate - lastUpdateTime) 1000); [reflexivity | lia].
Qed.

(** From 1000 ms after the cached instant on, the result is recomputed
    and the cache replaced. *)
Lemma getActiveEvents_cache_expired (this : EventsManager.t) (heap : Heap)
    (cfg : Config.t) (lastUpdateTime currentDate : Z) (forceRefresh : bool) :
  EventsManager.eventsConfig this = Some cfg ->
  EventsManager.lastUpdateTime this = Some lastUpdateTime ->
  1000 <= currentDate - lastUpdateTime ->
  getActiveEvents this heap currentDate forceRefresh =
  (List.length heap,
   EventsManager.mk (Some cfg) (Some (List.length heap)) (Some currentDate),
   heap ++ [computeActiveEvents cfg currentDate]).
Proof.
  intros Hcfg Hl Hge. unfold getActiveEvents. rewrite Hcfg, Hl.
  destruct (negb forceRefresh
            && isDefined (EventsManager.cachedActiveEvents this)
            && truthyNumber (Some lastUpdateTime)); [|reflexivity].
  destruct (EventsManager.cachedActiveEvents this); [|reflexivity].
  destruct (Z.ltb_spec (currentDate - lastUpdateTime) 1000); [lia | reflexivity].
Qed.

(** C3, at the input where the code departs from it. The Gold Pass
    manager is asked at 2026-01-15T12:00Z, then at 2026-01-01T07:00Z,
    two weeks earlier: the second call returns the array of the first
    (the same reference, holding the January window), leaves the cache
    as it was, and a recomputation at that instant would have returned
    no event. *)
Theorem getActiveEvents_stale_for_earlier_instant :
  let '(out1, out2) :=
    queryThenEarlierQuery goldPassConfig
      (JSTime.DateUTC 2026 0 15 12 0 0 0) (JSTime.DateUTC 2026 0 1 7 0 0 0) in
  fst (fst out2) = fst (fst out1)
  /\ snd (fst out2) = snd (fst out1)
  /\ map activeBounds (returnedArray out2)
     = [("Gold Pass", JSTime.DateUTC 2026 0 1 8 0 0 0,
         JSTime.DateUTC 2026 1 1 8 0 0 0)]
  /\ computeActiveEvents goldPassConfig (JSTime.DateUTC 2026 0 1 7 0 0 0) = [].
Proof. vm_compute. repeat split. Qed.

(** ** The calendar of a weekly definition *)

(** C5, at inputs where the code departs from it. For Raid Weekend
    (Friday, 3 days) the calendar of February 2026 marks the starts of
    the 6th, 13th and 20th and the ends of the 2nd, 9th, 16th and 23rd;
    the occurrence that starts on Friday 2026-02-27T08:00Z, which the
    calculator itself returns on the 28th, begins inside the month and
    has no marker, while the calendar of March marks its end on the 2nd.
    In May 2026, which begins on a Friday, the occurrence of May 1st has
    no marker either. *)
Theorem getCalendarForMonth_misses_weekly_occurrences :
  let february := getCalendarForMonth (loaded raidWeekendConfig) 2026 1 in
  let march := getCalendarForMonth (loaded raidWeekendConfig) 2026 2 in
  let may := getCalendarForMonth (loaded raidWeekendConfig) 2026 4 in
  calendarMarks february
  = [(2, false); (6, true); (9, false); (13, true); (16, false); (20, true);
     (23, false)]
  /\ calculateRepeatingEventDates raidWeekend (JSTime.DateUTC 2026 1 28 12 0 0 0)
     = Ok (Window.mk (Some (JSTime.DateUTC 2026 1 27 8 0 0 0))
             (Some (JSTime.DateUTC 2026 2 2 8 0 0 0)))
  /\ JSTime.DateUTC 2026 1 1 0 0 0 0 <= JSTime.DateUTC 2026 1 27 8 0 0 0
     <= JSTime.DateUTC 2026 2 0 23 59 59 0
  /\ ~ In (JSTime.DateUTC 2026 1 27 8 0 0 0)
         (map CalendarEntry.fullDate february)
  /\ In (JSTime.DateUTC 2026 2 2 8 0 0 0) (map CalendarEntry.fullDate march)
  /\ calculateRepeatingEventDates raidWeekend (JSTime.DateUTC 2026 4 2 12 0 0 0)
     = Ok (Window.mk (Some (JSTime.DateUTC 2026 4 1 8 0 0 0))
             (Some (JSTime.DateUTC 2026 4 4 8 0 0 0)))
  /\ ~ In (JSTime.DateUTC 2026 4 1 8 0 0 0) (map CalendarEntry.fullDate may).
Proof.
  cbv zeta.
  split; [vm_compute; reflexivity|].
  split; [vm_compute; reflexivity|].
  split; [vm_compute; split; discriminate|].
  split.
  { vm_compute. intros H.
    repeat (destruct H as [H|H]; [discriminate H|]). exact H. }
  split; [vm_compute; tauto|].
  split; [vm_compute; reflexivity|].
  vm_compute. intros H.
  repeat (destruct H as [H|H]; [discriminate H|]). exact H.
Qed.

(** ** The weekly calculator *)

Section Weekly.
Import JSTime JSTimeFacts.

Lemma at8_shift (t k : Z) :
  setUTCHours (setUTCDate t (getUTCDate t + k)) 8 0 0 0
  = (Day t + k) * msPerDay + 28800000.
Proof.
  rewrite setUTCDate_shift. unfold setUTCHours, MakeDate.
  rewrite Day_shift. reflexivity.
Qed.

Lemma addUTCDays_valid (s n : Z) :
  addUTCDays (Some s) (Some n) = Some (s + n * msPerDay).
Proof. unfold addUTCDays. now rewrite setUTCDate_shift. Qed.

Lemma indexOf_daysOfWeek_range (baseDate : option string) :
  indexOf daysOfWeek baseDate = -1 \/ 0 <= indexOf daysOfWeek baseDate <= 6.
Proof.
  destruct baseDate as [s|]; [|now left].
  unfold indexOf, daysOfWeek, indexOfFrom.
  repeat match goal with
         | |- context [if ?c then _ else _] => destruct c; [right; cbn; lia|]
         end.
  now left.
Qed.

(** [indexOf] is -1 exactly on what is not one of the seven names. *)
Lemma indexOfFrom_absent (l : list string) (x : string) (i : Z) :
  indexOfFrom i l x = -1 -> 0 <= i -> ~ In x l.
Proof.
  revert i. induction l as [|y l IH]; intros i H Hi; cbn in *.
  - tauto.
  - destruct (String.eqb_spec y x) as [->|Hne].
    + lia.
    + intros [Heq|Hin]; [congruence|]. apply (IH (i + 1)); [assumption|lia|assumption].
Qed.

Lemma indexOfFrom_present (l : list string) (x : string) (i : Z) :
  0 <= i -> indexOfFrom i l x <> -1 -> In x l.
Proof.
  revert i. induction l as [|y l IH]; intros i Hi H; cbn in *.
  - congruence.
  - destruct (String.eqb_spec y x) as [->|Hne].
    + now left.
    + right. apply (IH (i + 1)); [lia|assumption].
Qed.

Lemma lastWeekWindow_eq (k n t : Z) :
  lastWeekWindow k (Some n) t
  = Window.mk (Some ((Day t - k) * msPerDay + 28800000))
      (Some ((Day t - k + n) * msPerDay + 28800000)).
Proof.
  unfold lastWeekWindow.
  replace (getUTCDate t - k) with (getUTCDate t + - k) by lia.
  rewrite at8_shift, addUTCDays_valid. f_equal; f_equal; lia.
Qed.

Lemma nextWeekWindow_eq (targetDay currentDay n t : Z) :
  nextWeekWindow targetDay currentDay (Some n) t
  = let u :=
      if targetDay - currentDay <=? 0 then targetDay - currentDay + 7
      else targetDay - currentDay in
    Window.mk (Some ((Day t + u) * msPerDay + 28800000))
      (Some ((Day t + u + n) * msPerDay + 28800000)).
Proof.
  unfold nextWeekWindow. cbv zeta.
  rewrite at8_shift, addUTCDays_valid. f_equal; f_equal; lia.
Qed.

(** The forward window starts strictly after the reference. *)
Lemma nextWeekWindow_in_future (targetDay n t : Z) :
  0 <= targetDay <= 6 ->
  exists s, Window.start (nextWeekWindow targetDay (getUTCDay t) (Some n) t) = Some s
            /\ Window.end_ (nextWeekWindow targetDay (getUTCDay t) (Some n) t)
               = Some (s + n * msPerDay)
            /\ t < s.
Proof.
  intros Ht. rewrite nextWeekWindow_eq. cbv zeta. cbn [Window.start Window.end_].
  eexists. split; [reflexivity|]. split; [f_equal; lia|].
  pose proof (WeekDay_range t) as Hw. unfold getUTCDay.
  pose proof (Day_TimeWithinDay t) as Hd.
  pose proof (TimeWithinDay_range t) as Hr.
  unfold msPerDay in *.
  destruct (targetDay - WeekDay t <=? 0) eqn:E;
    [apply Z.leb_le in E | apply Z.leb_gt in E]; lia.
Qed.

Lemma nextWeekWindow_excludes (targetDay n t : Z) :
  0 <= targetDay <= 6 ->
  containsInstant (nextWeekWindow targetDay (getUTCDay t) (Some n) t) t = false.
Proof.
  intros Ht. destruct (nextWeekWindow_in_future targetDay n t Ht) as (s & Hs & _ & Hlt).
  unfold containsInstant, isWithin. rewrite Hs. cbn.
  destruct (Z.leb_spec s t); [lia | reflexivity].
Qed.

(** Off the target weekday, the calculator returns the previous week's
    window when it contains the reference and the forward window
    otherwise. *)
Lemma calculateWeeklyEvent_choice (baseDate : option string) (n t : Z) :
  let targetDay := indexOf daysOfWeek baseDate in
  let currentDay := getUTCDay t in
  let daysSinceTarget := Z.rem (currentDay - targetDay + 7) 7 in
  let last := lastWeekWindow daysSinceTarget (Some n) t in
  let next := nextWeekWindow targetDay currentDay (Some n) t in
  targetDay <> -1 ->
  currentDay <> targetDay ->
  calculateWeeklyEvent baseDate (Some n) t
  = Ok (if containsInstant last t then last else next).
Proof.
  cbv zeta. intros Hvalid Hoff.
  destruct (indexOf_daysOfWeek_range baseDate) as [|Ht]; [contradiction|].
  pose proof (WeekDay_range t) as Hw. unfold getUTCDay in *.
  unfold calculateWeeklyEvent.
  destruct (Z.eqb_spec (indexOf daysOfWeek baseDate) (-1)); [contradiction|].
  cbv zeta. unfold getUTCDay.
  set (k := Z.rem (WeekDay t - indexOf daysOfWeek baseDate + 7) 7).
  assert (Hk : 1 <= k <= 6).
  { subst k. rewrite Z.rem_mod_nonneg by lia. Z.div_mod_to_equations. lia. }
  rewrite <- !andb_assoc. unfold containsInstant, isWithin.
  destruct (date_ge (Some t) (Window.start (lastWeekWindow k (Some n) t))
            && date_lt (Some t) (Window.end_ (lastWeekWindow k (Some n) t)))
    eqn:Ein.
  - assert (Hle : k <= n).
    { rewrite lastWeekWindow_eq in Ein.
      cbn [Window.start Window.end_ date_ge date_le date_lt] in Ein.
      apply andb_prop in Ein as [_ Hend]. apply Z.ltb_lt in Hend.
      pose proof (Day_TimeWithinDay t). pose proof (TimeWithinDay_range t).
      unfold msPerDay in *. lia. }
    destruct (Z.ltb_spec 0 k); [|lia]. cbn.
    destruct (Z.leb_spec k n); [reflexivity | lia].
  - now rewrite !andb_false_r.
Qed.

End Weekly.

(** On the definition's own weekday the calculator projects a week
    forward, also after 08:00 UTC: at noon of Friday 2026-01-16 the
    Friday definition has the window of the 23rd to the 26th and is not
    reported active, while on Saturday the 17th it is, with the window
    that began on the 16th. *)
Example raidWeekend_on_its_weekday :
  calculateRepeatingEventDates raidWeekend (JSTime.DateUTC 2026 0 16 12 0 0 0)
  = Ok (Window.mk (Some (JSTime.DateUTC 2026 0 23 8 0 0 0))
          (Some (JSTime.DateUTC 2026 0 26 8 0 0 0)))
  /\ activeEventsAt raidWeekendConfig (JSTime.DateUTC 2026 0 16 12 0 0 0) = []
  /\ map activeBounds
       (activeEventsAt raidWeekendConfig (JSTime.DateUTC 2026 0 17 12 0 0 0))
     = [("Raid Weekend", JSTime.DateUTC 2026 0 16 8 0 0 0,
         JSTime.DateUTC 2026 0 19 8 0 0 0)].
Proof. repeat split; vm_compute; reflexivity. Qed.

(** C4, as the specification states it, fails: on Tuesday
    2026-01-20T12:00Z neither the previous-week window nor the next
    window of the Friday definition of 3 days contains the reference. *)
Lemma weeklyContinuityAsStated_fails :
  ~ weeklyContinuityAsStated (Some "Friday") 3 (JSTime.DateUTC 2026 0 20 12 0 0 0).
Proof.
  unfold weeklyContinuityAsStated. intros [H _].
  vm_compute in H. discriminate H.
Qed.

(** C4, amended. For every weekly definition with a recognised day name
    and durationDays <= 7, and every reference instant whose UTC weekday
    is not the definition's day: the next forward window never contains
    the reference, so at most one of the previous-week window and the
    next window does; [calculateWeeklyEvent] returns the previous-week
    window when that contains the reference, and the next window
    otherwise. *)
Theorem calculateWeeklyEvent_boundary (baseDate : option string)
    (durationDays reference : Z) :
  let targetDay := indexOf daysOfWeek baseDate in
  let currentDay := JSTime.getUTCDay reference in
  let daysSinceTarget := Z.rem (currentDay - targetDay + 7) 7 in
  let last := lastWeekWindow daysSinceTarget (Some durationDays) reference in
  let next := nextWeekWindow targetDay currentDay (Some durationDays) reference in
  targetDay <> -1 ->
  durationDays <= 7 ->
  currentDay <> targetDay ->
  containsInstant next reference = false
  /\ containsInstant last reference && containsInstant next reference = false
  /\ calculateWeeklyEvent baseDate (Some durationDays) reference
     = Ok (if containsInstant last reference then last else next).
Proof.
  cbv zeta. intros Hvalid _ Hoff.
  destruct (indexOf_daysOfWeek_range baseDate) as [|Ht]; [contradiction|].
  pose proof (nextWeekWindow_excludes _ durationDays reference Ht) as Hnext.
  split; [exact Hnext|]. split.
  - rewrite Hnext. apply andb_false_r.
  - now apply calculateWeeklyEvent_choice.
Qed.

Lemma calculateWeeklyEvent_boundary_witness :
  calculateWeeklyEvent (Some "Friday") (Some 3) (JSTime.DateUTC 2026 0 18 12 0 0 0)
  = Ok (Window.mk (Some (JSTime.DateUTC 2026 0 16 8 0 0 0))
          (Some (JSTime.DateUTC 2026 0 19 8 0 0 0))).
Proof.
  refine (eq_trans
            (proj2 (proj2 (calculateWeeklyEvent_boundary (Some "Friday") 3
                             (JSTime.DateUTC 2026 0 18 12 0 0 0) _ _ _))) _).
  - vm_compute. discriminate.
  - lia.
  - vm_compute. discriminate.
  - vm_compute. reflexivity.
Defined.

(** ** What the batch queries contain *)

Lemma In_pushed {A B : Type} (body : A -> list B) (array : option (list A))
    (y : B) :
  In y (pushed body array) <-> exists x, member x array /\ In y (body x).
Proof.
  destruct array as [l|]; cbn.
  - rewrite in_flat_map. reflexivity.
  - split; [tauto | intros (x & [] & _)].
Qed.

Lemma In_computeActiveEvents (cfg : Config.t) (currentDate : Z)
    (a : ActiveEvent.t) :
  In a (computeActiveEvents cfg currentDate) <->
  (exists e, isDefinition Repeating e cfg /\ In a (activeRepeating currentDate e))
  \/ (exists e, isDefinition OneTime e cfg /\ In a (activeOneTime currentDate e)).
Proof.
  rewrite computeActiveEvents_eq, sortBy_In, in_app_iff, !In_pushed.
  reflexivity.
Qed.

Lemma isWithin_valid (currentDate start end_ : Z) :
  isWithin currentDate (Some start) (Some end_) = true
  <-> start <= currentDate < end_.
Proof.
  unfold isWithin, date_ge, date_le, date_lt.
  rewrite andb_true_iff, Z.leb_le, Z.ltb_lt. reflexivity.
Qed.

(** What a definition with a valid window pushes in [getActiveEvents]. *)
Lemma active_of_window (kind : Kind) (e : Event.t) (currentDate start end_ : Z) :
  isSoftDeleted e = false ->
  windowOf kind e currentDate = Ok (Window.mk (Some start) (Some end_)) ->
  match kind with
  | Repeating => activeRepeating currentDate e
  | OneTime => activeOneTime currentDate e
  end
  = if isWithin currentDate (Some start) (Some end_)
    then [activeViewOf kind e start end_ currentDate] else [].
Proof.
  intros Hkeep Hw. destruct kind; cbn in Hw.
  - unfold activeRepeating. rewrite Hkeep, Hw. cbn [Window.start Window.end_].
    reflexivity.
  - unfold activeOneTime. rewrite Hkeep. injection Hw as -> ->.
    cbv zeta. reflexivity.
Qed.

(** Every element of the array lies around the instant asked for. *)
Lemma active_element_within (kind : Kind) (e : Event.t) (currentDate : Z)
    (a : ActiveEvent.t) :
  In a match kind with
       | Repeating => activeRepeating currentDate e
       | OneTime => activeOneTime currentDate e
       end ->
  ActiveEvent.start a <= currentDate < ActiveEvent.end_ a.
Proof.
  destruct kind.
  - unfold activeRepeating. destruct (isSoftDeleted e); [intros []|].
    destruct (calculateRepeatingEventDates e currentDate) as [w|]; [|intros []].
    destruct (Window.start w) as [s|], (Window.end_ w) as [en|];
      try (destruct (isWithin _ _ _); intros []; fail).
    destruct (isWithin currentDate (Some s) (Some en)) eqn:E; [|intros []].
    apply isWithin_valid in E. intros [<-|[]]. exact E.
  - unfold activeOneTime. destruct (isSoftDeleted e); [intros []|]. cbv zeta.
    destruct (newDate (Event.start e)) as [s|], (newDate (Event.end_ e)) as [en|];
      try (destruct (isWithin _ _ _); intros []; fail).
    destruct (isWithin currentDate (Some s) (Some en)) eqn:E; [|intros []].
    apply isWithin_valid in E. intros [<-|[]]. exact E.
Qed.

Lemma activeViewOf_bounds (kind : Kind) (e : Event.t) (start end_ reference : Z) :
  ActiveEvent.start (activeViewOf kind e start end_ reference) = start
  /\ ActiveEvent.end_ (activeViewOf kind e start end_ reference) = end_
  /\ ActiveEvent.title (activeViewOf kind e start end_ reference) = Event.title e.
Proof. destruct kind; repeat split. Qed.

(** ** Half-open activity *)

(** C6. A weekly definition is judged inactive at the start of its
    window. The Raid Weekend (Friday, 3 days) that [getActiveEvents]
    reports on Saturday 2026-01-17 has the window from Friday the 16th,
    08:00 UTC, to Monday the 19th, 08:00 UTC. At the very start of that
    window, and all that Friday, the calculator projects a week forward
    (to the 23rd), so [getActiveEvents] returns nothing and
    [isEventActive] answers false; the event is first reported on
    Saturday at 00:00. The end is exclusive, as claimed: reported one
    millisecond before Monday 08:00, not at it. A monthly and a
    one-time definition are reported at the start of their window. *)
Theorem weekly_event_inactive_at_window_start :
  let start := JSTime.DateUTC 2026 0 16 8 0 0 0 in
  let end_ := JSTime.DateUTC 2026 0 19 8 0 0 0 in
  let raid := [("Raid Weekend", start, end_)] in
  map activeBounds
    (activeEventsAt raidWeekendConfig (JSTime.DateUTC 2026 0 17 12 0 0 0))
  = raid
  /\ activeEventsAt raidWeekendConfig start = []
  /\ fst (fst (isEventActive (loaded raidWeekendConfig) [] "Raid Weekend"
                 start)) = false
  /\ calculateRepeatingEventDates raidWeekend start
     = Ok (Window.mk (Some (JSTime.DateUTC 2026 0 23 8 0 0 0))
             (Some (JSTime.DateUTC 2026 0 26 8 0 0 0)))
  /\ activeEventsAt raidWeekendConfig (JSTime.DateUTC 2026 0 16 12 0 0 0) = []
  /\ activeEventsAt raidWeekendConfig (JSTime.DateUTC 2026 0 16 23 59 59 999)
     = []
  /\ map activeBounds
       (activeEventsAt raidWeekendConfig (JSTime.DateUTC 2026 0 17 0 0 0 0))
     = raid
  /\ map activeBounds (activeEventsAt raidWeekendConfig (end_ - 1)) = raid
  /\ activeEventsAt raidWeekendConfig end_ = []
  /\ map activeBounds
       (activeEventsAt goldPassConfig (JSTime.DateUTC 2026 0 1 8 0 0 0))
     = [("Gold Pass", JSTime.DateUTC 2026 0 1 8 0 0 0,
         JSTime.DateUTC 2026 1 1 8 0 0 0)]
  /\ map activeBounds
       (activeEventsAt (Config.mk None (Some [gemBoosts]) None)
          (JSTime.DateUTC 2026 0 15 8 0 0 0))
     = [("1 Gem Boosts", JSTime.DateUTC 2026 0 15 8 0 0 0,
         JSTime.DateUTC 2026 0 20 8 0 0 0)].
Proof.
  cbv zeta.
  split; [vm_compute; reflexivity|].
  split; [vm_compute; reflexivity|].
  split; [vm_compute; reflexivity|].
  split; [vm_compute; reflexivity|].
  split; [vm_compute; reflexivity|].
  split; [vm_compute; reflexivity|].
  split; [vm_compute; reflexivity|].
  split; [vm_compute; reflexivity|].
  split; [vm_compute; reflexivity|].
  split; vm_compute; reflexivity.
Qed.


(** ** Malformed definitions *)

Lemma indexOf_absent (l : list string) (baseDate : option string) :
  (forall s, baseDate = Some s -> ~ In s l) -> indexOf l baseDate = -1.
Proof.
  intros Habsent. destruct baseDate as [s|]; [|reflexivity]. cbn.
  destruct (Z.eq_dec (indexOfFrom 0 l s) (-1)) as [|Hne]; [assumption|].
  exfalso. apply (Habsent s eq_refl).
  apply (indexOfFrom_present l s 0); [lia | exact Hne].
Qed.

Lemma unknown_modifier_throws (e : Event.t) (reference : Z) :
  hasModifier e "monthly" = false ->
  hasModifier e "weekly" = false ->
  calculateRepeatingEventDates e reference
  = Throw ("Unknown modifier: " ++ showString (Event.modifier e))%string.
Proof.
  unfold hasModifier, calculateRepeatingEventDates.
  destruct (Event.modifier e) as [m|]; [|reflexivity].
  now intros -> ->.
Qed.

Lemma unknown_weekday_throws (e : Event.t) (reference : Z) :
  hasModifier e "weekly" = true ->
  indexOf daysOfWeek (Event.baseDate e) = -1 ->
  calculateRepeatingEventDates e reference
  = Throw ("Invalid day of week: " ++ showString (Event.baseDate e))%string.
Proof.
  unfold hasModifier, calculateRepeatingEventDates.
  destruct (Event.modifier e) as [m|]; [|discriminate].
  intros Hw Hidx. apply String.eqb_eq in Hw. subst m. cbn [String.eqb].
  change (String.eqb "weekly" "monthly") with false.
  change (String.eqb "weekly" "weekly") with true. cbv iota.
  unfold calculateWeeklyEvent. now rewrite Hidx.
Qed.

Lemma throwsOnWindow_throws (e : Event.t) (reference : Z) :
  throwsOnWindow e = true ->
  exists message, calculateRepeatingEventDates e reference = Throw message.
Proof.
  unfold throwsOnWindow. intros H.
  apply andb_prop in H as [Hm H]. apply negb_true_iff in Hm.
  destruct (hasModifier e "weekly") eqn:Hw.
  - cbn in H. apply Z.eqb_eq in H. eexists. now apply unknown_weekday_throws.
  - eexists. now apply unknown_modifier_throws.
Qed.

(** A definition on which the calculator throws pushes nothing, in any
    of the three queries. *)
Lemma throwing_definition_pushes_nothing (e : Event.t)
    (currentDate endDate monthStart monthEnd : Z) :
  throwsOnWindow e = true ->
  activeRepeating currentDate e = []
  /\ upcomingRepeating currentDate endDate e = []
  /\ fst (calendarRepeating monthStart monthEnd e) = [].
Proof.
  intros Hthrows.
  destruct (throwsOnWindow_throws e currentDate Hthrows) as (m1 & H1).
  split; [|split].
  - unfold activeRepeating. rewrite H1. now destruct (isSoftDeleted e).
  - unfold upcomingRepeating. rewrite H1. now destruct (isSoftDeleted e).
  - unfold calendarRepeating. destruct (isSoftDeleted e); [reflexivity|].
    unfold throwsOnWindow in Hthrows.
    apply andb_prop in Hthrows as [Hm Hrest]. apply negb_true_iff in Hm.
    rewrite Hm. destruct (hasModifier e "weekly") eqn:Hw; [|reflexivity].
    destruct (weeklySearchBound monthStart monthEnd) as [|fuel]; cbn [weeklySearch];
      destruct (monthStart <=? monthEnd); try reflexivity.
    destruct (throwsOnWindow_throws e monthStart) as (m2 & H2).
    { unfold throwsOnWindow. now rewrite Hm, Hw. }
    now rewrite H2.
Qed.

(** C8. The calculator throws "Unknown modifier: ..." on a definition
    whose modifier is neither "monthly" nor "weekly", and "Invalid day
    of week: ..." on a weekly definition whose baseDate is not one of
    the seven day names; and [getActiveEvents], [getUpcomingEvents] and
    [getCalendarForMonth] return what they return on the configuration
    from which the definitions that throw are removed: each of them is
    skipped, the rest is processed. *)
Theorem malformed_definitions_are_skipped (cfg : Config.t)
    (this : EventsManager.t) (heap : Heap)
    (tz : JSTime.TimeZone) (currentDate daysAhead year month : Z)
    (forceRefresh : bool) :
  EventsManager.eventsConfig this = Some cfg ->
  (forall e reference,
      hasModifier e "monthly" = false -> hasModifier e "weekly" = false ->
      calculateRepeatingEventDates e reference
      = Throw ("Unknown modifier: " ++ showString (Event.modifier e))%string)
  /\ (forall e reference,
         hasModifier e "weekly" = true ->
         (forall s, Event.baseDate e = Some s -> ~ In s daysOfWeek) ->
         calculateRepeatingEventDates e reference
         = Throw ("Invalid day of week: " ++ showString (Event.baseDate e))%string)
  /\ let this' :=
       withConfig this (keepRepeating (fun e => negb (throwsOnWindow e)) cfg) in
     returnedArray (getActiveEvents this heap currentDate forceRefresh)
     = returnedArray (getActiveEvents this' heap currentDate forceRefresh)
     /\ getUpcomingEvents tz this currentDate daysAhead
        = getUpcomingEvents tz this' currentDate daysAhead
     /\ getCalendarForMonth this year month
        = getCalendarForMonth this' year month.
Proof.
  intros Hcfg.
  split; [intros e reference; apply unknown_modifier_throws|].
  split.
  { intros e reference Hw Habsent. apply unknown_weekday_throws; [assumption|].
    now apply indexOf_absent. }
  cbv zeta.
  set (keep := fun e => negb (throwsOnWindow e)).
  assert (Hdrop : forall e, keep e = false -> throwsOnWindow e = true).
  { intros e H. unfold keep in H. now apply negb_false_iff in H. }
  split; [|split].
  - unfold getActiveEvents, withConfig. rewrite Hcfg.
    cbn [EventsManager.eventsConfig EventsManager.cachedActiveEvents
         EventsManager.lastUpdateTime].
    assert (Heq : computeActiveEvents (keepRepeating keep cfg) currentDate
                  = computeActiveEvents cfg currentDate).
    { rewrite !computeActiveEvents_eq. unfold keepRepeating.
      cbn [Config.repeating_events Config.one_time_events].
      rewrite pushed_filter_nil; [reflexivity|].
      intros e He.
      apply (throwing_definition_pushes_nothing e currentDate 0 0 0 (Hdrop e He)). }
    rewrite Heq.
    change (alloc heap (computeActiveEvents cfg currentDate))
      with (List.length heap, heap ++ [computeActiveEvents cfg currentDate]).
    destruct (negb forceRefresh
              && isDefined (EventsManager.cachedActiveEvents this)
              && truthyNumber (EventsManager.lastUpdateTime this));
      [|now rewrite !returnedArray_alloc].
    destruct (EventsManager.cachedActiveEvents this);
      [|now rewrite !returnedArray_alloc].
    destruct (EventsManager.lastUpdateTime this);
      [|now rewrite !returnedArray_alloc].
    destruct (currentDate - z <? 1000); [reflexivity|].
    now rewrite !returnedArray_alloc.
  - unfold getUpcomingEvents, withConfig. rewrite Hcfg.
    cbn [EventsManager.eventsConfig]. cbv zeta.
    rewrite !forEachPushIfPresent_pushed. unfold keepRepeating.
    cbn [Config.repeating_events Config.one_time_events].
    rewrite pushed_filter_nil; [reflexivity|].
    intros e He.
    apply (throwing_definition_pushes_nothing e currentDate _ 0 0 (Hdrop e He)).
  - unfold getCalendarForMonth, withConfig. rewrite Hcfg.
    cbn [EventsManager.eventsConfig]. cbv zeta.
    rewrite !forEachPushIfPresent_pushed. unfold keepRepeating.
    cbn [Config.repeating_events Config.one_time_events].
    rewrite pushed_filter_nil; [reflexivity|].
    intros e He.
    apply (throwing_definition_pushes_nothing e 0 0 _ _ (Hdrop e He)).
Qed.

Lemma malformed_definitions_are_skipped_witness :
  map activeBounds
    (returnedArray
       (getActiveEvents (loaded mixedConfig) []
          (JSTime.DateUTC 2026 0 17 12 0 0 0) false))
  = map activeBounds
      (returnedArray
         (getActiveEvents
            (withConfig (loaded mixedConfig)
               (keepRepeating (fun e => negb (throwsOnWindow e)) mixedConfig))
            [] (JSTime.DateUTC 2026 0 17 12 0 0 0) false)).
Proof.
  exact (f_equal (map activeBounds)
           (proj1 (proj2 (proj2
              (malformed_definitions_are_skipped mixedConfig
                 (loaded mixedConfig) [] easternTime
                 (JSTime.DateUTC 2026 0 17 12 0 0 0) 30 2026 0 false eq_refl))))).
Defined.

(** The two sound definitions of the mixed configuration are reported,
    the malformed ones between them notwithstanding. *)
Example mixedConfig_active :
  map activeBounds (activeEventsAt mixedConfig (JSTime.DateUTC 2026 0 17 12 0 0 0))
  = [("Raid Weekend", JSTime.DateUTC 2026 0 16 8 0 0 0,
      JSTime.DateUTC 2026 0 19 8 0 0 0);
     ("Gold Pass", JSTime.DateUTC 2026 0 1 8 0 0 0,
      JSTime.DateUTC 2026 1 1 8 0 0 0)].
Proof. vm_compute. reflexivity. Qed.

(** ** Soft-deleted definitions *)

Lemma softDeleted_pushes_nothing (e : Event.t)
    (currentDate endDate monthStart monthEnd : Z) :
  isSoftDeleted e = true ->
  activeRepeating currentDate e = []
  /\ activeOneTime currentDate e = []
  /\ upcomingRepeating currentDate endDate e = []
  /\ upcomingOneTime currentDate endDate e = []
  /\ Unified.processEvent currentDate endDate e = []
  /\ fst (calendarRepeating monthStart monthEnd e) = []
  /\ calendarOneTime monthStart monthEnd e = [].
Proof.
  intros H.
  unfold activeRepeating, activeOneTime, upcomingRepeating, upcomingOneTime,
    Unified.processEvent, calendarRepeating, calendarOneTime.
  rewrite H. repeat split.
Qed.

Lemma computeActiveEvents_withoutSoftDeleted (cfg : Config.t) (currentDate : Z) :
  computeActiveEvents (withoutSoftDeleted cfg) currentDate
  = computeActiveEvents cfg currentDate.
Proof.
  rewrite !computeActiveEvents_eq. unfold withoutSoftDeleted.
  cbn [Config.repeating_events Config.one_time_events].
  rewrite !pushed_filter_nil; [reflexivity| |];
    intros e He; apply negb_false_iff in He;
    apply (softDeleted_pushes_nothing e currentDate 0 0 0 He).
Qed.

Lemma getActiveEvents_cases (this : EventsManager.t) (heap : Heap)
    (cfg : Config.t) (currentDate : Z) (forceRefresh : bool) :
  EventsManager.eventsConfig this = Some cfg ->
  getActiveEvents this heap currentDate forceRefresh
  = (List.length heap,
     EventsManager.mk (Some cfg) (Some (List.length heap)) (Some currentDate),
     heap ++ [computeActiveEvents cfg currentDate])
  \/ exists cached,
       EventsManager.cachedActiveEvents this = Some cached
       /\ getActiveEvents this heap currentDate forceRefresh
          = (cached, this, heap).
Proof.
  intros Hcfg. unfold getActiveEvents. rewrite Hcfg.
  change (alloc heap (computeActiveEvents cfg currentDate))
    with (List.length heap, heap ++ [computeActiveEvents cfg currentDate]).
  destruct (negb forceRefresh
            && isDefined (EventsManager.cachedActiveEvents this)
            && truthyNumber (EventsManager.lastUpdateTime this));
    [|now left].
  destruct (EventsManager.cachedActiveEvents this) as [cached|]; [|now left].
  destruct (EventsManager.lastUpdateTime this) as [lastUpdateTime|]; [|now left].
  destruct (currentDate - lastUpdateTime <? 1000); [|now left].
  right. now exists cached.
Qed.

Lemma cacheFrom_getActiveEvents (cfg : Config.t) (this : EventsManager.t)
    (heap : Heap) (currentDate : Z) (forceRefresh : bool) :
  cacheFrom cfg this heap ->
  cacheFrom cfg
    (snd (fst (getActiveEvents this heap currentDate forceRefresh)))
    (snd (getActiveEvents this heap currentDate forceRefresh)).
Proof.
  intros [Hcfg Hcache].
  destruct (getActiveEvents_cases this heap cfg currentDate forceRefresh Hcfg)
    as [-> | (cached & _ & ->)]; cbn [fst snd].
  - split; [reflexivity|]. cbn. intros cached [= <-]. exists currentDate.
    change (deref (heap ++ [computeActiveEvents cfg currentDate]) (List.length heap))
      with (deref (snd (alloc heap (computeActiveEvents cfg currentDate)))
              (fst (alloc heap (computeActiveEvents cfg currentDate)))).
    apply deref_alloc.
  - now split.
Qed.

Lemma isEventActive_state (this : EventsManager.t) (heap : Heap)
    (eventTitle : string) (currentDate : Z) :
  snd (fst (isEventActive this heap eventTitle currentDate))
  = snd (fst (getActiveEvents this heap currentDate false))
  /\ snd (isEventActive this heap eventTitle currentDate)
     = snd (getActiveEvents this heap currentDate false).
Proof.
  unfold isEventActive.
  destruct (getActiveEvents this heap currentDate false) as [[r this'] heap'].
  now split.
Qed.

Lemma reachable_cacheFrom (cfg : Config.t) (this : EventsManager.t) (heap : Heap) :
  reachable cfg this heap -> cacheFrom cfg this heap.
Proof.
  induction 1 as [heap | this heap currentDate forceRefresh _ IH
                  | this heap eventTitle currentDate _ IH].
  - split; [reflexivity|]. cbn. discriminate.
  - now apply cacheFrom_getActiveEvents.
  - destruct (isEventActive_state this heap eventTitle currentDate) as [-> ->].
    now apply cacheFrom_getActiveEvents.
Qed.

Lemma withoutSoftDeleted_definitions (kind : Kind) (e : Event.t) (cfg : Config.t) :
  isDefinition kind e (withoutSoftDeleted cfg) <->
  isDefinition kind e cfg /\ isSoftDeleted e = false.
Proof.
  unfold isDefinition, withoutSoftDeleted, member.
  destruct kind; cbn [definitionsOf Config.repeating_events Config.one_time_events].
  - destruct (Config.repeating_events cfg) as [l|]; cbn; [|tauto].
    rewrite filter_In, negb_true_iff. reflexivity.
  - destruct (Config.one_time_events cfg) as [l|]; cbn; [|tauto].
    rewrite filter_In, negb_true_iff. reflexivity.
Qed.

(** C9. In every state of a manager loaded with a configuration, each
    query returns what it returns on the configuration from which the
    definitions with [active = false] are removed, whatever the instant
    or the month asked for: the array of [getActiveEvents] is the one
    computed from the remaining definitions at some instant (the one
    asked for, or the cached one), and [getUpcomingEvents] and
    [getCalendarForMonth] agree with the queries on the remaining
    definitions. No definition with [active = false] remains. *)
Theorem soft_deleted_definitions_are_excluded (cfg : Config.t)
    (this : EventsManager.t) (heap : Heap)
    (tz : JSTime.TimeZone) (currentDate daysAhead year month : Z)
    (forceRefresh : bool) :
  reachable cfg this heap ->
  let visible := withoutSoftDeleted cfg in
  (exists instant,
      returnedArray (getActiveEvents this heap currentDate forceRefresh)
      = computeActiveEvents visible instant)
  /\ getUpcomingEvents tz this currentDate daysAhead
     = getUpcomingEvents tz (loaded visible) currentDate daysAhead
  /\ Unified.getUpcomingEvents tz this currentDate daysAhead
     = Unified.getUpcomingEvents tz (loaded visible) currentDate daysAhead
  /\ getCalendarForMonth this year month
     = getCalendarForMonth (loaded visible) year month
  /\ (forall kind e,
         isDefinition kind e visible <->
         isDefinition kind e cfg /\ isSoftDeleted e = false).
Proof.
  intros Hreach. cbv zeta.
  destruct (reachable_cacheFrom cfg this heap Hreach) as [Hcfg Hcache].
  assert (Hdrop : forall e, negb (isSoftDeleted e) = false -> isSoftDeleted e = true).
  { intros e. apply negb_false_iff. }
  split; [|split; [|split; [|split]]].
  - destruct (getActiveEvents_cases this heap cfg currentDate forceRefresh Hcfg)
      as [-> | (cached & Hc & ->)].
    + exists currentDate.
      now rewrite returnedArray_alloc, computeActiveEvents_withoutSoftDeleted.
    + destruct (Hcache cached Hc) as (instant & Hderef). exists instant.
      unfold returnedArray. rewrite Hderef.
      now rewrite computeActiveEvents_withoutSoftDeleted.
  - unfold getUpcomingEvents, loaded, withoutSoftDeleted. rewrite Hcfg.
    cbn [loadEvents fst EventsManager.eventsConfig]. cbv zeta.
    rewrite !forEachPushIfPresent_pushed.
    cbn [Config.repeating_events Config.one_time_events].
    rewrite !pushed_filter_nil; [reflexivity| |];
      intros e He; apply (softDeleted_pushes_nothing e currentDate _ 0 0 (Hdrop e He)).
  - unfold Unified.getUpcomingEvents, Unified.processEventArray, loaded,
      withoutSoftDeleted. rewrite Hcfg.
    cbn [loadEvents fst EventsManager.eventsConfig]. cbv zeta.
    rewrite !forEachPushIfPresent_pushed.
    cbn [Config.repeating_events Config.non_repeating_events].
    rewrite !pushed_filter_nil; [reflexivity| |];
      intros e He; apply (softDeleted_pushes_nothing e currentDate _ 0 0 (Hdrop e He)).
  - unfold getCalendarForMonth, loaded, withoutSoftDeleted. rewrite Hcfg.
    cbn [loadEvents fst EventsManager.eventsConfig]. cbv zeta.
    rewrite !forEachPushIfPresent_pushed.
    cbn [Config.repeating_events Config.one_time_events].
    rewrite !pushed_filter_nil; [reflexivity| |];
      intros e He; apply (softDeleted_pushes_nothing e 0 0 _ _ (Hdrop e He)).
  - intros kind e. apply withoutSoftDeleted_definitions.
Qed.

Lemma soft_deleted_definitions_are_excluded_witness :
  getCalendarForMonth
    (snd (fst (getActiveEvents
                 (loaded (Config.mk (Some [softDelete goldPass; raidWeekend]) None None))
                 [] (JSTime.DateUTC 2026 0 17 12 0 0 0) false)))
    2026 0
  = getCalendarForMonth
      (loaded (withoutSoftDeleted
                 (Config.mk (Some [softDelete goldPass; raidWeekend]) None None)))
      2026 0.
Proof.
  exact (proj1 (proj2 (proj2 (proj2
           (soft_deleted_definitions_are_excluded
              (Config.mk (Some [softDelete goldPass; raidWeekend]) None None)
              _ _ easternTime (JSTime.DateUTC 2026 0 17 12 0 0 0) 30 2026 0 false
              (reachable_getActiveEvents _ _ _
                 (JSTime.DateUTC 2026 0 17 12 0 0 0) false
                 (reachable_loaded _ []))))))).
Defined.

(** ** The monthly calculator *)

Section Monthly.
Import JSTime JSTimeFacts.

Lemma InLeapYear_cases (t : Z) : InLeapYear t = 0 \/ InLeapYear t = 1.
Proof. unfold InLeapYear. destruct (isLeapYear _); auto. Qed.

Lemma DayWithinYear_range (t : Z) :
  0 <= DayWithinYear t < 365 + InLeapYear t.
Proof.
  unfold DayWithinYear, InLeapYear, YearFromTime.
  pose proof (YearFromDay_spec (Day t)) as H.
  rewrite DayFromYear_succ in H. unfold DaysInYear in H.
  destruct (isLeapYear (YearFromDay (Day t))); lia.
Qed.

(** Evaluates [monthStartDay] at the month numbers in the goal. *)
Ltac monthStartDay_at :=
  unfold monthStartDay;
  repeat match goal with
         | |- context [?a =? ?b] =>
             let v := eval vm_compute in (a =? b) in
             change (a =? b) with v
         end;
  cbv iota.

(** The day of the year lies in its month. *)
Lemma month_bounds (t : Z) :
  monthStartDay (MonthFromTime t) (InLeapYear t) <= DayWithinYear t
  /\ DayWithinYear t < monthStartDay (MonthFromTime t + 1) (InLeapYear t).
Proof.
  pose proof (DayWithinYear_range t) as Hr.
  pose proof (InLeapYear_cases t) as Hl.
  unfold MonthFromTime, monthOfYearDay.
  set (w := DayWithinYear t) in *. set (l := InLeapYear t) in *.
  clearbody w l.
  repeat match goal with
         | |- context [if ?a <? ?b then _ else _] =>
             destruct (Z.ltb_spec a b); [monthStartDay_at; lia|]
         end.
  monthStartDay_at. lia.
Qed.

Lemma DateFromTime_positive (t : Z) : 1 <= DateFromTime t.
Proof. unfold DateFromTime. pose proof (month_bounds t). lia. Qed.

Lemma monthStartDay_nonneg (m l : Z) : 0 <= l -> 0 <= monthStartDay m l.
Proof.
  intros Hl. unfold monthStartDay.
  repeat match goal with
         | |- context [if ?c then _ else _] => destruct c; [lia|]
         end.
  lia.
Qed.

Lemma DayFromYear_1900 (y : Z) :
  0 <= y <= 99 -> DayFromYear (y + 1) + 600000 <= DayFromYear (1900 + y).
Proof. intros Hy. unfold DayFromYear. Z.div_mod_to_equations. lia. Qed.

Lemma Day_before_next_year (t : Z) : Day t < DayFromYear (YearFromTime t + 1).
Proof. unfold YearFromTime. apply YearFromDay_spec. Qed.

(** The day number of day [d] of month [m] (0-12) of year [y]. *)
Lemma MakeDay_month (y m d : Z) :
  0 <= m <= 12 ->
  MakeDay y m d
  = DayFromYear y + monthStartDay m (if isLeapYear y then 1 else 0) + d - 1.
Proof.
  intros Hm. unfold MakeDay.
  destruct (Z.eq_dec m 12) as [->|Hne].
  - change (12 / 12) with 1. change (12 mod 12) with 0.
    rewrite DayFromYear_succ. unfold DaysInYear.
    destruct (isLeapYear y); destruct (isLeapYear (y + 1)); cbn; lia.
  - rewrite Z.div_small, Z.mod_small by lia. now rewrite Z.add_0_r.
Qed.

Lemma DateUTC_at8 (y m d : Z) :
  DateUTC y m d 8 0 0 0
  = MakeDay (if (0 <=? y) && (y <=? 99) then 1900 + y else y) m d * msPerDay
    + 28800000.
Proof. reflexivity. Qed.

Lemma after_day (t day : Z) : Day t < day -> t < day * msPerDay + 28800000.
Proof.
  intros H. pose proof (Day_TimeWithinDay t). pose proof (TimeWithinDay_range t).
  unfold msPerDay in *. lia.
Qed.

(** Day [d] (from 1) of month [m] of the year of [t], in the reading of
    [Date.UTC], comes after [t] when the month starts after [t]'s day or
    [m] is [t]'s month and [d] is after [t]'s day of the month. *)
Lemma DateUTC_after (t m d : Z) :
  0 <= m <= 12 ->
  Day t < DayFromYear (YearFromTime t)
          + monthStartDay m (InLeapYear t) + d - 1 ->
  1 <= d ->
  t < DateUTC (YearFromTime t) m d 8 0 0 0.
Proof.
  intros Hm Hlater Hd. rewrite DateUTC_at8. apply after_day.
  rewrite MakeDay_month by assumption.
  destruct ((0 <=? YearFromTime t) && (YearFromTime t <=? 99)) eqn:E.
  - apply andb_prop in E as [E1 E2]. apply Z.leb_le in E1, E2.
    pose proof (DayFromYear_1900 (YearFromTime t) (conj E1 E2)).
    pose proof (Day_before_next_year t).
    pose proof (monthStartDay_nonneg m
                  (if isLeapYear (1900 + YearFromTime t) then 1 else 0)) as Hn.
    destruct (isLeapYear (1900 + YearFromTime t)); lia.
  - exact Hlater.
Qed.

Lemma future_this_month (t d : Z) :
  DateFromTime t < d ->
  t < DateUTC (YearFromTime t) (MonthFromTime t) d 8 0 0 0.
Proof.
  intros Hd. pose proof (MonthFromTime_range t). pose proof (DateFromTime_positive t).
  apply DateUTC_after; [lia| |lia].
  unfold DateFromTime, DayWithinYear in *. lia.
Qed.

Lemma future_next_month (t d : Z) :
  1 <= d ->
  t < DateUTC (YearFromTime t) (MonthFromTime t + 1) d 8 0 0 0.
Proof.
  intros Hd. pose proof (MonthFromTime_range t). pose proof (month_bounds t).
  apply DateUTC_after; [lia| |lia].
  unfold DayWithinYear in *. lia.
Qed.


End Monthly.

(** ** Upcoming events *)

Section Upcoming.
Import JSTime JSTimeFacts.

Lemma flat_map_ext_in {A B : Type} (f g : A -> list B) (l : list A) :
  (forall x, In x l -> f x = g x) -> flat_map f l = flat_map g l.
Proof.
  induction l as [|x l IH]; intros H; cbn.
  - reflexivity.
  - rewrite (H x (or_introl eq_refl)), IH; [reflexivity|].
    intros y Hy. apply H. now right.
Qed.

Lemma pushed_ext_in {A B : Type} (f g : A -> list B) (array : option (list A)) :
  (forall x, member x array -> f x = g x) -> pushed f array = pushed g array.
Proof.
  destruct array as [l|]; cbn; [apply flat_map_ext_in | reflexivity].
Qed.




Lemma upcomingOneTime_overlapping (e : Event.t) (reference daysAhead : Z) :
  upcomingOneTime reference (reference + daysAhead * msPerDay) e
  = overlappingDefinition OneTime reference daysAhead e.
Proof. reflexivity. Qed.


(** The horizon of [getUpcomingEvents]: [daysAhead] days of 24 hours
    after the reference, corrected by the change of the host's offset
    between the two. *)
Lemma horizon_by_offsetChange (tz : TimeZone) (reference daysAhead : Z) :
  setDate tz reference (getDate tz reference + daysAhead)
  = reference + daysAhead * msPerDay + offsetChange tz reference daysAhead.
Proof.
  rewrite setDate_shift. unfold UTC, offsetChange, LocalTime. lia.
Qed.



End Upcoming.




(** What the unified revision lists there: the recurrence that is
    marked [ignoreDate], active, and the definition with explicit bounds
    that starts on the 23rd. *)
Example unifiedConfig_upcoming :
  map (fun u => (UpcomingEvent.title u, UpcomingEvent.type u,
                 UpcomingEvent.isActive u))
    (Unified.getUpcomingEvents easternTime (loaded unifiedConfig)
       (JSTime.DateUTC 2026 0 17 12 0 0 0) 30)
  = [("Season Pass", "repeating", true); ("Weekend Sale", "sale", false)].
Proof. vm_compute. reflexivity. Qed.

(** The horizon of the query of 2026-03-01 at 12:00 UTC on Eastern
    time, 30 days ahead: 2026-03-31 at 11:00 UTC. *)
Example easternTime_horizon :
  JSTime.setDate easternTime (JSTime.DateUTC 2026 2 1 12 0 0 0)
    (JSTime.getDate easternTime (JSTime.DateUTC 2026 2 1 12 0 0 0) + 30)
  = JSTime.DateUTC 2026 2 31 11 0 0 0.
Proof. vm_compute. reflexivity. Qed.

(** The first revision lists the definition whose window has ended. *)
Example endedOffer_listed :
  map (fun u => (UpcomingEvent.title u, UpcomingEvent.start u,
                 UpcomingEvent.end_ u))
    (getUpcomingEvents (JSTime.fixedOffset 0) (loaded endedOfferConfig)
       (JSTime.DateUTC 2026 0 17 12 0 0 0) 30)
  = [("Ended Offer", Some (JSTime.DateUTC 2026 0 20 8 0 0 0),
      Some (JSTime.DateUTC 2026 0 15 8 0 0 0))].
Proof. vm_compute. reflexivity. Qed.

(** The upcoming events of the documented configuration on Saturday
    2026-01-17 at noon, 30 days ahead, by start. *)
Example documentedConfig_upcoming :
  map (fun u => (UpcomingEvent.title u, UpcomingEvent.isActive u))
    (getUpcomingEvents easternTime (loaded documentedConfig)
       (JSTime.DateUTC 2026 0 17 12 0 0 0) 30)
  = [("Gold Pass", true); ("1 Gem Boosts", true); ("Raid Weekend", true)].
Proof. vm_compute. reflexivity. Qed.

(** ** The weekly search of the calendar returns *)

Lemma weeklySearch_enough_fuel (event : Event.t) (monthStart monthEnd : Z)
    (fuel : nat) (searchDate : Z) :
  (monthEnd - searchDate) / (7 * JSTime.msPerDay) + 1 <= Z.of_nat fuel ->
  snd (weeklySearch fuel event monthStart monthEnd searchDate) <> OutOfFuel.
Proof.
  revert searchDate. induction fuel as [|fuel IH]; intros searchDate Hfuel;
    cbn [weeklySearch];
    destruct (Z.leb_spec searchDate monthEnd) as [Hle|Hgt];
    try (cbn; discriminate).
  - exfalso. unfold JSTime.msPerDay in Hfuel. cbn [Z.of_nat] in Hfuel.
    Z.div_mod_to_equations. lia.
  - destruct (calculateRepeatingEventDates event searchDate) as [w|message];
      [|cbn; discriminate].
    rewrite JSTimeFacts.setUTCDate_shift.
    specialize (IH (searchDate + 7 * JSTime.msPerDay)).
    destruct (weeklySearch fuel event monthStart monthEnd
                (searchDate + 7 * JSTime.msPerDay)) as [rest completion].
    cbn [snd] in *. apply IH.
    unfold JSTime.msPerDay in *.
    rewrite Nat2Z.inj_succ in Hfuel.
    Z.div_mod_to_equations. lia.
Qed.

(** The bound that [getCalendarForMonth] is modelled with is enough: the
    loop over the weeks of the month ends, normally or by an error. *)
Lemma calendarRepeating_returns (event : Event.t) (monthStart monthEnd : Z) :
  snd (calendarRepeating monthStart monthEnd event) <> OutOfFuel.
Proof.
  unfold calendarRepeating.
  destruct (isSoftDeleted event); [cbn; discriminate|].
  destruct (hasModifier event "monthly").
  - destruct (calculateRepeatingEventDates event monthStart); cbn; discriminate.
  - destruct (hasModifier event "weekly"); [|cbn; discriminate].
    destruct (Z.leb_spec monthStart monthEnd) as [Hle|Hgt].
    + apply weeklySearch_enough_fuel. unfold weeklySearchBound.
      rewrite Z2Nat.id; [lia|].
      unfold JSTime.msPerDay. Z.div_mod_to_equations. lia.
    + destruct (weeklySearchBound monthStart monthEnd); cbn [weeklySearch];
        destruct (Z.leb_spec monthStart monthEnd); try lia; cbn; discriminate.
Qed.

(** * Further properties of the class *)

(** ** The stable sort *)

Lemma insertBy_In {A : Type} (key : A -> Z) (x y : A) (l : list A) :
  In y (insertBy key x l) <-> y = x \/ In y l.
Proof.
  split.
  - intros H. apply (Permutation_in _ (Permutation_sym (insertBy_perm key x l))) in H.
    destruct H as [->|H]; auto.
  - intros H. apply (Permutation_in _ (insertBy_perm key x l)).
    destruct H as [->|H]; [now left | now right].
Qed.

Lemma insertBy_sorted {A : Type} (key : A -> Z) (x : A) (l : list A) :
  StronglySorted (fun a b => key a <= key b) l ->
  StronglySorted (fun a b => key a <= key b) (insertBy key x l).
Proof.
  induction 1 as [|y r Hr IH Hy]; cbn.
  - constructor; constructor.
  - destruct (Z.leb_spec (key x) (key y)) as [Hle|Hgt].
    + constructor; [now constructor|].
      constructor; [assumption|].
      rewrite Forall_forall in *. intros z Hz. specialize (Hy z Hz). lia.
    + constructor; [assumption|].
      rewrite Forall_forall in *. intros z Hz.
      apply insertBy_In in Hz as [->|Hz]; [lia | now apply Hy].
Qed.

Lemma sortBy_sorted {A : Type} (key : A -> Z) (l : list A) :
  StronglySorted (fun a b => key a <= key b) (sortBy key l).
Proof.
  induction l as [|x l IH]; cbn.
  - constructor.
  - now apply insertBy_sorted.
Qed.

Lemma insertBy_filter_key {A : Type} (key : A -> Z) (k : Z) (x : A) (l : list A) :
  filter (fun a => key a =? k) (insertBy key x l)
  = filter (fun a => key a =? k) (x :: l).
Proof.
  induction l as [|y r IH]; [reflexivity|].
  cbn [insertBy]. destruct (Z.leb_spec (key x) (key y)) as [Hle|Hgt];
    [reflexivity|].
  cbn [filter] in *. rewrite IH.
  destruct (Z.eqb_spec (key x) k) as [Hx|Hx]; [|reflexivity].
  destruct (Z.eqb_spec (key y) k) as [Hy|Hy]; [lia | reflexivity].
Qed.

(** The sort is stable: the elements of one key keep their order. *)
Lemma sortBy_stable {A : Type} (key : A -> Z) (k : Z) (l : list A) :
  filter (fun a => key a =? k) (sortBy key l) = filter (fun a => key a =? k) l.
Proof.
  induction l as [|x l IH]; [reflexivity|].
  cbn [sortBy fold_right]. rewrite insertBy_filter_key.
  cbn [filter]. fold (sortBy key l). now rewrite IH.
Qed.

Lemma StronglySorted_weaken {A : Type} (R S : A -> A -> Prop) (l : list A) :
  (forall a b, In a l -> In b l -> R a b -> S a b) ->
  StronglySorted R l -> StronglySorted S l.
Proof.
  intros Himp Hs. induction Hs as [|x r Hr IH Hx]; constructor.
  - apply IH. intros a b Ha Hb. apply Himp; now right.
  - rewrite Forall_forall in *. intros z Hz.
    apply Himp; [now left | now right | now apply Hx].
Qed.

Lemma filter_ext_in_bool {A : Type} (p q : A -> bool) (l : list A) :
  (forall a, In a l -> p a = q a) -> filter p l = filter q l.
Proof.
  induction l as [|x l IH]; intros H; cbn; [reflexivity|].
  rewrite (H x (or_introl eq_refl)), IH; [reflexivity|].
  intros a Ha. apply H. now right.
Qed.

(** ** The elements of the active list *)

Lemma calculateCountdown_totalMs (endDate currentDate : Z) :
  currentDate < endDate ->
  Countdown.totalMs (calculateCountdown endDate currentDate)
  = endDate - currentDate.
Proof.
  intros H. unfold calculateCountdown.
  destruct (Z.leb_spec (endDate - currentDate) 0); [lia | reflexivity].
Qed.

Lemma pushed_active_element (cfg : Config.t) (currentDate : Z)
    (a : ActiveEvent.t) :
  In a (pushed (activeRepeating currentDate) (Config.repeating_events cfg)
        ++ pushed (activeOneTime currentDate) (Config.one_time_events cfg)) ->
  ActiveEvent.start a <= currentDate < ActiveEvent.end_ a
  /\ ActiveEvent.countdown a = calculateCountdown (ActiveEvent.end_ a) currentDate
  /\ ActiveEvent.countdownText a = formatCountdown (ActiveEvent.countdown a)
  /\ (ActiveEvent.type a = "repeating" \/ ActiveEvent.type a = "one-time").
Proof.
  rewrite in_app_iff, !In_pushed.
  intros [(e & _ & Hin)|(e & _ & Hin)].
  - split; [exact (active_element_within Repeating e currentDate a Hin)|].
    unfold activeRepeating in Hin.
    destruct (isSoftDeleted e); [destruct Hin|].
    destruct (calculateRepeatingEventDates e currentDate) as [w|]; [|destruct Hin].
    destruct (isWithin _ _ _); [|destruct Hin].
    destruct (Window.start w), (Window.end_ w); try destruct Hin as [<-|[]];
      try contradiction.
    cbn. auto.
  - split; [exact (active_element_within OneTime e currentDate a Hin)|].
    unfold activeOneTime in Hin.
    destruct (isSoftDeleted e); [destruct Hin|]. cbv zeta in Hin.
    destruct (isWithin _ _ _); [|destruct Hin].
    destruct (newDate (Event.start e)), (newDate (Event.end_ e));
      try destruct Hin as [<-|[]]; try contradiction.
    cbn. auto.
Qed.

Lemma computeActiveEvents_element (cfg : Config.t) (currentDate : Z)
    (a : ActiveEvent.t) :
  In a (computeActiveEvents cfg currentDate) ->
  ActiveEvent.start a <= currentDate < ActiveEvent.end_ a
  /\ ActiveEvent.countdown a = calculateCountdown (ActiveEvent.end_ a) currentDate
  /\ ActiveEvent.countdownText a = formatCountdown (ActiveEvent.countdown a)
  /\ (ActiveEvent.type a = "repeating" \/ ActiveEvent.type a = "one-time").
Proof.
  rewrite computeActiveEvents_eq, sortBy_In. apply pushed_active_element.
Qed.

(** X1. A recomputed active list is in ascending order of the end
    instants: the event that ends soonest comes first. *)
Theorem getActiveEvents_sorted_by_end (this : EventsManager.t) (heap : Heap)
    (cfg : Config.t) (currentDate : Z) :
  EventsManager.eventsConfig this = Some cfg ->
  StronglySorted (fun a b => ActiveEvent.end_ a <= ActiveEvent.end_ b)
    (returnedArray (getActiveEvents this heap currentDate true)).
Proof.
  intros Hcfg.
  rewrite (getActiveEvents_forced _ _ _ _ Hcfg), returnedArray_alloc.
  apply (StronglySorted_weaken
           (fun a b => Countdown.totalMs (ActiveEvent.countdown a)
                       <= Countdown.totalMs (ActiveEvent.countdown b))).
  - intros a b Ha Hb.
    destruct (computeActiveEvents_element cfg currentDate a Ha) as (Hwa & -> & _).
    destruct (computeActiveEvents_element cfg currentDate b Hb) as (Hwb & -> & _).
    rewrite !calculateCountdown_totalMs by lia. lia.
  - rewrite computeActiveEvents_eq. apply sortBy_sorted.
Qed.

Lemma getActiveEvents_sorted_by_end_witness :
  StronglySorted (fun a b => ActiveEvent.end_ a <= ActiveEvent.end_ b)
    (returnedArray
       (getActiveEvents (loaded documentedConfig) []
          (JSTime.DateUTC 2026 0 17 12 0 0 0) true)).
Proof.
  apply (getActiveEvents_sorted_by_end (loaded documentedConfig) []
           documentedConfig).
  reflexivity.
Defined.

(** X2. The order of the active list is stable: the events that end at
    the same instant stand as the definitions do, the repeating ones in
    the order of [repeating_events] before the one-time ones in the
    order of [one_time_events]. *)
Theorem getActiveEvents_ties_in_definition_order (this : EventsManager.t)
    (heap : Heap) (cfg : Config.t) (currentDate endInstant : Z) :
  EventsManager.eventsConfig this = Some cfg ->
  filter (fun a => ActiveEvent.end_ a =? endInstant)
    (returnedArray (getActiveEvents this heap currentDate true))
  = filter (fun a => ActiveEvent.end_ a =? endInstant)
      (pushed (activeRepeating currentDate) (Config.repeating_events cfg)
       ++ pushed (activeOneTime currentDate) (Config.one_time_events cfg)).
Proof.
  intros Hcfg.
  rewrite (getActiveEvents_forced _ _ _ _ Hcfg), returnedArray_alloc.
  rewrite computeActiveEvents_eq.
  set (l := pushed (activeRepeating currentDate) (Config.repeating_events cfg)
            ++ pushed (activeOneTime currentDate) (Config.one_time_events cfg)).
  set (key := fun a => Countdown.totalMs (ActiveEvent.countdown a)).
  assert (Hkey : forall a, In a l ->
                   (ActiveEvent.end_ a =? endInstant)
                   = (key a =? endInstant - currentDate)).
  { intros a Ha. destruct (pushed_active_element cfg currentDate a Ha)
      as (Hw & Hc & _).
    unfold key. rewrite Hc, calculateCountdown_totalMs by lia.
    destruct (Z.eqb_spec (ActiveEvent.end_ a) endInstant);
      destruct (Z.eqb_spec (ActiveEvent.end_ a - currentDate)
                  (endInstant - currentDate)); lia || reflexivity. }
  rewrite (filter_ext_in_bool _ (fun a => key a =? endInstant - currentDate)
             (sortBy key l)).
  - rewrite sortBy_stable. symmetry. now apply filter_ext_in_bool.
  - intros a Ha. apply Hkey. now apply sortBy_In in Ha.
Qed.

Lemma getActiveEvents_ties_in_definition_order_witness :
  map ActiveEvent.title
    (filter (fun a => ActiveEvent.end_ a =? JSTime.DateUTC 2026 0 19 8 0 0 0)
       (returnedArray
          (getActiveEvents (loaded tiedConfig) []
             (JSTime.DateUTC 2026 0 17 12 0 0 0) true)))
  = ["Raid Weekend"; "Star Bonus"].
Proof.
  refine (eq_trans
            (f_equal (map ActiveEvent.title)
               (getActiveEvents_ties_in_definition_order (loaded tiedConfig) []
                  tiedConfig (JSTime.DateUTC 2026 0 17 12 0 0 0)
                  (JSTime.DateUTC 2026 0 19 8 0 0 0) _)) _).
  - reflexivity.
  - vm_compute. reflexivity.
Defined.

(** X3. Every event of a recomputed active list contains the instant
    asked for, and carries the countdown to its end: [totalMs] is
    [end - currentDate], which is positive, and the text is the one
    formatted from the countdown. *)
Theorem getActiveEvents_elements (this : EventsManager.t) (heap : Heap)
    (cfg : Config.t) (currentDate : Z) (a : ActiveEvent.t) :
  EventsManager.eventsConfig this = Some cfg ->
  In a (returnedArray (getActiveEvents this heap currentDate true)) ->
  ActiveEvent.start a <= currentDate < ActiveEvent.end_ a
  /\ Countdown.totalMs (ActiveEvent.countdown a)
     = ActiveEvent.end_ a - currentDate
  /\ 0 < Countdown.totalMs (ActiveEvent.countdown a)
  /\ ActiveEvent.countdownText a = formatCountdown (ActiveEvent.countdown a).
Proof.
  intros Hcfg.
  rewrite (getActiveEvents_forced _ _ _ _ Hcfg), returnedArray_alloc.
  intros Ha.
  destruct (computeActiveEvents_element cfg currentDate a Ha)
    as (Hw & Hc & Ht & _).
  split; [exact Hw|]. rewrite Hc at 1 2.
  rewrite calculateCountdown_totalMs by lia.
  repeat split; [lia | exact Ht].
Qed.

Lemma getActiveEvents_elements_witness :
  Countdown.totalMs
    (ActiveEvent.countdown
       (activeViewOf Repeating goldPass (JSTime.DateUTC 2026 0 1 8 0 0 0)
          (JSTime.DateUTC 2026 1 1 8 0 0 0) (JSTime.DateUTC 2026 0 17 12 0 0 0)))
  = JSTime.DateUTC 2026 1 1 8 0 0 0 - JSTime.DateUTC 2026 0 17 12 0 0 0.
Proof.
  refine (proj1 (proj2 (getActiveEvents_elements (loaded documentedConfig) []
                          documentedConfig (JSTime.DateUTC 2026 0 17 12 0 0 0)
                          _ _ _))).
  - reflexivity.
  - vm_compute. right. right. left. reflexivity.
Defined.

(** ** The countdown text *)

(** X4. The text of the countdown to [endDate] shows the two largest
    units that apply to the time that remains: days and hours from one
    day on, hours and minutes from one hour on, minutes and seconds from
    one minute on, seconds alone below, and "0s" once the end is reached. *)
Theorem countdownText_by_remaining (endDate currentDate : Z) :
  let remaining := endDate - currentDate in
  let text := formatCountdown (calculateCountdown endDate currentDate) in
  (86400000 <= remaining ->
   text = (showNumber (remaining / 86400000) ++ "d "
           ++ showNumber (remaining mod 86400000 / 3600000) ++ "h")%string)
  /\ (3600000 <= remaining < 86400000 ->
      text = (showNumber (remaining / 3600000) ++ "h "
              ++ showNumber (remaining mod 3600000 / 60000) ++ "m")%string)
  /\ (60000 <= remaining < 3600000 ->
      text = (showNumber (remaining / 60000) ++ "m "
              ++ showNumber (remaining mod 60000 / 1000) ++ "s")%string)
  /\ (0 < remaining < 60000 ->
      text = (showNumber (remaining / 1000) ++ "s")%string)
  /\ (remaining <= 0 -> text = "0s").
Proof.
  cbv zeta. unfold calculateCountdown.
  set (r := endDate - currentDate).
  change (1000 * 60 * 60 * 24) with 86400000.
  change (1000 * 60 * 60) with 3600000.
  change (1000 * 60) with 60000.
  destruct (Z.leb_spec r 0) as [Hpast|Hfuture].
  - split; [lia|]. split; [lia|]. split; [lia|]. split; [lia|].
    intros _. reflexivity.
  - unfold formatCountdown.
    cbn [Countdown.days Countdown.hours Countdown.minutes Countdown.seconds].
    rewrite !Z.rem_mod_nonneg by lia.
    assert (Hd : 0 <= r / 86400000) by (Z.div_mod_to_equations; lia).
    assert (Hh : 0 <= r mod 86400000 / 3600000) by (Z.div_mod_to_equations; lia).
    assert (Hm : 0 <= r mod 3600000 / 60000) by (Z.div_mod_to_equations; lia).
    split; [|split; [|split; [|split]]]; intros Hr.
    + destruct (Z.ltb_spec 0 (r / 86400000)); [reflexivity|].
      exfalso. Z.div_mod_to_equations. lia.
    + destruct (Z.ltb_spec 0 (r / 86400000));
        [exfalso; Z.div_mod_to_equations; lia|].
      rewrite (Z.mod_small r 86400000) by lia.
      destruct (Z.ltb_spec 0 (r / 3600000)); [reflexivity|].
      exfalso. Z.div_mod_to_equations. lia.
    + destruct (Z.ltb_spec 0 (r / 86400000));
        [exfalso; Z.div_mod_to_equations; lia|].
      rewrite (Z.mod_small r 86400000) by lia.
      destruct (Z.ltb_spec 0 (r / 3600000));
        [exfalso; Z.div_mod_to_equations; lia|].
      rewrite (Z.mod_small r 3600000) by lia.
      destruct (Z.ltb_spec 0 (r / 60000)); [reflexivity|].
      exfalso. Z.div_mod_to_equations. lia.
    + destruct (Z.ltb_spec 0 (r / 86400000));
        [exfalso; Z.div_mod_to_equations; lia|].
      rewrite (Z.mod_small r 86400000) by lia.
      destruct (Z.ltb_spec 0 (r / 3600000));
        [exfalso; Z.div_mod_to_equations; lia|].
      rewrite (Z.mod_small r 3600000) by lia.
      destruct (Z.ltb_spec 0 (r / 60000));
        [exfalso; Z.div_mod_to_equations; lia|].
      rewrite (Z.mod_small r 60000) by lia. reflexivity.
    + lia.
Qed.

Lemma countdownText_by_remaining_witness :
  formatCountdown (calculateCountdown 1000000000 1) = "11d 13h"
  /\ formatCountdown (calculateCountdown 5000000 0) = "1h 23m"
  /\ formatCountdown (calculateCountdown 7 7) = "0s".
Proof.
  split; [|split].
  - refine (eq_trans
              (proj1 (countdownText_by_remaining 1000000000 1) _) _);
      [lia | vm_compute; reflexivity].
  - refine (eq_trans
              (proj1 (proj2 (countdownText_by_remaining 5000000 0)) _) _);
      [lia | vm_compute; reflexivity].
  - apply (proj2 (proj2 (proj2 (proj2 (countdownText_by_remaining 7 7))))). lia.
Defined.

(** ** The elements and the order of the upcoming list *)

Lemma upcoming_body_element (currentDate endDate : Z) (e : Event.t)
    (u : UpcomingEvent.t) :
  In u (upcomingRepeating currentDate endDate e)
  \/ In u (upcomingOneTime currentDate endDate e)
  \/ In u (Unified.processEvent currentDate endDate e) ->
  date_lt (UpcomingEvent.start u) (Some endDate) = true
  /\ UpcomingEvent.isActive u
     = isWithin currentDate (UpcomingEvent.start u) (UpcomingEvent.end_ u).
Proof.
  unfold upcomingRepeating, upcomingOneTime, Unified.processEvent.
  destruct (isSoftDeleted e); [intros [[]|[[]|[]]]|].
  intros [H|[H|H]].
  - destruct (calculateRepeatingEventDates e currentDate) as [w|]; [|destruct H].
    destruct (date_lt (Window.start w) (Some endDate)) eqn:E; [|destruct H].
    destruct H as [<-|[]]. now split.
  - cbv zeta in H.
    destruct (date_lt (newDate (Event.start e)) (Some endDate)) eqn:E;
      [|destruct H].
    destruct (date_gt (newDate (Event.end_ e)) (Some currentDate));
      cbn [andb] in H; [|destruct H].
    destruct H as [<-|[]]. now split.
  - destruct (Unified.eventDates currentDate e) as [[s en]|]; [|destruct H].
    destruct (date_lt s (Some endDate)) eqn:E; [|destruct H].
    destruct (date_gt en (Some currentDate)); cbn [andb] in H; [|destruct H].
    destruct H as [<-|[]]. now split.
Qed.

Lemma getUpcomingEvents_element (tz : JSTime.TimeZone)
    (this : EventsManager.t) (currentDate daysAhead : Z) (u : UpcomingEvent.t) :
  In u (getUpcomingEvents tz this currentDate daysAhead)
  \/ In u (Unified.getUpcomingEvents tz this currentDate daysAhead) ->
  date_lt (UpcomingEvent.start u)
    (Some (currentDate + daysAhead * JSTime.msPerDay
           + offsetChange tz currentDate daysAhead)) = true
  /\ UpcomingEvent.isActive u
     = isWithin currentDate (UpcomingEvent.start u) (UpcomingEvent.end_ u).
Proof.
  unfold getUpcomingEvents, Unified.getUpcomingEvents, Unified.processEventArray.
  destruct (EventsManager.eventsConfig this) as [cfg|]; [|intros [[]|[]]].
  cbv zeta. rewrite horizon_by_offsetChange, !forEachPushIfPresent_pushed.
  rewrite !sortBy_In. cbn [app]. rewrite !in_app_iff, !In_pushed.
  intros [[(e & _ & H)|(e & _ & H)]|[(e & _ & H)|(e & _ & H)]];
    apply (upcoming_body_element currentDate _ e u); auto.
Qed.

Lemma date_lt_valid (d : JSDate) (bound : Z) :
  date_lt d (Some bound) = true -> exists s, d = Some s /\ s < bound.
Proof.
  destruct d as [s|]; [|discriminate]. cbn. intros H%Z.ltb_lt. now exists s.
Qed.

(** X5. In both revisions the upcoming list is in ascending order of the
    start instants, every one of which is a valid date before the
    horizon: [currentDate + daysAhead] days of 24 hours, plus the
    change of the host's offset from UTC between the instant asked for
    and the same local time [daysAhead] days later (an hour more after
    the clocks go back, an hour less after they go forward, nothing on a
    host without daylight saving). *)
Theorem getUpcomingEvents_sorted_by_start (tz : JSTime.TimeZone)
    (this : EventsManager.t) (currentDate daysAhead : Z) :
  let inOrder := fun a b =>
    date_le (UpcomingEvent.start a) (UpcomingEvent.start b) = true in
  let beforeHorizon := fun u =>
    exists s, UpcomingEvent.start u = Some s
              /\ s < currentDate + daysAhead * JSTime.msPerDay
                      + offsetChange tz currentDate daysAhead in
  StronglySorted inOrder (getUpcomingEvents tz this currentDate daysAhead)
  /\ Forall beforeHorizon (getUpcomingEvents tz this currentDate daysAhead)
  /\ StronglySorted inOrder
       (Unified.getUpcomingEvents tz this currentDate daysAhead)
  /\ Forall beforeHorizon
       (Unified.getUpcomingEvents tz this currentDate daysAhead).
Proof.
  cbv zeta.
  assert (Hvalid : forall u,
             In u (getUpcomingEvents tz this currentDate daysAhead)
             \/ In u (Unified.getUpcomingEvents tz this currentDate daysAhead) ->
             exists s, UpcomingEvent.start u = Some s
                       /\ s < currentDate + daysAhead * JSTime.msPerDay
                               + offsetChange tz currentDate daysAhead).
  { intros u Hu. apply date_lt_valid.
    now apply (getUpcomingEvents_element tz this currentDate daysAhead u). }
  assert (Hweaken : forall l,
             (forall u, In u l -> exists s, UpcomingEvent.start u = Some s
                          /\ s < currentDate + daysAhead * JSTime.msPerDay
                                  + offsetChange tz currentDate daysAhead) ->
             StronglySorted (fun a b => startTime a <= startTime b) l ->
             StronglySorted
               (fun a b => date_le (UpcomingEvent.start a)
                             (UpcomingEvent.start b) = true) l).
  { intros l Hl. apply StronglySorted_weaken. intros a b Ha Hb.
    destruct (Hl a Ha) as (sa & Ea & _). destruct (Hl b Hb) as (sb & Eb & _).
    unfold startTime. rewrite Ea, Eb. cbn. apply Z.leb_le. }
  split; [|split; [|split]].
  - apply Hweaken; [intros u Hu; apply Hvalid; now left|].
    unfold getUpcomingEvents.
    destruct (EventsManager.eventsConfig this); [apply sortBy_sorted|constructor].
  - apply Forall_forall. intros u Hu. apply Hvalid. now left.
  - apply Hweaken; [intros u Hu; apply Hvalid; now right|].
    unfold Unified.getUpcomingEvents.
    destruct (EventsManager.eventsConfig this); [apply sortBy_sorted|constructor].
  - apply Forall_forall. intros u Hu. apply Hvalid. now right.
Qed.

(** After the clocks have gone back the horizon is an hour later than
    30 days of 24 hours: asked on 2026-10-15 at 12:00 UTC on Eastern
    time, a definition that starts on 2026-11-14 at 12:30 UTC is listed. *)
Example horizon_after_the_clocks_go_back :
  offsetChange easternTime (JSTime.DateUTC 2026 9 15 12 0 0 0) 30
  = JSTime.msPerHour
  /\ map UpcomingEvent.title
       (getUpcomingEvents easternTime
          (loaded (Config.mk None
                     (Some [Event.mk "Late Start" "clock" None None None false
                              None None None
                              (Some (Some (JSTime.DateUTC 2026 10 14 12 30 0 0)))
                              (Some (Some (JSTime.DateUTC 2026 10 16 12 30 0 0)))
                              None])
                     None))
          (JSTime.DateUTC 2026 9 15 12 0 0 0) 30)
     = ["Late Start"].
Proof. split; vm_compute; reflexivity. Qed.

(** The hosts of the examples: on a fixed offset, and on Eastern time
    with its two offsets, any two offsets differ by less than a day. *)
Lemma fixedOffset_within_a_day (tza : Z) :
  offsetsWithinADay (JSTime.fixedOffset tza).
Proof.
  intros a b. unfold JSTime.fixedOffset, JSTime.msPerDay.
  rewrite Z.sub_diag. cbn. lia.
Qed.

Lemma easternTime_offsets (t : Z) (isUTC : bool) :
  easternTime t isUTC = - 4 * JSTime.msPerHour
  \/ easternTime t isUTC = - 5 * JSTime.msPerHour.
Proof.
  unfold easternTime. cbv zeta.
  destruct (_ && _); [now left | now right].
Qed.

Lemma easternTime_within_a_day : offsetsWithinADay easternTime.
Proof.
  intros a b.
  destruct (easternTime_offsets a true) as [-> | ->],
           (easternTime_offsets b false) as [-> | ->];
    unfold JSTime.msPerHour, JSTime.msPerDay; lia.
Qed.

(** X6. An event of the upcoming list is marked [isActive] exactly when
    its window contains the instant asked for; and with [daysAhead > 0]
    every definition that a recomputed [getActiveEvents] reports at an
    instant is in the list of [getUpcomingEvents] at that instant, so
    marked. The host may have any time zone whose offsets from UTC
    differ by less than a day, one without daylight saving included. *)
Theorem active_events_are_upcoming (tz : JSTime.TimeZone) (kind : Kind) (cfg : Config.t)
    (this : EventsManager.t) (heap : Heap) (e : Event.t)
    (currentDate daysAhead start end_ : Z) :
  EventsManager.eventsConfig this = Some cfg ->
  isDefinition kind e cfg ->
  isSoftDeleted e = false ->
  windowOf kind e currentDate = Ok (Window.mk (Some start) (Some end_)) ->
  offsetsWithinADay tz ->
  0 < daysAhead ->
  In (activeViewOf kind e start end_ currentDate)
    (returnedArray (getActiveEvents this heap currentDate true)) ->
  let view :=
    upcomingViewOf kind e (Window.mk (Some start) (Some end_)) currentDate in
  In view (getUpcomingEvents tz this currentDate daysAhead)
  /\ UpcomingEvent.isActive view = true
  /\ forall u, In u (getUpcomingEvents tz this currentDate daysAhead) ->
       (UpcomingEvent.isActive u = true <->
        exists s en, UpcomingEvent.start u = Some s
                     /\ UpcomingEvent.end_ u = Some en
                     /\ s <= currentDate < en).
Proof.
  intros Hcfg Hdef Hkeep Hw Hzone Hdays Hactive. cbv zeta.
  rewrite (getActiveEvents_forced _ _ _ _ Hcfg), returnedArray_alloc in Hactive.
  apply computeActiveEvents_element in Hactive as (Hin & _).
  destruct (activeViewOf_bounds kind e start end_ currentDate) as (Hs & He & _).
  rewrite Hs, He in Hin.
  assert (Hwithin : isWithin currentDate (Some start) (Some end_) = true)
    by now apply isWithin_valid.
  split; [|split].
  - unfold getUpcomingEvents. rewrite Hcfg. cbv zeta.
    rewrite horizon_by_offsetChange, !forEachPushIfPresent_pushed.
    rewrite sortBy_In. cbn [app]. rewrite in_app_iff, !In_pushed.
    assert (Hlt : (start <? currentDate + daysAhead * JSTime.msPerDay
                            + offsetChange tz currentDate daysAhead) = true).
    { apply Z.ltb_lt. unfold offsetChange.
      pose proof (Hzone currentDate
                    (JSTime.LocalTime tz currentDate
                     + daysAhead * JSTime.msPerDay)) as Hdiff.
      unfold JSTime.msPerDay in *. lia. }
    destruct kind; [left|right]; exists e; (split; [exact Hdef|]).
    + unfold upcomingRepeating. cbn in Hw. rewrite Hkeep, Hw.
      cbn [Window.start Window.end_ date_lt]. rewrite Hlt. now left.
    + unfold upcomingOneTime. rewrite Hkeep. cbn in Hw.
      injection Hw as Hws Hwe. cbv zeta. rewrite Hws, Hwe.
      cbn [date_lt date_gt]. rewrite Hlt.
      assert (Hgt : (currentDate <? end_) = true) by (apply Z.ltb_lt; lia).
      rewrite Hgt. now left.
  - destruct kind; exact Hwithin.
  - intros u Hu.
    destruct (getUpcomingEvents_element tz this currentDate daysAhead u
                (or_introl Hu)) as (_ & ->).
    destruct (UpcomingEvent.start u) as [s|], (UpcomingEvent.end_ u) as [en|];
      try (cbn; split; [discriminate | intros (s' & en' & H1 & H2 & _);
                                        discriminate]).
    + rewrite isWithin_valid. split.
      * intros H. now exists s, en.
      * intros (s' & en' & [= <-] & [= <-] & H). exact H.
    + unfold isWithin. cbn. rewrite andb_false_r.
      split; [discriminate | intros (s' & en' & _ & H2 & _); discriminate].
Qed.

Lemma active_events_are_upcoming_witness :
  In (upcomingViewOf Repeating goldPass
        (Window.mk (Some (JSTime.DateUTC 2026 0 1 8 0 0 0))
           (Some (JSTime.DateUTC 2026 1 1 8 0 0 0)))
        (JSTime.DateUTC 2026 0 17 12 0 0 0))
     (getUpcomingEvents easternTime (loaded documentedConfig)
        (JSTime.DateUTC 2026 0 17 12 0 0 0) 30).
Proof.
  refine (proj1 (active_events_are_upcoming easternTime Repeating
                   documentedConfig (loaded documentedConfig) [] goldPass
                   (JSTime.DateUTC 2026 0 17 12 0 0 0) 30
                   (JSTime.DateUTC 2026 0 1 8 0 0 0)
                   (JSTime.DateUTC 2026 1 1 8 0 0 0) _ _ _ _ _ _ _)).
  - reflexivity.
  - cbn. left. reflexivity.
  - reflexivity.
  - vm_compute. reflexivity.
  - exact easternTime_within_a_day.
  - lia.
  - vm_compute. right. right. left. reflexivity.
Defined.

(** ** More on the cache *)

(** X7. After a recomputation at an instant other than the epoch 0, a
    call without [forceRefresh] at any instant less than 1000 ms later
    (or earlier) returns the same array and changes nothing. A result
    computed at the epoch itself is never served from the cache: 0 is a
    falsy [lastUpdateTime], and the next call builds a new array. *)
Theorem getActiveEvents_cache_after_recompute (this : EventsManager.t)
    (heap : Heap) (cfg : Config.t) (instant later : Z) :
  EventsManager.eventsConfig this = Some cfg ->
  let out1 := getActiveEvents this heap instant true in
  let out2 := getActiveEvents (snd (fst out1)) (snd out1) later false in
  (instant <> 0 -> later - instant < 1000 -> out2 = out1)
  /\ (instant = 0 ->
      fst (fst out2) <> fst (fst out1)
      /\ returnedArray out2 = computeActiveEvents cfg later).
Proof.
  intros Hcfg. cbv zeta. rewrite (getActiveEvents_forced _ _ _ _ Hcfg).
  cbn [fst snd]. split.
  - intros Hnz Hlt. now apply (getActiveEvents_cache_hit _ _ cfg _ instant).
  - intros ->. unfold getActiveEvents.
    cbn [EventsManager.eventsConfig EventsManager.cachedActiveEvents
         EventsManager.lastUpdateTime isDefined truthyNumber].
    change (0 =? 0) with true. cbn [negb andb].
    unfold alloc. cbn [fst snd]. split.
    + rewrite length_app. cbn. lia.
    + apply returnedArray_alloc.
Qed.

Lemma getActiveEvents_cache_after_recompute_witness :
  getActiveEvents
    (snd (fst (getActiveEvents (loaded goldPassConfig) []
                 (JSTime.DateUTC 2026 0 15 12 0 0 0) true)))
    (snd (getActiveEvents (loaded goldPassConfig) []
            (JSTime.DateUTC 2026 0 15 12 0 0 0) true))
    (JSTime.DateUTC 2026 0 15 12 0 0 500) false
  = getActiveEvents (loaded goldPassConfig) []
      (JSTime.DateUTC 2026 0 15 12 0 0 0) true.
Proof.
  refine (proj1 (getActiveEvents_cache_after_recompute (loaded goldPassConfig)
                   [] goldPassConfig (JSTime.DateUTC 2026 0 15 12 0 0 0)
                   (JSTime.DateUTC 2026 0 15 12 0 0 500) _) _ _).
  - reflexivity.
  - vm_compute. discriminate.
  - vm_compute. reflexivity.
Defined.

(** X8. [loadEvents] leaves the cache as it is: after a new
    configuration is loaded, a call of [getActiveEvents] without
    [forceRefresh] less than 1000 ms after the cached instant still
    returns the array that was computed from the old configuration. *)
Theorem loadEvents_keeps_cache (this : EventsManager.t) (heap : Heap)
    (source : Config.t) (cached : ArrayRef) (lastUpdateTime currentDate : Z) :
  EventsManager.cachedActiveEvents this = Some cached ->
  EventsManager.lastUpdateTime this = Some lastUpdateTime ->
  lastUpdateTime <> 0 ->
  currentDate - lastUpdateTime < 1000 ->
  let this' := fst (loadEvents this source) in
  EventsManager.eventsConfig this' = Some source
  /\ getActiveEvents this' heap currentDate false = (cached, this', heap).
Proof.
  intros Hc Hl Hnz Hlt. cbv zeta. split; [reflexivity|].
  apply (getActiveEvents_cache_hit _ _ source _ lastUpdateTime);
    try assumption; reflexivity.
Qed.

Lemma loadEvents_keeps_cache_witness :
  let out1 :=
    getActiveEvents (loaded goldPassConfig) []
      (JSTime.DateUTC 2026 0 15 12 0 0 0) false in
  let this' := fst (loadEvents (snd (fst out1)) raidWeekendConfig) in
  getActiveEvents this' (snd out1) (JSTime.DateUTC 2026 0 15 12 0 0 500) false
  = (0%nat, this', snd out1).
Proof.
  cbv zeta.
  refine (proj2 (loadEvents_keeps_cache
                   (snd (fst (getActiveEvents (loaded goldPassConfig) []
                                (JSTime.DateUTC 2026 0 15 12 0 0 0) false)))
                   (snd (getActiveEvents (loaded goldPassConfig) []
                           (JSTime.DateUTC 2026 0 15 12 0 0 0) false))
                   raidWeekendConfig 0%nat (JSTime.DateUTC 2026 0 15 12 0 0 0)
                   (JSTime.DateUTC 2026 0 15 12 0 0 500)
                   eq_refl eq_refl _ _)).
  - vm_compute. discriminate.
  - vm_compute. reflexivity.
Defined.

(** The Gold Pass is still reported half a second after the
    configuration was replaced by one without it. *)
Example reload_serves_old_configuration :
  map ActiveEvent.title
    (returnedArray
       (let '(_, this, heap) :=
          getActiveEvents (loaded goldPassConfig) []
            (JSTime.DateUTC 2026 0 15 12 0 0 0) false in
        getActiveEvents (fst (loadEvents this raidWeekendConfig)) heap
          (JSTime.DateUTC 2026 0 15 12 0 0 500) false))
  = ["Gold Pass"].
Proof. vm_compute. reflexivity. Qed.

(** X9. No call changes an array that was returned before, and a call
    with [forceRefresh] returns a new array, not the cached one: in
    every state of a loaded manager the arrays in the store stay as they
    are, and the forced result has a reference that was not in use. *)
Theorem getActiveEvents_results_are_not_mutated (cfg : Config.t)
    (this : EventsManager.t) (heap : Heap) (currentDate : Z)
    (forceRefresh : bool) :
  reachable cfg this heap ->
  (forall r array,
      deref heap r = Some array ->
      deref (snd (getActiveEvents this heap currentDate forceRefresh)) r
      = Some array)
  /\ (forall cached,
         EventsManager.cachedActiveEvents this = Some cached ->
         fst (fst (getActiveEvents this heap currentDate true)) <> cached)
  /\ deref heap (fst (fst (getActiveEvents this heap currentDate true))) = None.
Proof.
  intros Hreach.
  destruct (reachable_cacheFrom cfg this heap Hreach) as [Hcfg Hcache].
  split; [|split].
  - intros r array Hr.
    destruct (getActiveEvents_cases this heap cfg currentDate forceRefresh Hcfg)
      as [-> | (cached & _ & ->)]; cbn [snd]; [|exact Hr].
    unfold deref in *. rewrite nth_error_app1; [exact Hr|].
    apply nth_error_Some. congruence.
  - intros cached Hc. rewrite (getActiveEvents_forced _ _ _ _ Hcfg). cbn [fst].
    destruct (Hcache cached Hc) as (instant & Hderef).
    assert (cached < List.length heap)%nat
      by (apply nth_error_Some; unfold deref in Hderef; congruence).
    lia.
  - rewrite (getActiveEvents_forced _ _ _ _ Hcfg). cbn [fst].
    apply nth_error_None. lia.
Qed.

Lemma getActiveEvents_results_are_not_mutated_witness :
  fst (fst (getActiveEvents
              (snd (fst (getActiveEvents (loaded goldPassConfig) []
                           (JSTime.DateUTC 2026 0 15 12 0 0 0) false)))
              (snd (getActiveEvents (loaded goldPassConfig) []
                      (JSTime.DateUTC 2026 0 15 12 0 0 0) false))
              (JSTime.DateUTC 2026 0 15 12 0 0 500) true))
  <> 0%nat.
Proof.
  refine (proj1 (proj2 (getActiveEvents_results_are_not_mutated goldPassConfig
                          _ _ (JSTime.DateUTC 2026 0 15 12 0 0 500) false
                          (reachable_getActiveEvents _ _ _
                             (JSTime.DateUTC 2026 0 15 12 0 0 0) false
                             (reachable_loaded _ [])))) 0%nat _).
  reflexivity.
Defined.

(** ** Validation *)





(** ** The shape of the windows *)

Section Windows.
Import JSTime JSTimeFacts.

Lemma Day_at8 (day : Z) : Day (day * msPerDay + 28800000) = day.
Proof. unfold Day, msPerDay. Z.div_mod_to_equations. lia. Qed.

Lemma TimeWithinDay_at8 (day : Z) :
  TimeWithinDay (day * msPerDay + 28800000) = 28800000.
Proof. unfold TimeWithinDay, msPerDay. Z.div_mod_to_equations. lia. Qed.

(** X11. The window that [calculateWeeklyEvent] returns for a recognised
    day name starts on that weekday at 08:00:00.000 UTC and ends
    [durationDays] days later; it contains the reference or starts after
    it, it never lies in the past. *)
Theorem calculateWeeklyEvent_window (baseDate : option string)
    (durationDays reference : Z) (w : Window.t) :
  calculateWeeklyEvent baseDate (Some durationDays) reference = Ok w ->
  exists start,
    w = Window.mk (Some start) (Some (start + durationDays * msPerDay))
    /\ getUTCDay start = indexOf daysOfWeek baseDate
    /\ TimeWithinDay start = 8 * msPerHour
    /\ (start <= reference < start + durationDays * msPerDay
        \/ reference < start).
Proof.
  unfold calculateWeeklyEvent.
  destruct (indexOf_daysOfWeek_range baseDate) as [->|Ht]; [discriminate|].
  destruct (Z.eqb_spec (indexOf daysOfWeek baseDate) (-1)); [lia|].
  cbv zeta.
  pose proof (WeekDay_range reference) as Hw. unfold getUTCDay in *.
  set (target := indexOf daysOfWeek baseDate) in *.
  set (k := Z.rem (WeekDay reference - target + 7) 7).
  assert (Hk : k = (WeekDay reference - target + 7) mod 7)
    by (subst k; apply Z.rem_mod_nonneg; lia).
  destruct ((0 <? k) && num_le (Some k) (Some durationDays)
            && date_ge (Some reference)
                 (Window.start (lastWeekWindow k (Some durationDays) reference))
            && date_lt (Some reference)
                 (Window.end_ (lastWeekWindow k (Some durationDays) reference)))
    eqn:Ein; intros [= <-].
  - rewrite lastWeekWindow_eq in *.
    cbn [Window.start Window.end_ date_ge date_le date_lt] in Ein.
    apply andb_prop in Ein as [Ein Hend]. apply andb_prop in Ein as [_ Hstart].
    apply Z.leb_le in Hstart. apply Z.ltb_lt in Hend.
    eexists. split; [f_equal; f_equal; lia|].
    rewrite TimeWithinDay_at8. unfold WeekDay at 1. rewrite Day_at8.
    split; [|split; [reflexivity|left; lia]].
    clearbody k. unfold WeekDay in *. clearbody target.
    Z.div_mod_to_equations. lia.
  - rewrite nextWeekWindow_eq. cbv zeta.
    eexists. split; [f_equal; f_equal; lia|].
    rewrite TimeWithinDay_at8. unfold WeekDay at 1. rewrite Day_at8.
    split; [|split; [reflexivity|right]].
    + clearbody target. unfold WeekDay in *.
      destruct (target - (Day reference + 4) mod 7 <=? 0);
        Z.div_mod_to_equations; lia.
    + apply after_day. clearbody target.
      destruct (Z.leb_spec (target - WeekDay reference) 0); lia.
Qed.

Lemma calculateWeeklyEvent_window_witness :
  exists start,
    Window.mk (Some (DateUTC 2026 0 16 8 0 0 0)) (Some (DateUTC 2026 0 19 8 0 0 0))
    = Window.mk (Some start) (Some (start + 3 * msPerDay))
    /\ getUTCDay start = indexOf daysOfWeek (Some "Friday")
    /\ TimeWithinDay start = 8 * msPerHour
    /\ (start <= DateUTC 2026 0 18 12 0 0 0 < start + 3 * msPerDay
        \/ DateUTC 2026 0 18 12 0 0 0 < start).
Proof.
  apply (calculateWeeklyEvent_window (Some "Friday") 3
           (DateUTC 2026 0 18 12 0 0 0)).
  vm_compute. reflexivity.
Defined.

(** X12. When a weekly definition is active. With [k] the number of days
    since the definition's weekday (0 on the weekday itself), the window
    that [calculateWeeklyEvent] returns contains the reference exactly
    when [1 <= k < durationDays], or [k = durationDays] and the time of
    day is before 08:00 UTC. On its own weekday a weekly event is never
    active, whatever its duration. *)
Theorem weekly_activity (baseDate : option string)
    (durationDays reference : Z) (w : Window.t) :
  calculateWeeklyEvent baseDate (Some durationDays) reference = Ok w ->
  let k := Z.rem (getUTCDay reference - indexOf daysOfWeek baseDate + 7) 7 in
  (containsInstant w reference = true <->
   1 <= k
   /\ (k < durationDays
       \/ (k = durationDays /\ TimeWithinDay reference < 8 * msPerHour)))
  /\ (getUTCDay reference = indexOf daysOfWeek baseDate ->
      containsInstant w reference = false).
Proof.
  unfold calculateWeeklyEvent.
  destruct (indexOf_daysOfWeek_range baseDate) as [->|Ht]; [discriminate|].
  destruct (Z.eqb_spec (indexOf daysOfWeek baseDate) (-1)); [lia|].
  cbv zeta.
  pose proof (WeekDay_range reference) as Hw. unfold getUTCDay in *.
  set (target := indexOf daysOfWeek baseDate) in *.
  set (k := Z.rem (WeekDay reference - target + 7) 7).
  assert (Hk : k = (WeekDay reference - target + 7) mod 7)
    by (subst k; apply Z.rem_mod_nonneg; lia).
  pose proof (Day_TimeWithinDay reference) as Hd.
  pose proof (TimeWithinDay_range reference) as Hr.
  assert (Hshape :
            (0 <? k) && num_le (Some k) (Some durationDays)
            && date_ge (Some reference)
                 (Window.start (lastWeekWindow k (Some durationDays) reference))
            && date_lt (Some reference)
                 (Window.end_ (lastWeekWindow k (Some durationDays) reference))
            = true
            <-> 1 <= k
                /\ (k < durationDays
                    \/ (k = durationDays
                        /\ TimeWithinDay reference < 8 * msPerHour))).
  { rewrite lastWeekWindow_eq.
    cbn [Window.start Window.end_ date_ge date_le date_lt num_le].
    rewrite !andb_true_iff, Z.ltb_lt, !Z.leb_le, Z.ltb_lt.
    clearbody k target. unfold msPerDay, msPerHour in *. lia. }
  destruct ((0 <? k) && num_le (Some k) (Some durationDays)
            && date_ge (Some reference)
                 (Window.start (lastWeekWindow k (Some durationDays) reference))
            && date_lt (Some reference)
                 (Window.end_ (lastWeekWindow k (Some durationDays) reference)))
    eqn:Ein; intros [= <-].
  - assert (Hin : containsInstant (lastWeekWindow k (Some durationDays) reference)
                    reference = true).
    { unfold containsInstant, isWithin.
      apply andb_prop in Ein as [Ein ->]. apply andb_prop in Ein as [_ ->].
      reflexivity. }
    rewrite Hin. split; [tauto|].
    intros Hsame. exfalso. pose proof (proj1 Hshape eq_refl) as Hsh.
    clearbody k target.
    rewrite Hsame in Hk. replace (target - target + 7) with 7 in Hk by lia.
    change (7 mod 7) with 0 in Hk. lia.
  - pose proof (nextWeekWindow_excludes target durationDays reference Ht) as Hn.
    unfold getUTCDay in Hn. rewrite Hn.
    split; [|reflexivity].
    split; [discriminate|]. intros H. apply Hshape in H. discriminate.
Qed.

Lemma weekly_activity_witness :
  containsInstant
    (Window.mk (Some (DateUTC 2026 0 23 8 0 0 0)) (Some (DateUTC 2026 0 26 8 0 0 0)))
    (DateUTC 2026 0 16 12 0 0 0)
  = false.
Proof.
  refine (proj2 (weekly_activity (Some "Friday") 3 (DateUTC 2026 0 16 12 0 0 0)
                   _ _) _).
  - vm_compute. reflexivity.
  - vm_compute. reflexivity.
Defined.

(** X13. For a day of the month from 1 on, the window that
    [calculateMonthlyEvent] returns starts at 08:00:00.000 UTC and ends
    [durationDays] days later; it contains the reference or starts after
    it, it never lies in the past. *)
Theorem calculateMonthlyEvent_window (baseDate : option string)
    (dayOfMonth durationDays reference : Z) :
  parseInt10 baseDate = Some dayOfMonth ->
  1 <= dayOfMonth ->
  exists start,
    calculateMonthlyEvent baseDate (Some durationDays) reference
    = Window.mk (Some start) (Some (start + durationDays * msPerDay))
    /\ TimeWithinDay start = 8 * msPerHour
    /\ (start <= reference < start + durationDays * msPerDay
        \/ reference < start).
Proof.
  intros Hparse Hd. unfold calculateMonthlyEvent. rewrite Hparse.
  cbv zeta. unfold dateUTCAt8, option_map, getUTCFullYear, getUTCMonth, getUTCDate.
  unfold num_lt.
  change (8 * msPerHour) with 28800000.
  set (thisMonth := DateUTC (YearFromTime reference) (MonthFromTime reference)
                      dayOfMonth 8 0 0 0).
  set (nextMonth := DateUTC (YearFromTime reference)
                      (MonthFromTime reference + 1) dayOfMonth 8 0 0 0).
  assert (H8this : TimeWithinDay thisMonth = 28800000).
  { subst thisMonth. rewrite DateUTC_at8. apply TimeWithinDay_at8. }
  assert (H8next : TimeWithinDay nextMonth = 28800000).
  { subst nextMonth. rewrite DateUTC_at8. apply TimeWithinDay_at8. }
  assert (Hthis : DateFromTime reference < dayOfMonth -> reference < thisMonth)
    by apply future_this_month.
  assert (Hnext : reference < nextMonth) by now apply future_next_month.
  clearbody thisMonth nextMonth.
  destruct (Z.ltb_spec (DateFromTime reference) dayOfMonth) as [Hbefore|Hpassed].
  - exists thisMonth. rewrite addUTCDays_valid. auto.
  - rewrite addUTCDays_valid. cbn [date_ge date_le date_lt].
    destruct (Z.leb_spec thisMonth reference) as [Hge|Hlt];
      destruct (Z.ltb_spec reference (thisMonth + durationDays * msPerDay))
        as [Hin|Hout]; cbn [andb].
    + exists thisMonth. rewrite addUTCDays_valid. auto.
    + exists nextMonth. rewrite addUTCDays_valid. auto.
    + exists nextMonth. rewrite addUTCDays_valid. auto.
    + exists nextMonth. rewrite addUTCDays_valid. auto.
Qed.

Lemma calculateMonthlyEvent_window_witness :
  exists start,
    calculateMonthlyEvent (Some "01") (Some 31) (DateUTC 2026 0 1 7 0 0 0)
    = Window.mk (Some start) (Some (start + 31 * msPerDay))
    /\ TimeWithinDay start = 8 * msPerHour
    /\ (start <= DateUTC 2026 0 1 7 0 0 0 < start + 31 * msPerDay
        \/ DateUTC 2026 0 1 7 0 0 0 < start).
Proof.
  apply (calculateMonthlyEvent_window (Some "01") 1 31 (DateUTC 2026 0 1 7 0 0 0)).
  - reflexivity.
  - lia.
Defined.

(** X14. A monthly definition whose baseDate does not begin with a
    number gets Invalid Dates for both bounds, without any error: it is
    never active, never upcoming and has no calendar marker. *)
Theorem monthly_without_day_is_silent (e : Event.t)
    (currentDate endDate monthStart monthEnd : Z) :
  hasModifier e "monthly" = true ->
  parseInt10 (Event.baseDate e) = None ->
  calculateRepeatingEventDates e currentDate = Ok (Window.mk None None)
  /\ activeRepeating currentDate e = []
  /\ upcomingRepeating currentDate endDate e = []
  /\ calendarRepeating monthStart monthEnd e = ([], Normal).
Proof.
  intros Hm Hparse.
  assert (Hw : forall t, calculateRepeatingEventDates e t
                         = Ok (Window.mk None None)).
  { intros t. unfold calculateRepeatingEventDates, hasModifier in *.
    destruct (Event.modifier e) as [m|]; [|discriminate]. rewrite Hm.
    unfold calculateMonthlyEvent. rewrite Hparse. reflexivity. }
  split; [apply Hw|].
  unfold activeRepeating, upcomingRepeating, calendarRepeating.
  rewrite Hm, !Hw.
  destruct (isSoftDeleted e); repeat split.
Qed.

Lemma monthly_without_day_is_silent_witness :
  activeRepeating (DateUTC 2026 0 15 12 0 0 0)
    (Event.mk "Season" "star" None None None false (Some "first")
       (Some "monthly") (Some 7) None None None)
  = [].
Proof.
  refine (proj1 (proj2 (monthly_without_day_is_silent _ _ 0 0 0 _ _)));
    reflexivity.
Defined.

End Windows.

(** ** Calendar dates *)

Section CivilDates.
Import JSTime JSTimeFacts.

Ltac monthStart_eval :=
  unfold monthStartDay;
  repeat match goal with
         | |- context [?a =? ?b] =>
             let v := eval vm_compute in (a =? b) in
             change (a =? b) with v
         end;
  cbv iota.

Lemma DayFromYear_mono (a b : Z) : a <= b -> DayFromYear a <= DayFromYear b.
Proof. intros H. unfold DayFromYear. Z.div_mod_to_equations. lia. Qed.

Lemma YearFromDay_unique (y d : Z) :
  DayFromYear y <= d < DayFromYear (y + 1) -> YearFromDay d = y.
Proof.
  intros Hy. pose proof (YearFromDay_spec d) as Hs.
  destruct (Z.lt_trichotomy (YearFromDay d) y) as [Hlt|[Heq|Hgt]];
    [exfalso|exact Heq|exfalso].
  - pose proof (DayFromYear_mono (YearFromDay d + 1) y). lia.
  - pose proof (DayFromYear_mono (y + 1) (YearFromDay d)). lia.
Qed.

Lemma leapFlag_cases (y : Z) :
  (if isLeapYear y then 1 else 0) = 0 \/ (if isLeapYear y then 1 else 0) = 1.
Proof. destruct (isLeapYear y); auto. Qed.

(** Months have from 28 to 31 days and lie within the year. *)
Lemma month_length (m l : Z) :
  0 <= m <= 11 -> l = 0 \/ l = 1 ->
  28 <= monthStartDay (m + 1) l - monthStartDay m l <= 31
  /\ 0 <= monthStartDay m l
  /\ monthStartDay (m + 1) l <= 365 + l.
Proof.
  intros Hm Hl.
  assert (Hcases : m = 0 \/ m = 1 \/ m = 2 \/ m = 3 \/ m = 4 \/ m = 5 \/ m = 6
                   \/ m = 7 \/ m = 8 \/ m = 9 \/ m = 10 \/ m = 11) by lia.
  repeat (destruct Hcases as [->|Hcases]); try subst m;
    monthStart_eval; lia.
Qed.

Lemma monthOfYearDay_in_month (m l d : Z) :
  0 <= m <= 11 -> l = 0 \/ l = 1 ->
  monthStartDay m l <= d < monthStartDay (m + 1) l ->
  monthOfYearDay d l = m.
Proof.
  intros Hm Hl.
  assert (Hcases : m = 0 \/ m = 1 \/ m = 2 \/ m = 3 \/ m = 4 \/ m = 5 \/ m = 6
                   \/ m = 7 \/ m = 8 \/ m = 9 \/ m = 10 \/ m = 11) by lia.
  unfold monthOfYearDay.
  repeat (destruct Hcases as [->|Hcases]); try subst m;
    monthStart_eval; intros Hd;
    repeat match goal with
           | |- context [if ?a <? ?b then _ else _] =>
               destruct (Z.ltb_spec a b); try lia
           end.
Qed.

(** The day number of a calendar date gives the date back. *)
Lemma civil_of_day (y m d t : Z) :
  0 <= m <= 11 ->
  1 <= d <= monthStartDay (m + 1) (if isLeapYear y then 1 else 0)
            - monthStartDay m (if isLeapYear y then 1 else 0) ->
  Day t = DayFromYear y + monthStartDay m (if isLeapYear y then 1 else 0) + d - 1 ->
  YearFromTime t = y /\ MonthFromTime t = m /\ DateFromTime t = d.
Proof.
  intros Hm Hd Hday.
  pose proof (leapFlag_cases y) as Hl.
  pose proof (month_length m _ Hm Hl) as (Hlen & Hpos & Hend).
  assert (Hy : YearFromTime t = y).
  { unfold YearFromTime. apply YearFromDay_unique.
    rewrite DayFromYear_succ. unfold DaysInYear.
    destruct (isLeapYear y); lia. }
  assert (Hmonth : MonthFromTime t = m).
  { unfold MonthFromTime, DayWithinYear, InLeapYear. rewrite Hy.
    apply monthOfYearDay_in_month; [assumption|assumption|lia]. }
  split; [exact Hy|]. split; [exact Hmonth|].
  unfold DateFromTime, DayWithinYear, InLeapYear. rewrite Hmonth, Hy. lia.
Qed.

Lemma year_from_1970 (t : Z) : 0 <= t -> 1970 <= YearFromTime t.
Proof.
  intros Ht. pose proof (Day_before_next_year t) as H.
  destruct (Z.le_gt_cases 1970 (YearFromTime t)) as [|Hlt]; [assumption|].
  pose proof (DayFromYear_mono (YearFromTime t + 1) 1970).
  assert (0 <= Day t) by (unfold Day, msPerDay; Z.div_mod_to_equations; lia).
  change (DayFromYear 1970) with 0 in *. lia.
Qed.

Lemma DateUTC_at8_plain (y m d : Z) :
  ~ 0 <= y <= 99 ->
  DateUTC y m d 8 0 0 0 = MakeDay y m d * msPerDay + 28800000.
Proof.
  intros Hy. rewrite DateUTC_at8.
  destruct (Z.leb_spec 0 y); destruct (Z.leb_spec y 99); cbn [andb];
    try reflexivity; lia.
Qed.

(** X15. For a day of the month from 1 to 28 and a reference from 1970
    on, the window of a monthly definition starts on that day of the
    month, at 08:00:00.000 UTC, in the month of the reference or in the
    month after it (January of the next year after December). *)
Theorem calculateMonthlyEvent_start_day (baseDate : option string)
    (dayOfMonth : Z) (durationDays : JSNumber) (reference : Z) :
  parseInt10 baseDate = Some dayOfMonth ->
  1 <= dayOfMonth <= 28 ->
  0 <= reference ->
  exists start,
    Window.start (calculateMonthlyEvent baseDate durationDays reference)
    = Some start
    /\ getUTCDate start = dayOfMonth
    /\ TimeWithinDay start = 8 * msPerHour
    /\ ((getUTCFullYear start = getUTCFullYear reference
         /\ getUTCMonth start = getUTCMonth reference)
        \/ (getUTCMonth reference < 11
            /\ getUTCFullYear start = getUTCFullYear reference
            /\ getUTCMonth start = getUTCMonth reference + 1)
        \/ (getUTCMonth reference = 11
            /\ getUTCFullYear start = getUTCFullYear reference + 1
            /\ getUTCMonth start = 0)).
Proof.
  intros Hparse Hd Href.
  unfold getUTCDate, getUTCFullYear, getUTCMonth.
  change (8 * msPerHour) with 28800000.
  pose proof (year_from_1970 reference Href) as Hy.
  pose proof (MonthFromTime_range reference) as Hm.
  set (Y := YearFromTime reference) in *. set (M := MonthFromTime reference) in *.
  assert (Hthis : YearFromTime (DateUTC Y M dayOfMonth 8 0 0 0) = Y
                  /\ MonthFromTime (DateUTC Y M dayOfMonth 8 0 0 0) = M
                  /\ DateFromTime (DateUTC Y M dayOfMonth 8 0 0 0) = dayOfMonth).
  { pose proof (month_length M _ Hm (leapFlag_cases Y)) as (Hlen & _).
    apply civil_of_day; [assumption|lia|].
    rewrite DateUTC_at8_plain by lia. rewrite Day_at8.
    apply MakeDay_month. lia. }
  assert (Hnext : (M < 11
                   /\ YearFromTime (DateUTC Y (M + 1) dayOfMonth 8 0 0 0) = Y
                   /\ MonthFromTime (DateUTC Y (M + 1) dayOfMonth 8 0 0 0) = M + 1
                   /\ DateFromTime (DateUTC Y (M + 1) dayOfMonth 8 0 0 0)
                      = dayOfMonth)
                  \/ (M = 11
                      /\ YearFromTime (DateUTC Y (M + 1) dayOfMonth 8 0 0 0) = Y + 1
                      /\ MonthFromTime (DateUTC Y (M + 1) dayOfMonth 8 0 0 0) = 0
                      /\ DateFromTime (DateUTC Y (M + 1) dayOfMonth 8 0 0 0)
                         = dayOfMonth)).
  { destruct (Z.eq_dec M 11) as [HM|HM].
    - right. split; [assumption|]. rewrite HM.
      apply (civil_of_day (Y + 1) 0 dayOfMonth).
      + lia.
      + pose proof (month_length 0 _ ltac:(lia) (leapFlag_cases (Y + 1)))
          as (Hlen & _). change (0 + 1) with 1 in *. lia.
      + rewrite DateUTC_at8_plain by lia. rewrite Day_at8.
        change (11 + 1) with 12. unfold MakeDay.
        change (12 / 12) with 1. change (12 mod 12) with 0. reflexivity.
    - left. split; [lia|].
      pose proof (month_length (M + 1) _ ltac:(lia) (leapFlag_cases Y))
        as (Hlen & _).
      apply civil_of_day; [lia|lia|].
      rewrite DateUTC_at8_plain by lia. rewrite Day_at8.
      apply MakeDay_month. lia. }
  assert (H8 : forall m, TimeWithinDay (DateUTC Y m dayOfMonth 8 0 0 0)
                         = 28800000).
  { intros m. rewrite DateUTC_at8. apply TimeWithinDay_at8. }
  pose proof (H8 M) as H8this. pose proof (H8 (M + 1)) as H8next. clear H8.
  unfold calculateMonthlyEvent. rewrite Hparse. cbv zeta.
  unfold dateUTCAt8, option_map, getUTCFullYear, getUTCMonth, getUTCDate.
  fold Y M.
  set (thisMonth := DateUTC Y M dayOfMonth 8 0 0 0) in *.
  set (nextMonth := DateUTC Y (M + 1) dayOfMonth 8 0 0 0) in *.
  clearbody thisMonth nextMonth.
  destruct (num_lt (Some (DateFromTime reference)) (Some dayOfMonth)).
  - exists thisMonth. cbn [Window.start]. intuition.
  - destruct (date_ge (Some reference) (Some thisMonth)
              && date_lt (Some reference)
                   (addUTCDays (Some thisMonth) durationDays)).
    + exists thisMonth. cbn [Window.start]. intuition.
    + exists nextMonth. cbn [Window.start].
      destruct Hnext as [(H1 & H2 & H3 & H4)|(H1 & H2 & H3 & H4)]; intuition.
Qed.

Lemma calculateMonthlyEvent_start_day_witness :
  exists start,
    Window.start
      (calculateMonthlyEvent (Some "22") (Some 6) (DateUTC 2026 11 30 12 0 0 0))
    = Some start
    /\ getUTCDate start = 22
    /\ TimeWithinDay start = 8 * msPerHour
    /\ ((getUTCFullYear start = getUTCFullYear (DateUTC 2026 11 30 12 0 0 0)
         /\ getUTCMonth start = getUTCMonth (DateUTC 2026 11 30 12 0 0 0))
        \/ (getUTCMonth (DateUTC 2026 11 30 12 0 0 0) < 11
            /\ getUTCFullYear start = getUTCFullYear (DateUTC 2026 11 30 12 0 0 0)
            /\ getUTCMonth start = getUTCMonth (DateUTC 2026 11 30 12 0 0 0) + 1)
        \/ (getUTCMonth (DateUTC 2026 11 30 12 0 0 0) = 11
            /\ getUTCFullYear start
               = getUTCFullYear (DateUTC 2026 11 30 12 0 0 0) + 1
            /\ getUTCMonth start = 0)).
Proof.
  apply (calculateMonthlyEvent_start_day (Some "22") 22 (Some 6)
           (DateUTC 2026 11 30 12 0 0 0)).
  - reflexivity.
  - lia.
  - vm_compute. discriminate.
Defined.

End CivilDates.

(** ** The calendar of a month *)

Section Calendar.
Import JSTime JSTimeFacts.

Ltac decompose_markers H :=
  repeat (destruct H as [<-|H];
          [unfold markerWithin, calendarEntry;
           cbn [CalendarEntry.fullDate CalendarEntry.date CalendarEntry.isStart
                CalendarEntry.isEnd negb];
           repeat split; lia|]);
  destruct H.

Lemma monthlyMarkers_within (e : Event.t) (monthStart monthEnd : Z)
    (w : Window.t) (c : CalendarEntry.t) :
  In c (monthlyMarkers e monthStart monthEnd w) ->
  markerWithin monthStart monthEnd c.
Proof.
  unfold monthlyMarkers.
  destruct (Window.start w) as [s|], (Window.end_ w) as [en|];
    try (destruct (_ && _); intros []; fail).
  destruct (date_gt (Some en) (Some monthStart)
            && date_le (Some s) (Some monthEnd)) eqn:E; [|intros []].
  apply andb_prop in E as [Hen Hs]. apply Z.ltb_lt in Hen. apply Z.leb_le in Hs.
  destruct (Z.geb_spec s monthStart); destruct (Z.leb_spec en monthEnd);
    intros Hmark; cbn [app In] in Hmark; decompose_markers Hmark.
Qed.

Lemma boundedMarkers_within (e : Event.t) (type : string)
    (monthStart monthEnd : Z) (start end_ : JSDate) (c : CalendarEntry.t) :
  In c (boundedMarkers e type monthStart monthEnd start end_) ->
  markerWithin monthStart monthEnd c.
Proof.
  unfold boundedMarkers.
  destruct start as [s|], end_ as [en|];
    try (destruct (_ && _); intros []; fail).
  destruct (date_gt (Some en) (Some monthStart)
            && date_le (Some s) (Some monthEnd)); [|intros []].
  destruct (Z.geb_spec s monthStart); destruct (Z.leb_spec s monthEnd);
    destruct (Z.geb_spec en monthStart); destruct (Z.leb_spec en monthEnd);
    cbn [andb]; intros Hmark; cbn [app In] in Hmark; decompose_markers Hmark.
Qed.

Lemma weeklySearch_within (fuel : nat) (e : Event.t)
    (monthStart monthEnd searchDate : Z) (c : CalendarEntry.t) :
  In c (fst (weeklySearch fuel e monthStart monthEnd searchDate)) ->
  markerWithin monthStart monthEnd c.
Proof.
  revert searchDate. induction fuel as [|fuel IH]; intros searchDate;
    cbn [weeklySearch]; destruct (searchDate <=? monthEnd);
    try (intros []; fail).
  destruct (calculateRepeatingEventDates e searchDate) as [w|]; [|intros []].
  specialize (IH (setUTCDate searchDate (getUTCDate searchDate + 7))).
  destruct (weeklySearch fuel e monthStart monthEnd
              (setUTCDate searchDate (getUTCDate searchDate + 7)))
    as [rest completion].
  cbn [fst] in *. rewrite in_app_iff. intros [H|H]; [|now apply IH].
  now apply boundedMarkers_within in H.
Qed.

Lemma getCalendarForMonth_within (this : EventsManager.t) (year month : Z)
    (c : CalendarEntry.t) :
  In c (getCalendarForMonth this year month) ->
  markerWithin (DateUTC year month 1 0 0 0 0)
    (DateUTC year (month + 1) 0 23 59 59 0) c.
Proof.
  unfold getCalendarForMonth.
  destruct (EventsManager.eventsConfig this) as [cfg|]; [|intros []].
  cbv zeta. rewrite !forEachPushIfPresent_pushed. cbn [app].
  rewrite in_app_iff, !In_pushed.
  intros [(e & _ & H)|(e & _ & H)].
  - unfold calendarRepeating in H.
    destruct (isSoftDeleted e); [destruct H|].
    destruct (hasModifier e "monthly").
    + destruct (calculateRepeatingEventDates e _) as [w|]; [|destruct H].
      now apply monthlyMarkers_within in H.
    + destruct (hasModifier e "weekly"); [|destruct H].
      now apply weeklySearch_within in H.
  - unfold calendarOneTime in H.
    destruct (isSoftDeleted e); [destruct H|].
    now apply boundedMarkers_within in H.
Qed.

Lemma Day_mono (a b : Z) : a <= b -> Day a <= Day b.
Proof. intros H. unfold Day, msPerDay. Z.div_mod_to_equations. lia. Qed.

Lemma fullYear_plain (year : Z) : ~ 0 <= fullYear year <= 99.
Proof.
  unfold fullYear.
  destruct (Z.leb_spec 0 year); destruct (Z.leb_spec year 99); cbn [andb]; lia.
Qed.

(** The bounds of the month that [getCalendarForMonth] computes. *)
Lemma month_bounds_days (year month : Z) :
  0 <= month <= 11 ->
  let leap := if isLeapYear (fullYear year) then 1 else 0 in
  DateUTC year month 1 0 0 0 0
  = (DayFromYear (fullYear year) + monthStartDay month leap) * msPerDay
  /\ DateUTC year (month + 1) 0 23 59 59 0
     = (DayFromYear (fullYear year) + monthStartDay (month + 1) leap - 1)
       * msPerDay + 86399000.
Proof.
  intros Hm. cbv zeta. unfold DateUTC. fold (fullYear year).
  rewrite !MakeDay_month by lia. unfold MakeDate.
  change (MakeTime 0 0 0 0) with 0. change (MakeTime 23 59 59 0) with 86399000.
  unfold msPerDay. split; lia.
Qed.

(** X16. Every marker that [getCalendarForMonth] returns lies between
    the first instant of the month asked for and 23:59:59 of its last
    day, carries the day of the month of its instant in [date], and is a
    start marker or an end marker, never both; for a month number from 0
    to 11 its instant is in that month of that year, and [date] is from
    1 to 31. *)
Theorem getCalendarForMonth_markers_in_month (this : EventsManager.t)
    (year month : Z) (c : CalendarEntry.t) :
  In c (getCalendarForMonth this year month) ->
  markerWithin (DateUTC year month 1 0 0 0 0)
    (DateUTC year (month + 1) 0 23 59 59 0) c
  /\ (0 <= month <= 11 ->
      getUTCFullYear (CalendarEntry.fullDate c) = fullYear year
      /\ getUTCMonth (CalendarEntry.fullDate c) = month
      /\ 1 <= CalendarEntry.date c <= 31).
Proof.
  intros Hin. pose proof (getCalendarForMonth_within this year month c Hin) as Hc.
  split; [exact Hc|]. intros Hm.
  destruct Hc as ((Hlo & Hhi) & Hdate & _).
  destruct (month_bounds_days year month Hm) as (Hs & He). cbv zeta in Hs, He.
  rewrite Hs in Hlo. rewrite He in Hhi.
  set (f := CalendarEntry.fullDate c) in *.
  set (l := if isLeapYear (fullYear year) then 1 else 0) in *.
  pose proof (leapFlag_cases (fullYear year)) as Hl. fold l in Hl.
  pose proof (month_length month l Hm Hl) as (Hlen & _ & _).
  pose proof (Day_TimeWithinDay f) as Hdf.
  pose proof (TimeWithinDay_range f) as Hrf.
  assert (Hday : DayFromYear (fullYear year) + monthStartDay month l <= Day f
                 <= DayFromYear (fullYear year) + monthStartDay (month + 1) l - 1).
  { unfold msPerDay in *. lia. }
  destruct (civil_of_day (fullYear year) month
              (Day f - (DayFromYear (fullYear year) + monthStartDay month l) + 1)
              f Hm) as (Hy & Hmo & Hd).
  - fold l. lia.
  - fold l. lia.
  - unfold getUTCFullYear, getUTCMonth. rewrite Hdate. unfold getUTCDate.
    rewrite Hd. repeat split; try assumption; lia.
Qed.

Lemma getCalendarForMonth_markers_in_month_witness :
  getUTCMonth (DateUTC 2026 1 6 8 0 0 0) = 1.
Proof.
  refine (proj1 (proj2 (proj2 (getCalendarForMonth_markers_in_month
                                 (loaded raidWeekendConfig) 2026 1
                                 (calendarEntry raidWeekend "repeating"
                                    (DateUTC 2026 1 6 8 0 0 0) true false) _)
                          _))).
  - vm_compute. right. left. reflexivity.
  - lia.
Defined.

End Calendar.

(** ** Monthly definitions in the calendar *)

Section MonthlyCalendar.
Import JSTime JSTimeFacts.

Lemma Day_of_midnight (day : Z) : Day (day * msPerDay) = day.
Proof. unfold Day, msPerDay. Z.div_mod_to_equations. lia. Qed.

(** The first instant of the month is day 1 of that month. *)
Lemma monthStart_civil (year month : Z) :
  0 <= month <= 11 ->
  YearFromTime (DateUTC year month 1 0 0 0 0) = fullYear year
  /\ MonthFromTime (DateUTC year month 1 0 0 0 0) = month
  /\ DateFromTime (DateUTC year month 1 0 0 0 0) = 1.
Proof.
  intros Hm. destruct (month_bounds_days year month Hm) as (Hs & _).
  cbv zeta in Hs.
  pose proof (month_length month _ Hm (leapFlag_cases (fullYear year)))
    as (Hlen & _).
  apply civil_of_day; [assumption|lia|].
  rewrite Hs, Day_of_midnight. lia.
Qed.

Lemma isMonthlyOn_fields (day : Z) (e : Event.t) :
  isMonthlyOn day e = true ->
  hasModifier e "monthly" = true
  /\ parseInt10 (Event.baseDate e) = Some day
  /\ forall reference,
       calculateRepeatingEventDates e reference
       = Ok (calculateMonthlyEvent (Event.baseDate e) (Event.durationDays e)
               reference).
Proof.
  unfold isMonthlyOn. intros H. apply andb_prop in H as [Hm Hp].
  split; [exact Hm|]. split.
  - destruct (parseInt10 (Event.baseDate e)) as [d|]; [|discriminate].
    apply Z.eqb_eq in Hp. now subst.
  - intros reference. unfold calculateRepeatingEventDates, hasModifier in *.
    destruct (Event.modifier e) as [m|]; [|discriminate]. now rewrite Hm.
Qed.

(** The window that the calendar computes for a monthly definition, at
    the first instant of the month. *)
Lemma calculateMonthlyEvent_at_monthStart (baseDate : option string)
    (durationDays : JSNumber) (day year month : Z) :
  0 <= month <= 11 ->
  parseInt10 baseDate = Some day ->
  1 <= day ->
  Window.start
    (calculateMonthlyEvent baseDate durationDays (DateUTC year month 1 0 0 0 0))
  = Some (MakeDay (fullYear year) (if day =? 1 then month + 1 else month) day
          * msPerDay + 28800000).
Proof.
  intros Hm Hparse Hday.
  destruct (monthStart_civil year month Hm) as (Hy & Hmo & Hd).
  destruct (month_bounds_days year month Hm) as (Hs & _). cbv zeta in Hs.
  unfold calculateMonthlyEvent. rewrite Hparse. cbv zeta.
  unfold getUTCFullYear, getUTCMonth, getUTCDate. rewrite Hy, Hmo, Hd.
  unfold dateUTCAt8, option_map, num_lt.
  rewrite !DateUTC_at8_plain by apply fullYear_plain.
  destruct (Z.eqb_spec day 1) as [->|Hne].
  - change (1 <? 1) with false. cbv iota.
    cbn [date_ge date_le].
    rewrite MakeDay_month by lia. rewrite Hs.
    destruct (Z.leb_spec
                ((DayFromYear (fullYear year)
                  + monthStartDay month
                      (if isLeapYear (fullYear year) then 1 else 0) + 1 - 1)
                 * msPerDay + 28800000)
                ((DayFromYear (fullYear year)
                  + monthStartDay month
                      (if isLeapYear (fullYear year) then 1 else 0))
                 * msPerDay)) as [Hle|_].
    + exfalso. unfold msPerDay in Hle. lia.
    + reflexivity.
  - destruct (Z.ltb_spec 1 day); [reflexivity | lia].
Qed.

(** X17. A monthly definition on day "01" never has a calendar marker:
    asked at 00:00 of the first of the month, the calculator has not
    reached 08:00 and moves to the first of the next month, which lies
    after the month. The calendar of any month is the one of the
    configuration without these definitions. *)
Theorem first_of_month_has_no_marker (cfg : Config.t) (this : EventsManager.t)
    (year month : Z) :
  EventsManager.eventsConfig this = Some cfg ->
  0 <= month <= 11 ->
  (forall e,
      isMonthlyOn 1 e = true ->
      calendarRepeating (DateUTC year month 1 0 0 0 0)
        (DateUTC year (month + 1) 0 23 59 59 0) e
      = ([], Normal))
  /\ getCalendarForMonth this year month
     = getCalendarForMonth
         (withConfig this (keepRepeating (fun e => negb (isMonthlyOn 1 e)) cfg))
         year month.
Proof.
  intros Hcfg Hm.
  assert (Hnone : forall e,
             isMonthlyOn 1 e = true ->
             calendarRepeating (DateUTC year month 1 0 0 0 0)
               (DateUTC year (month + 1) 0 23 59 59 0) e
             = ([], Normal)).
  { intros e He. destruct (isMonthlyOn_fields 1 e He) as (Hmod & Hparse & Hcalc).
    unfold calendarRepeating. destruct (isSoftDeleted e); [reflexivity|].
    rewrite Hmod, Hcalc. f_equal. unfold monthlyMarkers.
    rewrite (calculateMonthlyEvent_at_monthStart _ _ 1 year month Hm Hparse)
      by lia.
    change (1 =? 1) with true. cbv iota.
    destruct (month_bounds_days year month Hm) as (_ & He'). cbv zeta in He'.
    rewrite He'. rewrite MakeDay_month by lia.
    assert (Hafter : date_le
                       (Some ((DayFromYear (fullYear year)
                               + monthStartDay (month + 1)
                                   (if isLeapYear (fullYear year) then 1 else 0)
                               + 1 - 1) * msPerDay + 28800000))
                       (Some ((DayFromYear (fullYear year)
                               + monthStartDay (month + 1)
                                   (if isLeapYear (fullYear year) then 1 else 0)
                               - 1) * msPerDay + 86399000)) = false).
    { cbn [date_le]. apply Z.leb_gt. unfold msPerDay. lia. }
    rewrite Hafter, andb_false_r. reflexivity. }
  split; [exact Hnone|].
  unfold getCalendarForMonth, withConfig. rewrite Hcfg.
  cbn [EventsManager.eventsConfig]. cbv zeta.
  rewrite !forEachPushIfPresent_pushed. unfold keepRepeating.
  cbn [Config.repeating_events Config.one_time_events].
  rewrite pushed_filter_nil; [reflexivity|].
  intros e He. apply negb_false_iff in He. now rewrite Hnone.
Qed.

Lemma first_of_month_has_no_marker_witness :
  calendarRepeating (DateUTC 2026 0 1 0 0 0 0) (DateUTC 2026 (0 + 1) 0 23 59 59 0)
    goldPass
  = ([], Normal).
Proof.
  refine (proj1 (first_of_month_has_no_marker goldPassConfig
                   (loaded goldPassConfig) 2026 0 _ _) goldPass _).
  - reflexivity.
  - lia.
  - reflexivity.
Defined.

(** X18. A monthly definition on a day from 2 to 28, not soft-deleted
    and with a duration that is not negative, has its start marker in
    the calendar of every month, on that day at 08:00 UTC. *)
Theorem monthly_start_marker (cfg : Config.t) (this : EventsManager.t)
    (e : Event.t) (day durationDays year month : Z) :
  EventsManager.eventsConfig this = Some cfg ->
  member e (Config.repeating_events cfg) ->
  isSoftDeleted e = false ->
  isMonthlyOn day e = true ->
  2 <= day <= 28 ->
  Event.durationDays e = Some durationDays ->
  0 <= durationDays ->
  0 <= month <= 11 ->
  let marker :=
    calendarEntry e "repeating" (DateUTC year month day 8 0 0 0) true false in
  In marker (getCalendarForMonth this year month)
  /\ CalendarEntry.date marker = day.
Proof.
  intros Hcfg Hmem Hkeep Hon Hday Hdur Hn Hm. cbv zeta.
  destruct (isMonthlyOn_fields day e Hon) as (Hmod & Hparse & Hcalc).
  destruct (month_bounds_days year month Hm) as (Hs & He). cbv zeta in Hs, He.
  pose proof (month_length month _ Hm (leapFlag_cases (fullYear year)))
    as (Hlen & _).
  assert (Hstart : DateUTC year month day 8 0 0 0
                   = (DayFromYear (fullYear year)
                      + monthStartDay month
                          (if isLeapYear (fullYear year) then 1 else 0)
                      + day - 1) * msPerDay + 28800000).
  { rewrite DateUTC_at8. fold (fullYear year). now rewrite MakeDay_month by lia. }
  split.
  - unfold getCalendarForMonth. rewrite Hcfg. cbv zeta.
    rewrite !forEachPushIfPresent_pushed. cbn [app].
    rewrite in_app_iff, In_pushed. left. exists e. split; [exact Hmem|].
    unfold calendarRepeating. rewrite Hkeep, Hmod, Hcalc. cbn [fst].
    unfold monthlyMarkers.
    pose proof (calculateMonthlyEvent_at_monthStart (Event.baseDate e)
                  (Event.durationDays e) day year month Hm Hparse) as Hws.
    destruct (Z.eqb_spec day 1); [lia|].
    rewrite MakeDay_month in Hws by lia. rewrite <- Hstart in Hws by lia.
    specialize (Hws ltac:(lia)).
    assert (Hwe : Window.end_
                    (calculateMonthlyEvent (Event.baseDate e)
                       (Event.durationDays e) (DateUTC year month 1 0 0 0 0))
                  = addUTCDays
                      (Window.start
                         (calculateMonthlyEvent (Event.baseDate e)
                            (Event.durationDays e)
                            (DateUTC year month 1 0 0 0 0)))
                      (Event.durationDays e)) by reflexivity.
    rewrite Hwe, Hws, Hdur, addUTCDays_valid.
    cbn [date_gt date_lt date_le].
    rewrite Hs, He, Hstart.
    set (base := DayFromYear (fullYear year)) in *.
    set (l := if isLeapYear (fullYear year) then 1 else 0) in *.
    clearbody base l.
    match goal with
    | |- In _ (if ?a && ?b then _ else _) =>
        assert (Ha : a = true) by (apply Z.ltb_lt; unfold msPerDay; lia);
        assert (Hb : b = true) by (apply Z.leb_le; unfold msPerDay; lia);
        rewrite Ha, Hb; cbn [andb]
    end.
    match goal with
    | |- In _ ((if ?a then _ else _) ++ _) =>
        assert (Hc : a = true)
          by (apply Z.geb_le; unfold msPerDay; lia);
        rewrite Hc
    end.
    left. reflexivity.
  - unfold calendarEntry. cbn [CalendarEntry.date]. unfold getUTCDate.
    apply (civil_of_day (fullYear year) month day); [assumption|lia|].
    rewrite Hstart, Day_at8. reflexivity.
Qed.

Lemma monthly_start_marker_witness :
  In (calendarEntry
        (Event.mk "Clan Games" "gamepad" None None None false (Some "22")
           (Some "monthly") (Some 6) None None None)
        "repeating" (DateUTC 2026 1 22 8 0 0 0) true false)
     (getCalendarForMonth
        (loaded
           (Config.mk
              (Some [Event.mk "Clan Games" "gamepad" None None None false
                       (Some "22") (Some "monthly") (Some 6) None None None])
              None None))
        2026 1).
Proof.
  refine (proj1 (monthly_start_marker _ _ _ 22 6 2026 1 _ _ _ _ _ _ _ _)).
  - reflexivity.
  - cbn. left. reflexivity.
  - reflexivity.
  - reflexivity.
  - lia.
  - reflexivity.
  - lia.
  - lia.
Defined.

End MonthlyCalendar.

(** ** Weekly definitions, week by week *)

Section WeekByWeek.
Import JSTime JSTimeFacts.

Lemma weekly_calculator (e : Event.t) (reference : Z) :
  hasModifier e "weekly" = true ->
  calculateRepeatingEventDates e reference
  = calculateWeeklyEvent (Event.baseDate e) (Event.durationDays e) reference.
Proof.
  unfold hasModifier, calculateRepeatingEventDates.
  destruct (Event.modifier e) as [m|]; [|discriminate].
  intros H. apply String.eqb_eq in H. subst m. reflexivity.
Qed.

Lemma WeekDay_week_later (t : Z) : WeekDay (t + 7 * msPerDay) = WeekDay t.
Proof.
  unfold WeekDay. rewrite Day_shift. Z.div_mod_to_equations. lia.
Qed.

Lemma at8_week_later (t k : Z) :
  setUTCHours
    (setUTCDate (t + 7 * msPerDay) (getUTCDate (t + 7 * msPerDay) + k)) 8 0 0 0
  = setUTCHours (setUTCDate t (getUTCDate t + k)) 8 0 0 0 + 7 * msPerDay.
Proof. rewrite !at8_shift, Day_shift. unfold msPerDay. lia. Qed.

Lemma addUTCDays_shift (x : JSDate) (n : JSNumber) (delta : Z) :
  addUTCDays (option_map (fun t => t + delta) x) n
  = option_map (fun t => t + delta) (addUTCDays x n).
Proof.
  destruct x as [s|], n as [k|]; cbn [option_map addUTCDays]; try reflexivity.
  rewrite !setUTCDate_shift. f_equal. lia.
Qed.

Lemma calculateWeeklyEvent_week_later (baseDate : option string)
    (durationDays : JSNumber) (reference : Z) :
  calculateWeeklyEvent baseDate durationDays (reference + 7 * msPerDay)
  = shiftResult (7 * msPerDay)
      (calculateWeeklyEvent baseDate durationDays reference).
Proof.
  unfold calculateWeeklyEvent.
  destruct (indexOf daysOfWeek baseDate =? -1); [reflexivity|].
  cbv zeta. unfold getUTCDay. rewrite WeekDay_week_later.
  set (target := indexOf daysOfWeek baseDate).
  set (k := Z.rem (WeekDay reference - target + 7) 7).
  assert (Hlast : lastWeekWindow k durationDays (reference + 7 * msPerDay)
                  = shiftWindow (7 * msPerDay)
                      (lastWeekWindow k durationDays reference)).
  { unfold lastWeekWindow, shiftWindow. cbn [Window.start Window.end_ option_map].
    replace (getUTCDate (reference + 7 * msPerDay) - k)
      with (getUTCDate (reference + 7 * msPerDay) + - k) by lia.
    replace (getUTCDate reference - k) with (getUTCDate reference + - k) by lia.
    rewrite at8_week_later.
    rewrite <- (addUTCDays_shift
                  (Some (setUTCHours
                           (setUTCDate reference (getUTCDate reference + - k))
                           8 0 0 0))).
    reflexivity. }
  assert (Hnext : nextWeekWindow target (WeekDay reference) durationDays
                    (reference + 7 * msPerDay)
                  = shiftWindow (7 * msPerDay)
                      (nextWeekWindow target (WeekDay reference) durationDays
                         reference)).
  { unfold nextWeekWindow, shiftWindow. cbv zeta.
    cbn [Window.start Window.end_ option_map].
    rewrite at8_week_later.
    rewrite <- (addUTCDays_shift (Some _)). reflexivity. }
  rewrite Hlast, Hnext.
  assert (Hcond : forall w,
             date_ge (Some (reference + 7 * msPerDay))
               (Window.start (shiftWindow (7 * msPerDay) w))
             = date_ge (Some reference) (Window.start w)
             /\ date_lt (Some (reference + 7 * msPerDay))
                  (Window.end_ (shiftWindow (7 * msPerDay) w))
                = date_lt (Some reference) (Window.end_ w)).
  { intros [[s|] [en|]]; cbn; repeat split;
      try (destruct (Z.leb_spec (s + 7 * msPerDay) (reference + 7 * msPerDay));
           destruct (Z.leb_spec s reference); lia || reflexivity);
      try (destruct (Z.ltb_spec (reference + 7 * msPerDay) (en + 7 * msPerDay));
           destruct (Z.ltb_spec reference en); lia || reflexivity). }
  destruct (Hcond (lastWeekWindow k durationDays reference)) as [-> ->].
  destruct ((0 <? k) && num_le (Some k) durationDays
            && date_ge (Some reference)
                 (Window.start (lastWeekWindow k durationDays reference))
            && date_lt (Some reference)
                 (Window.end_ (lastWeekWindow k durationDays reference)));
    reflexivity.
Qed.

(** X19. The weekly calculator is periodic: asked a week later, it
    returns the same window a week later (or throws the same error), so
    a weekly definition is active at an instant exactly when it is
    active 7 days after it. *)
Theorem weekly_window_is_periodic (e : Event.t) (reference : Z) :
  hasModifier e "weekly" = true ->
  calculateRepeatingEventDates e (reference + 7 * msPerDay)
  = shiftResult (7 * msPerDay) (calculateRepeatingEventDates e reference)
  /\ (activeRepeating (reference + 7 * msPerDay) e = []
      <-> activeRepeating reference e = []).
Proof.
  intros Hw.
  assert (Hshift : calculateRepeatingEventDates e (reference + 7 * msPerDay)
                   = shiftResult (7 * msPerDay)
                       (calculateRepeatingEventDates e reference)).
  { rewrite !weekly_calculator by assumption.
    apply calculateWeeklyEvent_week_later. }
  split; [exact Hshift|].
  unfold activeRepeating. rewrite Hshift.
  destruct (isSoftDeleted e); [tauto|].
  destruct (calculateRepeatingEventDates e reference) as [[[s|] [en|]]|];
    cbn [shiftResult shiftWindow Window.start Window.end_ option_map];
    try (unfold isWithin; cbn; rewrite ?andb_false_r; tauto).
  unfold isWithin. cbn [date_ge date_le date_lt].
  destruct (Z.leb_spec (s + 7 * msPerDay) (reference + 7 * msPerDay));
    destruct (Z.leb_spec s reference); try lia;
    destruct (Z.ltb_spec (reference + 7 * msPerDay) (en + 7 * msPerDay));
    destruct (Z.ltb_spec reference en); try lia; cbn [andb];
    split; intros Hnil; try reflexivity; discriminate Hnil.
Qed.

Lemma weekly_window_is_periodic_witness :
  calculateRepeatingEventDates raidWeekend
    (DateUTC 2026 0 18 12 0 0 0 + 7 * msPerDay)
  = shiftResult (7 * msPerDay)
      (calculateRepeatingEventDates raidWeekend (DateUTC 2026 0 18 12 0 0 0)).
Proof.
  apply (proj1 (weekly_window_is_periodic raidWeekend
                  (DateUTC 2026 0 18 12 0 0 0) eq_refl)).
Defined.

End WeekByWeek.

(** ** No occurrence is marked twice *)

Section NoDuplicates.
Import JSTime JSTimeFacts.

Lemma NoDup_append {A : Type} (l l' : list A) :
  NoDup l -> NoDup l' -> (forall a, In a l -> ~ In a l') -> NoDup (l ++ l').
Proof.
  induction 1 as [|x l Hx Hl IH]; intros Hl' Hdisj; cbn; [assumption|].
  constructor.
  - rewrite in_app_iff. intros [H|H]; [contradiction|].
    apply (Hdisj x); [now left | assumption].
  - apply IH; [assumption|]. intros a Ha. apply Hdisj. now right.
Qed.

(** The markers of one window: at most a start marker followed by an end
    marker. *)
Lemma boundedMarkers_cases (e : Event.t) (type : string)
    (monthStart monthEnd : Z) (start end_ : JSDate) :
  boundedMarkers e type monthStart monthEnd start end_ = []
  \/ exists s en,
       start = Some s /\ end_ = Some en
       /\ (boundedMarkers e type monthStart monthEnd start end_
           = [calendarEntry e type s true false]
          \/ boundedMarkers e type monthStart monthEnd start end_
             = [calendarEntry e type en false true]
          \/ boundedMarkers e type monthStart monthEnd start end_
             = [calendarEntry e type s true false;
                calendarEntry e type en false true]).
Proof.
  unfold boundedMarkers.
  destruct (date_gt end_ (Some monthStart) && date_le start (Some monthEnd));
    [|now left].
  destruct start as [s|], end_ as [en|]; try (now left).
  destruct ((s >=? monthStart) && (s <=? monthEnd));
    destruct ((en >=? monthStart) && (en <=? monthEnd)); cbn [app];
    [right; exists s, en; auto | right; exists s, en; auto
     | right; exists s, en; auto | now left].
Qed.

Lemma weekly_window_form (e : Event.t) (reference : Z) (w : Window.t) :
  hasModifier e "weekly" = true ->
  calculateRepeatingEventDates e reference = Ok w ->
  exists s, Window.start w = Some s
            /\ Window.end_ w
               = option_map (fun n => s + n * msPerDay) (Event.durationDays e).
Proof.
  intros Hw. rewrite weekly_calculator by assumption.
  unfold calculateWeeklyEvent.
  destruct (indexOf daysOfWeek (Event.baseDate e) =? -1); [discriminate|].
  cbv zeta.
  destruct (_ && _); intros [= <-].
  - unfold lastWeekWindow. cbn [Window.start Window.end_]. eexists.
    split; [reflexivity|].
    destruct (Event.durationDays e); [now rewrite addUTCDays_valid|reflexivity].
  - unfold nextWeekWindow. cbv zeta. cbn [Window.start Window.end_]. eexists.
    split; [reflexivity|].
    destruct (Event.durationDays e); [now rewrite addUTCDays_valid|reflexivity].
Qed.

Lemma weeklySearch_occurrences (e : Event.t) (n : Z) (monthStart monthEnd : Z)
    (fuel : nat) :
  hasModifier e "weekly" = true ->
  Event.durationDays e = Some n ->
  forall searchDate s w c,
    calculateRepeatingEventDates e searchDate = Ok w ->
    Window.start w = Some s ->
    In c (fst (weeklySearch fuel e monthStart monthEnd searchDate)) ->
    s <= occurrenceStart n c.
Proof.
  intros Hw Hn. induction fuel as [|fuel IH]; intros searchDate s w c Hcalc Hs;
    cbn [weeklySearch]; destruct (searchDate <=? monthEnd);
    try (intros []; fail).
  rewrite Hcalc. rewrite setUTCDate_shift.
  pose proof (calculateWeeklyEvent_week_later (Event.baseDate e)
                (Event.durationDays e) searchDate) as Hlater.
  rewrite <- !weekly_calculator in Hlater by assumption.
  rewrite Hcalc in Hlater. cbn [shiftResult] in Hlater.
  specialize (IH (searchDate + 7 * msPerDay) (s + 7 * msPerDay)
                (shiftWindow (7 * msPerDay) w) c Hlater).
  destruct (weeklySearch fuel e monthStart monthEnd (searchDate + 7 * msPerDay))
    as [rest completion].
  cbn [fst] in *. rewrite in_app_iff. intros [Hhere|Hrest].
  - destruct (weekly_window_form e searchDate w Hw Hcalc) as (s' & Hs' & He').
    rewrite Hs in Hs'. injection Hs' as <-. rewrite Hn in He'. cbn in He'.
    destruct (boundedMarkers_cases e "repeating" monthStart monthEnd
                (Window.start w) (Window.end_ w))
      as [Hnil|(s1 & en1 & Hs1 & He1 & Hlist)].
    + rewrite Hnil in Hhere. destruct Hhere.
    + rewrite Hs in Hs1. injection Hs1 as <-.
      rewrite He' in He1. injection He1 as <-.
      destruct Hlist as [Hl|[Hl|Hl]]; rewrite Hl in Hhere;
        cbn [In] in Hhere;
        repeat (destruct Hhere as [<-|Hhere];
                [unfold occurrenceStart, calendarEntry;
                 cbn [CalendarEntry.isStart CalendarEntry.fullDate]; lia|]);
        destruct Hhere.
  - assert (s + 7 * msPerDay <= occurrenceStart n c).
    { apply IH; [|assumption]. unfold shiftWindow. cbn [Window.start].
      now rewrite Hs. }
    unfold msPerDay in *. lia.
Qed.

Lemma weeklySearch_NoDup (e : Event.t) (monthStart monthEnd : Z) (fuel : nat)
    (searchDate : Z) :
  hasModifier e "weekly" = true ->
  NoDup (fst (weeklySearch fuel e monthStart monthEnd searchDate)).
Proof.
  intros Hw. revert searchDate.
  induction fuel as [|fuel IH]; intros searchDate; cbn [weeklySearch];
    destruct (searchDate <=? monthEnd); try (cbn; constructor; fail).
  destruct (calculateRepeatingEventDates e searchDate) as [w|] eqn:Hcalc;
    [|cbn; constructor].
  rewrite setUTCDate_shift.
  pose proof (IH (searchDate + 7 * msPerDay)) as Hrest.
  destruct (weekly_window_form e searchDate w Hw Hcalc) as (s & Hs & He).
  pose proof (calculateWeeklyEvent_week_later (Event.baseDate e)
                (Event.durationDays e) searchDate) as Hlater.
  rewrite <- !weekly_calculator in Hlater by assumption.
  rewrite Hcalc in Hlater. cbn [shiftResult] in Hlater.
  destruct (Event.durationDays e) as [n|] eqn:Hn.
  - pose proof (fun c =>
                  weeklySearch_occurrences e n monthStart monthEnd fuel Hw Hn
                    (searchDate + 7 * msPerDay) (s + 7 * msPerDay)
                    (shiftWindow (7 * msPerDay) w) c Hlater) as Hfloor.
    destruct (weeklySearch fuel e monthStart monthEnd
                (searchDate + 7 * msPerDay)) as [rest completion].
    cbn [fst] in *.
    assert (Hfloor' : forall c, In c rest -> s + 7 * msPerDay <= occurrenceStart n c).
    { intros c Hc. apply Hfloor; [|assumption].
      unfold shiftWindow. cbn [Window.start]. now rewrite Hs. }
    cbn in He.
    destruct (boundedMarkers_cases e "repeating" monthStart monthEnd
                (Window.start w) (Window.end_ w))
      as [Hnil|(s1 & en1 & Hs1 & He1 & Hlist)].
    + now rewrite Hnil.
    + rewrite Hs in Hs1. injection Hs1 as <-.
      rewrite He in He1. injection He1 as <-.
      assert (Hs_out : ~ In (calendarEntry e "repeating" s true false) rest).
      { intros Hc. apply Hfloor' in Hc. unfold occurrenceStart, calendarEntry in Hc.
        cbn [CalendarEntry.isStart CalendarEntry.fullDate] in Hc.
        unfold msPerDay in Hc. lia. }
      assert (He_out : ~ In (calendarEntry e "repeating" (s + n * msPerDay)
                               false true) rest).
      { intros Hc. apply Hfloor' in Hc. unfold occurrenceStart, calendarEntry in Hc.
        cbn [CalendarEntry.isStart CalendarEntry.fullDate] in Hc.
        unfold msPerDay in Hc. lia. }
      destruct Hlist as [Hl|[Hl|Hl]]; rewrite Hl; cbn [app].
      * now constructor.
      * now constructor.
      * constructor; [|now constructor].
        intros [Heq|Hin]; [|contradiction].
        unfold calendarEntry in Heq. discriminate Heq.
  - cbn in He.
    destruct (boundedMarkers_cases e "repeating" monthStart monthEnd
                (Window.start w) (Window.end_ w))
      as [Hnil|(s1 & en1 & _ & He1 & _)]; [|congruence].
    rewrite Hnil.
    destruct (weeklySearch fuel e monthStart monthEnd
                (searchDate + 7 * msPerDay)) as [rest completion].
    exact Hrest.
Qed.

(** X20. Within a month no marker of a definition is repeated: the
    markers that one repeating definition contributes to
    [getCalendarForMonth] are pairwise different; for a weekly
    definition each search date yields a later occurrence than the one
    before. *)
Theorem calendar_markers_of_a_definition_are_distinct (e : Event.t)
    (monthStart monthEnd : Z) :
  NoDup (fst (calendarRepeating monthStart monthEnd e))
  /\ NoDup (calendarOneTime monthStart monthEnd e).
Proof.
  assert (Hbounded : forall type start end_,
             NoDup (boundedMarkers e type monthStart monthEnd start end_)).
  { intros type start end_.
    destruct (boundedMarkers_cases e type monthStart monthEnd start end_)
      as [-> | (s & en & _ & _ & [-> | [-> | ->]])];
      repeat constructor; cbn [In]; try tauto.
    intros [Heq|[]]. unfold calendarEntry in Heq. discriminate Heq. }
  split.
  - unfold calendarRepeating.
    destruct (isSoftDeleted e); [constructor|].
    destruct (hasModifier e "monthly").
    + destruct (calculateRepeatingEventDates e monthStart) as [w|];
        [|constructor].
      cbn [fst]. unfold monthlyMarkers.
      destruct (_ && _); [|constructor].
      destruct (Window.start w) as [s|], (Window.end_ w) as [en|];
        try constructor.
      destruct (s >=? monthStart); destruct (en <=? monthEnd); cbn [app];
        repeat constructor; cbn [In]; try tauto.
      intros [Heq|[]]. unfold calendarEntry in Heq. discriminate Heq.
    + destruct (hasModifier e "weekly") eqn:Hw; [|constructor].
      now apply weeklySearch_NoDup.
  - unfold calendarOneTime. destruct (isSoftDeleted e); [constructor|].
    apply Hbounded.
Qed.

End NoDuplicates.

(** ** Asking for one event *)

Lemma active_body_inversion (kind : Kind) (e : Event.t) (currentDate : Z)
    (a : ActiveEvent.t) :
  In a match kind with
       | Repeating => activeRepeating currentDate e
       | OneTime => activeOneTime currentDate e
       end ->
  isSoftDeleted e = false
  /\ exists start end_,
       windowOf kind e currentDate = Ok (Window.mk (Some start) (Some end_))
       /\ start <= currentDate < end_
       /\ a = activeViewOf kind e start end_ currentDate.
Proof.
  destruct kind; cbn [windowOf activeViewOf].
  - unfold activeRepeating. destruct (isSoftDeleted e); [intros []|].
    destruct (calculateRepeatingEventDates e currentDate) as [[[s|] [en|]]|];
      cbn [Window.start Window.end_];
      try (destruct (isWithin _ _ _); intros []; fail); try (intros []; fail).
    destruct (isWithin currentDate (Some s) (Some en)) eqn:E; [|intros []].
    apply isWithin_valid in E. intros [<-|[]].
    split; [reflexivity|]. now exists s, en.
  - unfold activeOneTime. destruct (isSoftDeleted e); [intros []|]. cbv zeta.
    destruct (newDate (Event.start e)) as [s|], (newDate (Event.end_ e)) as [en|];
      try (destruct (isWithin _ _ _); intros []; fail).
    destruct (isWithin currentDate (Some s) (Some en)) eqn:E; [|intros []].
    apply isWithin_valid in E. intros [<-|[]].
    split; [reflexivity|]. now exists s, en.
Qed.

(** X21. On a manager with nothing cached, [isEventActive(title, t)]
    answers true exactly when some definition with that title, repeating
    or one-time, is not soft-deleted and has a valid window that
    contains [t]; the call caches the list it computed at [t]. *)
Theorem isEventActive_by_title (cfg : Config.t) (this : EventsManager.t)
    (heap : Heap) (eventTitle : string) (currentDate : Z) :
  EventsManager.eventsConfig this = Some cfg ->
  EventsManager.cachedActiveEvents this = None ->
  (fst (fst (isEventActive this heap eventTitle currentDate)) = true <->
   exists kind e start end_,
     isDefinition kind e cfg
     /\ isSoftDeleted e = false
     /\ Event.title e = eventTitle
     /\ windowOf kind e currentDate = Ok (Window.mk (Some start) (Some end_))
     /\ start <= currentDate < end_)
  /\ snd (fst (isEventActive this heap eventTitle currentDate))
     = EventsManager.mk (Some cfg) (Some (List.length heap)) (Some currentDate)
  /\ deref (snd (isEventActive this heap eventTitle currentDate))
       (List.length heap)
     = Some (computeActiveEvents cfg currentDate).
Proof.
  intros Hcfg Hcache. unfold isEventActive.
  rewrite (getActiveEvents_no_cache _ _ _ _ _ Hcfg Hcache).
  change (deref (heap ++ [computeActiveEvents cfg currentDate]) (List.length heap))
    with (deref (snd (alloc heap (computeActiveEvents cfg currentDate)))
            (fst (alloc heap (computeActiveEvents cfg currentDate)))).
  rewrite deref_alloc. cbn [fst snd].
  split; [|split; [reflexivity|]].
  - rewrite existsb_exists. split.
    + intros (a & Ha & Ht). apply String.eqb_eq in Ht.
      apply In_computeActiveEvents in Ha as [(e & Hdef & Hin)|(e & Hdef & Hin)].
      * destruct (active_body_inversion Repeating e currentDate a Hin)
          as (Hkeep & s & en & Hw & Hin' & ->).
        exists Repeating, e, s, en. repeat split; try assumption; lia.
      * destruct (active_body_inversion OneTime e currentDate a Hin)
          as (Hkeep & s & en & Hw & Hin' & ->).
        exists OneTime, e, s, en. repeat split; try assumption; lia.
    + intros (kind & e & s & en & Hdef & Hkeep & Ht & Hw & Hin).
      exists (activeViewOf kind e s en currentDate). split.
      * apply In_computeActiveEvents.
        pose proof (active_of_window kind e currentDate s en Hkeep Hw) as Hpush.
        apply isWithin_valid in Hin. rewrite Hin in Hpush.
        destruct kind; [left|right]; exists e; (split; [exact Hdef|]);
          rewrite Hpush; now left.
      * destruct (activeViewOf_bounds kind e s en currentDate) as (_ & _ & ->).
        now apply String.eqb_eq.
  - change (deref (heap ++ [computeActiveEvents cfg currentDate]) (List.length heap))
      with (deref (snd (alloc heap (computeActiveEvents cfg currentDate)))
              (fst (alloc heap (computeActiveEvents cfg currentDate)))).
    apply deref_alloc.
Qed.

Lemma isEventActive_by_title_witness :
  fst (fst (isEventActive (loaded documentedConfig) [] "Raid Weekend"
              (JSTime.DateUTC 2026 0 17 12 0 0 0)))
  = true.
Proof.
  apply (proj1 (isEventActive_by_title documentedConfig (loaded documentedConfig)
                  [] "Raid Weekend" (JSTime.DateUTC 2026 0 17 12 0 0 0)
                  eq_refl eq_refl)).
  exists Repeating, raidWeekend, (JSTime.DateUTC 2026 0 16 8 0 0 0),
    (JSTime.DateUTC 2026 0 19 8 0 0 0).
  split; [cbn; right; left; reflexivity|].
  split; [reflexivity|]. split; [reflexivity|].
  split; [vm_compute; reflexivity|].
  vm_compute. split; [discriminate | reflexivity].
Defined.

(** ** The calendar of the unified revision *)

Section UnifiedCalendar.
Import JSTime JSTimeFacts.

Lemma unified_calendarEvent_within (e : Event.t) (monthStart monthEnd : Z)
    (c : CalendarEntry.t) :
  In c (Unified.calendarEvent monthStart monthEnd e) ->
  markerWithin monthStart monthEnd c.
Proof.
  unfold Unified.calendarEvent.
  destruct (isSoftDeleted e); [intros []|]. cbv zeta.
  match goal with
  | |- In c (match ?d with _ => _ end) -> _ =>
      destruct d as [[[start end_]|]|]; try (intros []; fail)
  end.
  destruct (hasModifier e "weekly" && Event.ignoreDate e).
  - apply weeklySearch_within.
  - apply boundedMarkers_within.
Qed.

(** X22. Every marker that the unified [getCalendarForMonth] returns
    lies between the first instant of the month asked for and 23:59:59
    of its last day, carries the day of the month of its instant in
    [date], and is a start marker or an end marker, never both. *)
Theorem unified_getCalendarForMonth_markers_in_month (this : EventsManager.t)
    (year month : Z) :
  Forall
    (markerWithin (DateUTC year month 1 0 0 0 0)
       (DateUTC year (month + 1) 0 23 59 59 0))
    (Unified.getCalendarForMonth this year month).
Proof.
  apply Forall_forall. intros c. unfold Unified.getCalendarForMonth.
  destruct (EventsManager.eventsConfig this) as [cfg|]; [|intros []].
  cbv zeta. rewrite !forEachPushIfPresent_pushed. cbn [app].
  rewrite in_app_iff, !In_pushed.
  intros [(e & _ & H)|(e & _ & H)];
    now apply unified_calendarEvent_within in H.
Qed.

(** In the monthly branch of the first revision the tests on the markers
    are the ones of the other branches, given the overlap test around
    them. *)
Lemma monthlyMarkers_bounded (e : Event.t) (monthStart monthEnd : Z)
    (w : Window.t) :
  monthlyMarkers e monthStart monthEnd w
  = boundedMarkers e "repeating" monthStart monthEnd
      (Window.start w) (Window.end_ w).
Proof.
  unfold monthlyMarkers, boundedMarkers.
  destruct (Window.start w) as [s|], (Window.end_ w) as [en|]; try reflexivity.
  destruct (date_gt (Some en) (Some monthStart)
            && date_le (Some s) (Some monthEnd)) eqn:E; [|reflexivity].
  apply andb_prop in E as [Hen Hs]. cbn in Hen, Hs.
  apply Z.ltb_lt in Hen. apply Z.leb_le in Hs.
  destruct (Z.geb_spec s monthStart); destruct (Z.leb_spec s monthEnd);
    destruct (Z.geb_spec en monthStart); destruct (Z.leb_spec en monthEnd);
    cbn [andb]; try reflexivity; lia.
Qed.

(** X23. The two revisions of the calendar agree on recurrences: a
    definition marked [ignoreDate], with a baseDate, a modifier or a
    duration, and no [type], contributes the same markers to the unified
    [getCalendarForMonth] as to the first one; so do whole
    configurations of such repeating definitions without fixed-date
    ones. *)
Theorem calendars_agree_on_recurrences (cfg : Config.t)
    (this : EventsManager.t) (year month : Z) :
  let recurrence := fun e =>
    Event.ignoreDate e && truthyString (Event.baseDate e)
    && (truthyString (Event.modifier e) || isDefined (Event.durationDays e))
    && negb (truthyString (Event.type e)) in
  (forall e monthStart monthEnd,
      recurrence e = true ->
      Unified.calendarEvent monthStart monthEnd e
      = fst (calendarRepeating monthStart monthEnd e))
  /\ (EventsManager.eventsConfig this = Some cfg ->
      (forall e, member e (Config.repeating_events cfg) -> recurrence e = true) ->
      Config.one_time_events cfg = None ->
      Config.non_repeating_events cfg = None ->
      Unified.getCalendarForMonth this year month
      = getCalendarForMonth this year month).
Proof.
  cbv zeta.
  assert (Hone : forall e monthStart monthEnd,
             Event.ignoreDate e && truthyString (Event.baseDate e)
             && (truthyString (Event.modifier e)
                 || isDefined (Event.durationDays e))
             && negb (truthyString (Event.type e)) = true ->
             Unified.calendarEvent monthStart monthEnd e
             = fst (calendarRepeating monthStart monthEnd e)).
  { intros e monthStart monthEnd H.
    apply andb_prop in H as [H Htype]. apply negb_true_iff in Htype.
    apply andb_prop in H as [H Hfields]. apply andb_prop in H as [Hflag Hbase].
    unfold Unified.calendarEvent, calendarRepeating.
    destruct (isSoftDeleted e); [reflexivity|].
    rewrite Hflag, Hbase, Hfields. cbn [andb]. rewrite andb_true_r.
    destruct (hasModifier e "monthly") eqn:Hm.
    - assert (Hw : hasModifier e "weekly" = false).
      { unfold hasModifier in *. destruct (Event.modifier e) as [m|];
          [|discriminate]. apply String.eqb_eq in Hm. now subst m. }
      rewrite Hw.
      destruct (calculateRepeatingEventDates e monthStart) as [w|];
        [|reflexivity].
      cbn [fst]. rewrite monthlyMarkers_bounded.
      unfold orString. now rewrite Htype.
    - destruct (hasModifier e "weekly") eqn:Hw.
      + destruct (calculateRepeatingEventDates e monthStart) as [w|] eqn:Hcalc;
          [reflexivity|].
        destruct (weeklySearchBound monthStart monthEnd) as [|fuel];
          cbn [weeklySearch]; destruct (monthStart <=? monthEnd);
          try reflexivity.
        now rewrite Hcalc.
      + now rewrite (unknown_modifier_throws e monthStart Hm Hw). }
  split; [exact Hone|].
  intros Hcfg Hall Hno1 Hno2.
  unfold Unified.getCalendarForMonth, getCalendarForMonth.
  rewrite Hcfg. cbv zeta. rewrite !forEachPushIfPresent_pushed.
  rewrite Hno1, Hno2. cbn [pushed app]. rewrite !app_nil_r.
  apply pushed_ext_in. intros e He. apply Hone. now apply Hall.
Qed.

Lemma calendars_agree_on_recurrences_witness :
  Unified.calendarEvent (DateUTC 2026 1 1 0 0 0 0) (DateUTC 2026 2 0 23 59 59 0)
    (Event.mk "Raid Weekend" "trophy" None None None true (Some "Friday")
       (Some "weekly") (Some 3) None None None)
  = fst (calendarRepeating (DateUTC 2026 1 1 0 0 0 0)
           (DateUTC 2026 2 0 23 59 59 0)
           (Event.mk "Raid Weekend" "trophy" None None None true (Some "Friday")
              (Some "weekly") (Some 3) None None None)).
Proof.
  apply (proj1 (calendars_agree_on_recurrences goldPassConfig
                  (loaded goldPassConfig) 2026 1)).
  reflexivity.
Defined.

End UnifiedCalendar.
